(** * Causal analysis of customer-service transcripts: a shallow embedding

    The development follows the Python modules of the repository:

    - [task1_retrieval.py]: the transcript data model, the loader and the
      retriever ([ConversationRetriever]);
    - [models/pattern_analyzer.py]: the regular-expression tables and the
      functions that run them ([PatternAnalyzer]);
    - [task2_causal_analysis.py]: the rule engine that builds a
      [CausalExplanation] ([CausalAnalyzer]);
    - [main.py]: the system that chains retrieval and analysis
      ([CausalAnalysisSystem.process_query]).

    Modelling conventions.

    - A Python [str] is a Rocq [string] whose characters are the code points
      0..255 (Latin-1).  [str.lower], [str.isspace], [str.split] and the
      classes [\s], [\d], [\w] of [re] are written out for these code points.
    - A Python [float] is an IEEE 754 binary64 number, [spec_float] with
      [prec = 53] and [emax = 1024], and every arithmetic operation is the
      correctly rounded one of [SpecFloat].  An [int] that meets a float is
      converted first, as Python does.
    - A Python [dict] is an association list in insertion order with unique
      keys; assigning to an existing key keeps its position.
    - Code that can raise returns [exc], code that mutates [self] returns the
      new object next to its result, and the clock that stamps an explanation
      is an argument.
    - The loader copies JSON values without looking at their types, so it is
      modelled on dynamically typed values ([Loader.pyval]); retrieval and
      analysis are modelled on transcripts whose fields have the types of
      their annotations.
    - The embedding model is not part of the repository: its two calls are
      parameters of the semantic retrieval path.

    The definitions come first, the facts and the theorems about them
    after. *)

From Stdlib Require Import List String Ascii ZArith NArith Bool Arith Lia.
From Stdlib Require Import DecimalString DecimalNat Permutation Sorted.
From Stdlib Require Import Floats.SpecFloat.
Import ListNotations.

Local Open Scope list_scope.
Local Open Scope string_scope.

(* ================================================================== *)
(** * Python strings *)
(* ================================================================== *)

Module PyStr.

Definition code (c : ascii) : N := N_of_ascii c.

Definition between (lo hi : N) (c : ascii) : bool :=
  (N.leb lo (code c) && N.leb (code c) hi)%bool.

(** [str.isspace] on one character; also the class [\s] of [re]. *)
Definition isspace (c : ascii) : bool :=
  (between 9 13 c || between 28 32 c
   || N.eqb (code c) 133 || N.eqb (code c) 160)%bool.

(** The class [\d] of [re]. *)
Definition isdigit (c : ascii) : bool := between 48 57 c.

(** The class [\w] of [re]: alphanumeric characters and the underscore. *)
Definition isword (c : ascii) : bool :=
  (between 48 57 c || between 65 90 c || N.eqb (code c) 95
   || between 97 122 c
   || N.eqb (code c) 170 || between 178 179 c || N.eqb (code c) 181
   || between 185 186 c || between 188 190 c
   || between 192 214 c || between 216 246 c || between 248 255 c)%bool.

(** Upper-case letters: [A-Z] and the Latin-1 capitals but the
    multiplication sign. *)
Definition isupper (c : ascii) : bool :=
  (between 65 90 c || between 192 214 c || between 216 222 c)%bool.

Definition lower_char (c : ascii) : ascii :=
  if isupper c then ascii_of_N (code c + 32) else c.

Definition upper_char (c : ascii) : ascii :=
  if between 97 122 c then ascii_of_N (code c - 32) else c.

(** [s.lower()] *)
Fixpoint lower (s : string) : string :=
  match s with
  | EmptyString => EmptyString
  | String c s' => String (lower_char c) (lower s')
  end.

(** [len(s)] *)
Definition len (s : string) : nat := String.length s.

(** [s[:n]] for [n >= 0] *)
Fixpoint take (n : nat) (s : string) : string :=
  match n, s with
  | O, _ => EmptyString
  | S _, EmptyString => EmptyString
  | S n', String c s' => String c (take n' s')
  end.

(** [s.startswith(p)] *)
Fixpoint startswith (p s : string) : bool :=
  match p, s with
  | EmptyString, _ => true
  | String _ _, EmptyString => false
  | String a p', String b s' => if Ascii.eqb a b then startswith p' s' else false
  end.

(** [sub in s] *)
Fixpoint contains (sub s : string) : bool :=
  if startswith sub s then true
  else match s with
       | EmptyString => false
       | String _ s' => contains sub s'
       end.

(** [sep.join(parts)] *)
Fixpoint join (sep : string) (parts : list string) : string :=
  match parts with
  | [] => EmptyString
  | [p] => p
  | p :: rest => p ++ sep ++ join sep rest
  end.

(** [s.split()]: the maximal runs of non-space characters.  [cur] holds
    the current run in reverse. *)
Fixpoint rev_string (acc s : string) : string :=
  match s with
  | EmptyString => acc
  | String c s' => rev_string (String c acc) s'
  end.

Definition flush (cur : string) (out : list string) : list string :=
  match cur with
  | EmptyString => out
  | _ => rev_string EmptyString cur :: out
  end.

Fixpoint split_go (s cur : string) : list string :=
  match s with
  | EmptyString => flush cur []
  | String c s' =>
      if isspace c then flush cur (split_go s' EmptyString)
      else split_go s' (String c cur)
  end.

Definition split (s : string) : list string := split_go s EmptyString.

(** [s.title()]: the first letter of every run of letters in upper case,
    the others in lower case (used on ASCII keys only). *)
Definition isalpha_ascii (c : ascii) : bool :=
  (between 65 90 c || between 97 122 c)%bool.

Fixpoint title_go (s : string) (inword : bool) : string :=
  match s with
  | EmptyString => EmptyString
  | String c s' =>
      if isalpha_ascii c
      then String (if inword then lower_char c else upper_char c) (title_go s' true)
      else String c (title_go s' false)
  end.

Definition title (s : string) : string := title_go s false.

(** [str(n)] for a natural number. *)
Definition of_nat (n : nat) : string := NilEmpty.string_of_uint (Nat.to_uint n).

End PyStr.

(* ================================================================== *)
(** * Python floats *)
(* ================================================================== *)

Module PyFloat.

Definition prec : Z := 53.
Definition emax : Z := 1024.

Definition float : Type := spec_float.

Definition add (x y : float) : float := SFadd prec emax x y.
Definition mul (x y : float) : float := SFmul prec emax x y.
Definition div (x y : float) : float := SFdiv prec emax x y.

(** [x < y], [x <= y], [x == y] *)
Definition ltb (x y : float) : bool := SFltb x y.
Definition leb (x y : float) : bool := SFleb x y.
Definition eqb (x y : float) : bool := SFeqb x y.

(** [float(n)] for an [int]: the nearest binary64 number. *)
Definition of_Z (n : Z) : float := binary_normalize prec emax n 0 false.
Definition of_nat (n : nat) : float := of_Z (Z.of_nat n).

(** [min(a, b)] keeps [a] unless [b < a]; [max(a, b)] keeps [a] unless
    [b > a]. *)
Definition min (a b : float) : float := if ltb b a then b else a.
Definition max (a b : float) : float := if ltb a b then b else a.

(** The literals of the program, as the binary64 numbers nearest to them. *)
Definition zero  : float := S754_zero false.
Definition c0_03 : float := S754_finite false 8646911284551352 (-58).
Definition c0_05 : float := S754_finite false 7205759403792794 (-57).
Definition c0_1  : float := S754_finite false 7205759403792794 (-56).
Definition c0_15 : float := S754_finite false 5404319552844595 (-55).
Definition c0_3  : float := S754_finite false 5404319552844595 (-54).
Definition c0_6  : float := S754_finite false 5404319552844595 (-53).
Definition c0_95 : float := S754_finite false 8556839292003942 (-53).

(** Numbers with a clear sign bit: [+0.0], the positive finite numbers and
    [+inf]. *)
Definition nonneg (x : float) : bool :=
  match x with
  | S754_zero false | S754_infinity false | S754_finite false _ _ => true
  | _ => false
  end.

End PyFloat.

(* ================================================================== *)
(** * Exceptions, dictionaries, slices *)
(* ================================================================== *)

Inductive py_exception : Type :=
| AttributeError
| TypeError
| IndexError
| ZeroDivisionError.

Inductive exc (A : Type) : Type :=
| Ok (a : A)
| Raise (e : py_exception).

Arguments Ok {A} a.
Arguments Raise {A} e.

Definition bind {A B : Type} (m : exc A) (k : A -> exc B) : exc B :=
  match m with
  | Ok a => k a
  | Raise e => Raise e
  end.

Notation "x <- m ;; k" := (bind m (fun x => k))
  (at level 61, m at next level, right associativity).

(** [try: body  except Exception: handler] *)
Definition try_except {A : Type} (body : exc A) (handler : py_exception -> A) : A :=
  match body with
  | Ok a => a
  | Raise e => handler e
  end.

Module Dict.
Section Dict.
Context {K V : Type}.
Variable keq : K -> K -> bool.

Definition t : Type := list (K * V).

(** [d.get(k)] *)
Fixpoint get (d : t) (k : K) : option V :=
  match d with
  | [] => None
  | (k', v) :: d' => if keq k' k then Some v else get d' k
  end.

(** [d.get(k, default)] *)
Definition get_default (d : t) (k : K) (default : V) : V :=
  match get d k with
  | Some v => v
  | None => default
  end.

(** [k in d] *)
Definition mem (d : t) (k : K) : bool :=
  match get d k with
  | Some _ => true
  | None => false
  end.

(** [d[k] = v]: a present key keeps its place (and its key object), a new
    key goes last. *)
Fixpoint set (d : t) (k : K) (v : V) : t :=
  match d with
  | [] => [(k, v)]
  | (k', v') :: d' => if keq k' k then (k', v) :: d' else (k', v') :: set d' k v
  end.

Definition keys (d : t) : list K := map fst d.
Definition values (d : t) : list V := map snd d.

End Dict.
End Dict.

(** [l.append(x)] *)
Definition list_append {A : Type} (l : list A) (x : A) : list A := (l ++ [x])%list.

(** [l[:k]] for any integer [k]: a negative [k] counts from the end. *)
Definition slice_to {A : Type} (l : list A) (k : Z) : list A :=
  if (0 <=? k)%Z then firstn (Z.to_nat k) l
  else firstn (List.length l - Z.to_nat (- k)) l.

(** [sorted(l, key=key, reverse=True)]: the stable descending sort, by
    insertion from the right: an element goes behind the strictly greater
    ones and before every other one. *)
Section SortedDesc.
Context {A : Type}.
Variable key : A -> PyFloat.float.

Fixpoint insert_desc (x : A) (l : list A) : list A :=
  match l with
  | [] => [x]
  | y :: l' =>
      if PyFloat.ltb (key x) (key y) then y :: insert_desc x l'
      else x :: y :: l'
  end.

Definition sorted_desc (l : list A) : list A := fold_right insert_desc [] l.

End SortedDesc.

(* ================================================================== *)
(** * Regular expressions: the fragment of [re] the program uses *)
(* ================================================================== *)

(** A backtracking matcher with the priorities of [re]: alternatives from
    left to right, quantifiers greedy, the leftmost start position first.
    [Star] and [Plus] repeat a character class, which is the only thing the
    patterns of the program repeat.  Every group of these patterns is
    mandatory and outside any quantifier, so [groups()] is the list of the
    captured substrings in the order the groups close. *)
Module Re.

Inductive regex : Type :=
| Eps
| Chr (c : ascii)
| Cls (p : ascii -> bool)
| Cat (r1 r2 : regex)
| Alt (r1 r2 : regex)
| Opt (r : regex)
| Star (p : ascii -> bool)
| Plus (p : ascii -> bool)
| Grp (r : regex).

(** A match object: [group(0)] and [groups()]. *)
Record match_object : Type := { group0 : string; groups : list string }.

(** The part of [s] consumed when [rest] is what is left of it. *)
Definition consumed (s rest : string) : string :=
  PyStr.take (String.length s - String.length rest) s.

Section Matcher.
Context {R : Type}.

Fixpoint star (p : ascii -> bool) (s : string) (k : string -> option R) : option R :=
  match s with
  | String c s' =>
      if p c then
        match star p s' k with
        | Some r => Some r
        | None => k s
        end
      else k s
  | EmptyString => k s
  end.

Fixpoint rmatch (r : regex) (s : string) (gs : list string)
         (k : string -> list string -> option R) : option R :=
  match r with
  | Eps => k s gs
  | Chr c =>
      match s with
      | String c' s' => if Ascii.eqb c c' then k s' gs else None
      | EmptyString => None
      end
  | Cls p =>
      match s with
      | String c' s' => if p c' then k s' gs else None
      | EmptyString => None
      end
  | Cat r1 r2 => rmatch r1 s gs (fun s' gs' => rmatch r2 s' gs' k)
  | Alt r1 r2 =>
      match rmatch r1 s gs k with
      | Some x => Some x
      | None => rmatch r2 s gs k
      end
  | Opt r1 =>
      match rmatch r1 s gs k with
      | Some x => Some x
      | None => k s gs
      end
  | Star p => star p s (fun s' => k s' gs)
  | Plus p =>
      match s with
      | String c' s' => if p c' then star p s' (fun s'' => k s'' gs) else None
      | EmptyString => None
      end
  | Grp r1 => rmatch r1 s gs (fun s' gs' => k s' (list_append gs' (consumed s s')))
  end.

End Matcher.

(** [re.match(r, s)]: a match that starts at the first character. *)
Definition match_here (r : regex) (s : string) : option match_object :=
  rmatch r s [] (fun s' gs => Some {| group0 := consumed s s'; groups := gs |}).

(** [re.search(r, s)]: the match at the leftmost position that has one. *)
Fixpoint search (r : regex) (s : string) : option match_object :=
  match match_here r s with
  | Some m => Some m
  | None =>
      match s with
      | EmptyString => None
      | String _ s' => search r s'
      end
  end.

(** Pattern syntax. *)
Fixpoint lit (s : string) : regex :=
  match s with
  | EmptyString => Eps
  | String c EmptyString => Chr c
  | String c s' => Cat (Chr c) (lit s')
  end.

Fixpoint seq (rs : list regex) : regex :=
  match rs with
  | [] => Eps
  | [r] => r
  | r :: rs' => Cat r (seq rs')
  end.

Fixpoint alt (rs : list regex) : regex :=
  match rs with
  | [] => Eps
  | [r] => r
  | r :: rs' => Alt r (alt rs')
  end.

(** [\s+], [\s*], [\d+], [\d*], [\w+] *)
Definition ws1 : regex := Plus PyStr.isspace.
Definition ws0 : regex := Star PyStr.isspace.
Definition digits1 : regex := Plus PyStr.isdigit.
Definition digits0 : regex := Star PyStr.isdigit.
Definition word1 : regex := Plus PyStr.isword.

(** [template.format( *args )] for templates whose only replacement fields
    are [{}]: the fields take the arguments in order.  (Python raises
    [IndexError] when the arguments run out; no template of the program has
    more fields than its pattern has groups.) *)
Fixpoint format (template : string) (args : list string) : string :=
  match template with
  | String "{" (String "}" t') =>
      match args with
      | a :: args' => a ++ format t' args'
      | [] => format t' []
      end
  | String c t' => String c (format t' args)
  | EmptyString => EmptyString
  end.

End Re.

(* ================================================================== *)
(** * models/pattern_analyzer.py *)
(* ================================================================== *)

Module PatternAnalyzer.
Import Re.

(** The two tables that [classify_outcome] and [extract_causal_factors]
    read.  (The third table, [entity_patterns], is read by [extract_entities]
    only.) *)
Record t : Type := {
  outcome_patterns : list (string * list regex);
  causal_patterns : list (string * list (regex * string))
}.

Definition _load_outcome_patterns : list (string * list regex) :=
  [ ("escalation",
     [ seq [lit "speak"; ws1; alt [lit "to"; lit "with"]; ws1;
            Opt (seq [lit "a"; ws1]); lit "supervisor"];
       seq [lit "escalat"; alt [lit "e"; lit "ed"; lit "ing"]];
       seq [lit "talk"; ws1; lit "to"; ws1; Opt (seq [lit "a"; ws1]); lit "manager"];
       seq [lit "file"; ws1; Opt (seq [lit "a"; ws1]); lit "complaint"];
       seq [alt [lit "been"; lit "calling"]; ws1; lit "for"; ws1;
            Opt (seq [digits1; ws1]); lit "week"; Opt (lit "s")] ]);
    ("fraud",
     [ seq [lit "fraud"; ws1; lit "alert"];
       seq [lit "unauthorized"; ws1; alt [lit "charge"; lit "transaction"; lit "purchase"]];
       seq [lit "didn"; Opt (lit "'"); lit "t"; ws1; lit "make"; ws1;
            alt [lit "this"; lit "that"]; ws1; lit "purchase"];
       seq [lit "never"; ws1; lit "been"; ws1; lit "to"];
       seq [lit "block"; Opt (alt [lit "ed"; lit "ing"]); ws1;
            Opt (seq [lit "my"; ws1]); lit "card"] ]);
    ("delivery_issue",
     [ seq [lit "show"; Opt (lit "s"); ws1; Opt (seq [lit "as"; ws1]); lit "delivered"];
       seq [lit "never"; ws1; lit "received"];
       seq [lit "package"; ws1; Opt (seq [lit "is"; ws1]); lit "missing"];
       seq [lit "not"; ws1; Opt (seq [lit "at"; ws1]); Opt (seq [lit "my"; ws1]); lit "door"];
       seq [lit "wrong"; ws1; lit "address"] ]);
    ("resolution",
     [ seq [lit "send"; Opt (lit "ing"); ws1; Opt (seq [lit "a"; ws1]); lit "replacement"];
       seq [Opt (seq [lit "full"; ws1]); lit "refund"];
       seq [lit "expedited"; ws1; alt [lit "shipping"; lit "delivery"]];
       seq [lit "no"; ws1; Opt (seq [lit "extra"; ws1]); lit "charge"];
       seq [lit "investigation"; ws1; alt [lit "started"; lit "initiated"]] ]) ].

Definition _load_causal_patterns : list (string * list (regex * string)) :=
  [ ("temporal",
     [ (seq [lit "for"; ws1; Grp digits1; ws1; lit "week"; Opt (lit "s")],
        "Duration: {} week(s)");
       (seq [lit "for"; ws1; Grp digits1; ws1; lit "day"; Opt (lit "s")],
        "Duration: {} day(s)");
       (seq [lit "since"; ws1; Grp (seq [word1; lit "day"])], "Since {}");
       (lit "yesterday", "Occurred yesterday");
       (seq [lit "this"; ws1; lit "morning"], "Occurred this morning") ]);
    ("repetition",
     [ (seq [Grp digits1; ws1;
             alt [seq [lit "time"; Opt (lit "s")]; seq [lit "attempt"; Opt (lit "s")]]],
        "{} previous attempts");
       (seq [lit "multiple"; ws1;
             alt [seq [lit "time"; Opt (lit "s")]; seq [lit "call"; Opt (lit "s")]]],
        "Multiple occurrences");
       (seq [alt [lit "keep"; lit "keeps"]; ws1; alt [lit "happening"; lit "failing"]],
        "Recurring issue");
       (seq [lit "again"; ws1; lit "and"; ws1; lit "again"], "Repeated issue") ]);
    ("emotional",
     [ (seq [Opt (seq [lit "very"; ws1]); lit "frustrated"], "Customer frustration");
       (seq [Opt (seq [lit "very"; ws1]); lit "upset"], "Customer upset");
       (lit "unacceptable", "Expressed unacceptability");
       (seq [lit "waste"; Opt (lit "d"); ws1; Opt (seq [lit "my"; ws1]); lit "time"],
        "Perceived time waste") ]);
    ("technical",
     [ (seq [lit "error"; ws1; Opt (seq [lit "code"; ws1]); Grp digits1], "Error code {}");
       (seq [alt [lit "app"; lit "system"]; ws1; alt [lit "crash"; lit "fail"]],
        "System failure");
       (seq [lit "login"; ws1; lit "fail"], "Authentication issue");
       (seq [lit "can"; Opt (lit "'"); lit "t"; ws1;
             alt [lit "access"; seq [lit "log"; ws0; lit "in"]]],
        "Access problem") ]) ].

(** [PatternAnalyzer()] *)
Definition init : t :=
  {| outcome_patterns := _load_outcome_patterns;
     causal_patterns := _load_causal_patterns |}.

(** [sum(1 for p in patterns if re.search(p, text))] *)
Definition count_matches (patterns : list regex) (text : string) : nat :=
  List.length (filter (fun p => match search p text with Some _ => true | None => false end)
                      patterns).

(** [matches / len(patterns)] on two [int]s. *)
Definition truediv (a b : nat) : exc PyFloat.float :=
  match b with
  | O => Raise ZeroDivisionError
  | S _ => Ok (PyFloat.div (PyFloat.of_nat a) (PyFloat.of_nat b))
  end.

(** The loop that fills [scores]. *)
Fixpoint score_loop (items : list (string * list regex)) (text_lower : string)
         (scores : list (string * PyFloat.float)) : exc (list (string * PyFloat.float)) :=
  match items with
  | [] => Ok scores
  | (outcome, patterns) :: items' =>
      let matches := count_matches patterns text_lower in
      s <- truediv matches (List.length patterns) ;;
      score_loop items' text_lower (Dict.set String.eqb scores outcome s)
  end.

(** [max(scores, key=scores.get)]: a walk over the keys in insertion order
    that replaces the current best only by a strictly greater score. *)
Fixpoint max_by_score (best : string * PyFloat.float)
         (rest : list (string * PyFloat.float)) : string * PyFloat.float :=
  match rest with
  | [] => best
  | x :: rest' =>
      if PyFloat.ltb (snd best) (snd x) then max_by_score x rest'
      else max_by_score best rest'
  end.

Definition classify_outcome (self : t) (text : string) : exc (string * PyFloat.float) :=
  let text_lower := PyStr.lower text in
  scores <- score_loop (outcome_patterns self) text_lower [] ;;
  match scores with
  | [] => Ok ("unknown", PyFloat.zero)
  | first :: rest => Ok (max_by_score first rest)
  end.

(** The body of the inner loop of [extract_causal_factors]. *)
Definition factor_step (category : string) (text_lower : string)
           (factors : list string) (entry : regex * string) : list string :=
  let '(pattern, template) := entry in
  match search pattern text_lower with
  | Some m =>
      let factor :=
        match groups m with
        | [] => template
        | _ :: _ => format template (groups m)
        end in
      list_append factors (PyStr.title category ++ ": " ++ factor)
  | None => factors
  end.

Definition extract_causal_factors (self : t) (text : string) : list string :=
  let text_lower := PyStr.lower text in
  fold_left
    (fun factors item =>
       let '(category, patterns) := item in
       fold_left (factor_step category text_lower) patterns factors)
    (causal_patterns self) [].

End PatternAnalyzer.

(* ================================================================== *)
(** * task1_retrieval.py: data model and keyword retrieval *)
(* ================================================================== *)

Record ConversationTurn : Type := {
  turn_id : Z;
  speaker : string;
  text : string;
  timestamp : option string
}.

Record ConversationTranscript : Type := {
  transcript_id : string;
  domain : string;
  outcome : string;
  turns : list ConversationTurn;
  metadata : list (string * string)
}.

Definition get_full_text (self : ConversationTranscript) : string :=
  PyStr.join " " (map text (turns self)).

(** [metadata.get('reason_for_call', '')] *)
Definition reason_for_call (t : ConversationTranscript) : string :=
  Dict.get_default String.eqb (metadata t) "reason_for_call" "".

(** The retriever.  The embedding backend is optional and lives outside the
    repository: an embedding is a vector of floats, and the two library
    calls, [model.encode] and [util.pytorch_cos_sim], are parameters of the
    semantic path. *)
Module ConversationRetriever.

Definition embedding : Type := list PyFloat.float.

Record t : Type := {
  conversations_by_id : list (string * ConversationTranscript);
  embeddings : list (string * embedding);
  has_embeddings : bool
}.

(** [ConversationRetriever(use_embeddings=False)] *)
Definition init : t :=
  {| conversations_by_id := []; embeddings := []; has_embeddings := false |}.

Definition c50 : PyFloat.float := PyFloat.of_nat 50.
Definition c30 : PyFloat.float := PyFloat.of_nat 30.
Definition c100 : PyFloat.float := PyFloat.of_nat 100.

(** The body of the loop of [_retrieve_keyword]: the score of one
    transcript.  The [int] scores 0, 30, 50, ... stand as the equal floats. *)
Definition keyword_score (query_lower : string) (transcript : ConversationTranscript)
  : PyFloat.float :=
  let score := PyFloat.zero in
  let all_text := PyStr.lower (get_full_text transcript) in
  let reason := PyStr.lower (reason_for_call transcript) in
  let all_content := all_text ++ " " ++ reason in
  let query_words := filter (fun w => (2 <? PyStr.len w)%nat) (PyStr.split query_lower) in
  let score :=
    match query_words with
    | [] => score
    | _ :: _ =>
        let matches := List.length (filter (fun w => PyStr.contains w all_content) query_words) in
        PyFloat.mul (PyFloat.div (PyFloat.of_nat matches)
                                 (PyFloat.of_nat (List.length query_words)))
                    c100
    end in
  let score :=
    if (PyStr.contains "escalat" query_lower
        && (PyStr.contains "escalat" all_content || PyStr.contains "supervisor" all_content))%bool
    then PyFloat.add score c50 else score in
  let score :=
    if (PyStr.contains "fraud" query_lower && PyStr.contains "fraud" all_content)%bool
    then PyFloat.add score c50 else score in
  let score :=
    if (PyStr.contains "delivery" query_lower && PyStr.contains "delivery" all_content)%bool
    then PyFloat.add score c50 else score in
  let score :=
    if (PyStr.contains "error" query_lower && PyStr.contains "error" all_content)%bool
    then PyFloat.add score c30 else score in
  score.

(** The dictionary [scores] after the loop. *)
Definition keyword_scores (self : t) (query_lower : string)
  : list (string * PyFloat.float) :=
  fold_left
    (fun scores item =>
       let '(tid, transcript) := item in
       Dict.set String.eqb scores tid (keyword_score query_lower transcript))
    (conversations_by_id self) [].

Definition _retrieve_keyword (self : t) (query : string) (top_k : Z) : list string :=
  let query_lower := PyStr.lower query in
  let scores := keyword_scores self query_lower in
  let sorted_ids := sorted_desc snd scores in
  let result :=
    map fst (filter (fun p => PyFloat.ltb PyFloat.zero (snd p)) (slice_to sorted_ids top_k)) in
  match result with
  | [] => slice_to (Dict.keys (conversations_by_id self)) top_k
  | _ :: _ => result
  end.

Section Semantic.
(** [self.model.encode(text, convert_to_tensor=True)] and
    [util.pytorch_cos_sim(a, b)[0][0].item()]; either may raise. *)
Variable encode : string -> exc embedding.
Variable cos_sim : embedding -> embedding -> exc PyFloat.float.

(** The loop that fills [scores] with the similarities. *)
Fixpoint similarity_loop (query_embedding : embedding) (items : list (string * embedding))
         (scores : list (string * PyFloat.float)) : exc (list (string * PyFloat.float)) :=
  match items with
  | [] => Ok scores
  | (tid, emb) :: items' =>
      similarity <- cos_sim query_embedding emb ;;
      similarity_loop query_embedding items' (Dict.set String.eqb scores tid similarity)
  end.

Definition _retrieve_semantic (self : t) (query : string) (top_k : Z) : list string :=
  try_except
    (query_embedding <- encode query ;;
     scores <- similarity_loop query_embedding (embeddings self) [] ;;
     let sorted_ids := sorted_desc snd scores in
     Ok (map fst (slice_to sorted_ids top_k)))
    (fun _ => _retrieve_keyword self query top_k).

Definition retrieve (self : t) (query : string) (top_k : Z) : list string :=
  match has_embeddings self, embeddings self with
  | true, _ :: _ => _retrieve_semantic self query top_k
  | _, _ => _retrieve_keyword self query top_k
  end.

End Semantic.

Definition get_transcript (self : t) (transcript_id : string)
  : option ConversationTranscript :=
  Dict.get String.eqb (conversations_by_id self) transcript_id.

Definition get_all_transcripts (self : t) : list ConversationTranscript :=
  Dict.values (conversations_by_id self).

End ConversationRetriever.

(* ================================================================== *)
(** * task2_causal_analysis.py *)
(* ================================================================== *)

(** The field [timestamp] of the explanation is [explanation_timestamp]
    here, [timestamp] being the field of a turn. *)
Record CausalExplanation : Type := {
  query : string;
  primary_cause : string;
  supporting_factors : list string;
  evidence_spans : list (Z * string);
  confidence : PyFloat.float;
  relevant_transcript_ids : list string;
  explanation_timestamp : string
}.

Module CausalAnalyzer.

(** One entry of [self.history]. *)
Record history_entry : Type := {
  h_query : string;
  h_explanation : string;
  h_timestamp : string
}.

Record t : Type := { history : list history_entry }.

Definition init : t := {| history := [] |}.

(** [now] is the reading of the clock that [CausalExplanation] takes for its
    [timestamp] field. *)
Definition _empty_explanation (now : string) (query : string) : CausalExplanation :=
  {| query := query;
     primary_cause := "No relevant conversations found for analysis";
     supporting_factors := [];
     evidence_spans := [];
     confidence := PyFloat.c0_3;
     relevant_transcript_ids := [];
     explanation_timestamp := now |}.

(** [" ".join([t.get_full_text() for t in transcripts]).lower()] *)
Definition all_text_lower (transcripts : list ConversationTranscript) : string :=
  PyStr.lower (PyStr.join " " (map get_full_text transcripts)).

(** [causes.append(c)] under a condition. *)
Definition append_if (cond : bool) (c : string) (causes : list string) : list string :=
  if cond then list_append causes c else causes.

(** The pattern for an error code (the word error, optional blanks, an
    optional word code with optional blanks, then a group of digits) and
    the pattern for an amount (a dollar sign, digits and commas, an optional
    dot, optional digits). *)
Definition error_code_re : Re.regex :=
  Re.seq [Re.lit "error"; Re.ws0; Re.Opt (Re.seq [Re.lit "code"; Re.ws0]); Re.Grp Re.digits1].

Definition amount_re : Re.regex :=
  Re.seq [Re.Chr "$";
          Re.Plus (fun c => (PyStr.isdigit c || Ascii.eqb c ",")%bool);
          Re.Opt (Re.Chr ".");
          Re.digits0].

Definition _generate_primary_cause (outcome : string)
           (transcripts : list ConversationTranscript) : exc string :=
  let text := all_text_lower transcripts in
  match transcripts with
  | [] => Raise IndexError
  | first :: _ =>
    let reason := reason_for_call first in
    if PyStr.contains "escalation" outcome then
      let causes := [] in
      let causes := append_if (PyStr.contains "three weeks" text || PyStr.contains "weeks" text)
                      "prolonged issue duration (multiple weeks)" causes in
      let causes := append_if (PyStr.contains "multiple" text || PyStr.contains "several" text
                               || PyStr.contains "repeated" text)
                      "multiple failed resolution attempts" causes in
      let causes := append_if (PyStr.contains "frustrated" text || PyStr.contains "frustration" text)
                      "accumulated customer frustration" causes in
      let causes := append_if (PyStr.contains "nobody" text || PyStr.contains "no one" text)
                      "previous agents unable to resolve" causes in
      let causes :=
        match Re.search error_code_re text with
        | Some error_match =>
            list_append causes ("unresolved error code " ++ nth 0 (Re.groups error_match) "")
        | None => causes
        end in
      match causes with
      | _ :: _ => Ok ("Customer escalated due to: " ++ PyStr.join "; " causes)
      | [] => Ok "Customer requested escalation to supervisor"
      end
    else if PyStr.contains "fraud" outcome then
      let causes := [] in
      let causes :=
        match Re.search amount_re text with
        | Some amount_match =>
            list_append causes ("unauthorized charge of " ++ Re.group0 amount_match)
        | None => causes
        end in
      let causes :=
        if PyStr.contains "new york" (PyStr.lower text)
        then list_append causes "transaction in New York (customer never visited)"
        else if PyStr.contains "different location" text
        then list_append causes "transaction from different location"
        else causes in
      let causes := append_if (PyStr.contains "fraud alert" text)
                      "automatic fraud detection triggered" causes in
      let causes := append_if (PyStr.contains "blocked" text || PyStr.contains "block" text)
                      "card blocked for security" causes in
      match causes with
      | _ :: _ => Ok ("Fraud detected: " ++ PyStr.join "; " causes)
      | [] => Ok "Fraudulent transaction identified and addressed"
      end
    else if PyStr.contains "delivery" outcome then
      let causes := [] in
      let causes := append_if (PyStr.contains "shows delivered" text
                               || PyStr.contains "marked delivered" text)
                      "package marked delivered in tracking" causes in
      let causes := append_if (PyStr.contains "never received" text
                               || PyStr.contains "not there" text)
                      "customer did not receive package" causes in
      let causes := append_if (PyStr.contains "camera" text || PyStr.contains "neighbor" text)
                      "customer verified non-delivery" causes in
      let causes := append_if (PyStr.contains "wrong address" text)
                      "possible wrong address delivery" causes in
      match causes with
      | _ :: _ => Ok ("Delivery issue: " ++ PyStr.join "; " causes)
      | [] => Ok "Package delivery discrepancy reported"
      end
    else
      match reason with
      | String _ _ => Ok ("Issue identified: " ++ reason)
      | EmptyString => Ok ("Issue type: " ++ outcome)
      end
  end.

Definition _extract_supporting_factors (outcome : string)
           (transcripts : list ConversationTranscript) : list string :=
  let text := all_text_lower transcripts in
  let factors := [] in
  let factors := append_if (PyStr.contains "three weeks" text || PyStr.contains "weeks" text)
                   "Extended duration: issue persisted for weeks" factors in
  let factors := append_if (PyStr.contains "yesterday" text || PyStr.contains "today" text)
                   "Recent occurrence: within last 24 hours" factors in
  let factors := append_if (PyStr.contains "multiple" text || PyStr.contains "several" text)
                   "Multiple occurrences or attempts documented" factors in
  let factors := append_if (PyStr.contains "repeated" text || PyStr.contains "again" text)
                   "Repeated failures noted" factors in
  let factors := append_if (PyStr.contains "frustrated" text || PyStr.contains "frustration" text)
                   "Customer expressed frustration" factors in
  let factors := append_if (PyStr.contains "upset" text || PyStr.contains "angry" text)
                   "Customer emotional distress" factors in
  let factors := append_if (PyStr.contains "checked" text || PyStr.contains "verified" text)
                   "Customer performed verification steps" factors in
  let factors := append_if (PyStr.contains "supervisor" text || PyStr.contains "manager" text)
                   "Escalation to supervisor requested" factors in
  let factors := append_if (PyStr.contains "expedited" text || PyStr.contains "immediately" text)
                   "Agent provided swift response" factors in
  let factors := append_if (PyStr.contains "blocked" text || PyStr.contains "reversed" text)
                   "Immediate security action taken" factors in
  firstn 6 factors.

Definition key_indicators : list string :=
  ["escalate"; "supervisor"; "fraud"; "unauthorized";
   "delivered"; "error"; "frustrated"; "weeks"; "multiple"].

(** [set(w.lower() for w in query.split() if len(w) > 3)]: the set is only
    counted over, so a duplicate-free list stands for it. *)
Definition query_terms (query : string) : list string :=
  nodup string_dec
    (map PyStr.lower (filter (fun w => (3 <? PyStr.len w)%nat) (PyStr.split query))).

(** [sum(1 for t in terms if t in text_lower)] *)
Definition count_in (terms : list string) (text_lower : string) : nat :=
  List.length (filter (fun t => PyStr.contains t text_lower) terms).

(** [turn.text[:120] + "..." if len(turn.text) > 120 else turn.text] *)
Definition display_of (turn : ConversationTurn) : string :=
  if (120 <? PyStr.len (text turn))%nat then PyStr.take 120 (text turn) ++ "..."
  else text turn.

(** The body of the inner loop of [_extract_evidence]. *)
Definition evidence_step (terms : list string) (evidence : list (Z * string))
           (turn : ConversationTurn) : list (Z * string) :=
  let text_lower := PyStr.lower (text turn) in
  let query_matches := count_in terms text_lower in
  let indicator_matches := count_in key_indicators text_lower in
  if (((0 <? query_matches)%nat || (0 <? indicator_matches)%nat)
      && (List.length evidence <? 4)%nat)%bool
  then list_append evidence (turn_id turn, "[" ++ speaker turn ++ "] " ++ display_of turn)
  else evidence.

Definition _extract_evidence (query : string)
           (transcripts : list ConversationTranscript) : list (Z * string) :=
  let terms := query_terms query in
  fold_left
    (fun evidence transcript => fold_left (evidence_step terms) (turns transcript) evidence)
    transcripts [].

Definition _calculate_confidence (transcripts : list ConversationTranscript)
           (factors : list string) : PyFloat.float :=
  let confidence := PyFloat.c0_6 in
  let confidence :=
    PyFloat.add confidence
      (PyFloat.min (PyFloat.mul (PyFloat.of_nat (List.length transcripts)) PyFloat.c0_05)
                   PyFloat.c0_15) in
  let confidence :=
    PyFloat.add confidence
      (PyFloat.min (PyFloat.mul (PyFloat.of_nat (List.length factors)) PyFloat.c0_03)
                   PyFloat.c0_15) in
  let confidence :=
    match transcripts with
    | first :: _ =>
        match reason_for_call first with
        | String _ _ => PyFloat.add confidence PyFloat.c0_1
        | EmptyString => confidence
        end
    | [] => confidence
    end in
  PyFloat.min (PyFloat.max confidence PyFloat.c0_6) PyFloat.c0_95.

(** [analyze] returns the explanation and the analyzer after the call. *)
Definition analyze (self : t) (now : string) (query : string)
           (transcripts : list ConversationTranscript) (include_history : bool)
  : exc (CausalExplanation * t) :=
  match transcripts with
  | [] => Ok (_empty_explanation now query, self)
  | first :: _ =>
      let outcome := outcome first in
      primary_cause <- _generate_primary_cause outcome transcripts ;;
      let factors := _extract_supporting_factors outcome transcripts in
      let evidence := _extract_evidence query transcripts in
      let confidence := _calculate_confidence transcripts factors in
      let explanation :=
        {| query := query;
           primary_cause := primary_cause;
           supporting_factors := factors;
           evidence_spans := evidence;
           confidence := confidence;
           relevant_transcript_ids := map transcript_id transcripts;
           explanation_timestamp := now |} in
      let self :=
        if include_history then
          {| history := list_append (history self)
                          {| h_query := query;
                             h_explanation := primary_cause;
                             h_timestamp := explanation_timestamp explanation |} |}
        else self in
      Ok (explanation, self)
  end.

Definition get_history (self : t) : list history_entry := history self.

Definition clear_history (self : t) : t := {| history := [] |}.

End CausalAnalyzer.

(* ================================================================== *)
(** * task1_retrieval.py: the loader *)
(* ================================================================== *)

(** The loader takes parsed JSON and checks the type of no field it copies,
    so the transcripts it stores carry dynamically typed fields.  A JSON
    number is modelled by an integer: the loader does no arithmetic on the
    values it reads. *)
Module Loader.

#[warnings="-register-all"]
Inductive pyval : Type :=
| VNone
| VBool (b : bool)
| VInt (z : Z)
| VStr (s : string)
| VList (l : list pyval)
| VDict (d : list (string * pyval)).

Record ConversationTurn : Type := {
  turn_id : nat;
  speaker : pyval;
  text : pyval;
  timestamp : pyval
}.

Record ConversationTranscript : Type := {
  transcript_id : pyval;
  domain : pyval;
  outcome : string;
  turns : list ConversationTurn;
  metadata : list (string * pyval)
}.

Record t : Type := {
  conversations_by_id : list (pyval * ConversationTranscript)
}.

Definition init : t := {| conversations_by_id := [] |}.

(** [d.get(k, default)]: only a [dict] has the method. *)
Definition py_get (d : pyval) (k : string) (default : pyval) : exc pyval :=
  match d with
  | VDict items => Ok (Dict.get_default String.eqb items k default)
  | _ => Raise AttributeError
  end.

(** The elements that a [for] loop or [enumerate] draws from a value: the
    items of a list, the characters of a string, the keys of a dict. *)
Definition py_iter (v : pyval) : exc (list pyval) :=
  match v with
  | VList l => Ok l
  | VStr s => Ok (map (fun c => VStr (String c EmptyString)) (list_ascii_of_string s))
  | VDict d => Ok (map (fun kv => VStr (fst kv)) d)
  | _ => Raise TypeError
  end.

(** [enumerate(l)] *)
Definition enumerate {A : Type} (l : list A) : list (nat * A) :=
  combine (seq 0 (List.length l)) l.

(** Dictionary keys: lists and dicts are unhashable; [True == 1] and
    [False == 0] are the same keys. *)
Definition hashable (v : pyval) : bool :=
  match v with
  | VList _ | VDict _ => false
  | _ => true
  end.

Definition key_eqb (a b : pyval) : bool :=
  match a, b with
  | VNone, VNone => true
  | VStr x, VStr y => String.eqb x y
  | VInt x, VInt y => Z.eqb x y
  | VBool x, VBool y => Bool.eqb x y
  | VBool x, VInt y | VInt y, VBool x => Z.eqb (if x then 1 else 0) y
  | _, _ => false
  end.

(** [d[k] = v] *)
Definition setitem (d : list (pyval * ConversationTranscript)) (k : pyval)
           (v : ConversationTranscript) : exc (list (pyval * ConversationTranscript)) :=
  if hashable k then Ok (Dict.set key_eqb d k v) else Raise TypeError.

Definition _extract_conversations (data : pyval) : pyval :=
  match data with
  | VList _ => data
  | VDict d =>
      if Dict.mem String.eqb d "transcripts"
      then Dict.get_default String.eqb d "transcripts" VNone
      else if Dict.mem String.eqb d "conversations"
      then Dict.get_default String.eqb d "conversations" VNone
      else if (Dict.mem String.eqb d "conversation" || Dict.mem String.eqb d "transcript_id")%bool
      then VList [data]
      else VList []
  | _ => VList []
  end.

Definition _parse_intent_to_outcome (intent : pyval) : exc string :=
  match intent with
  | VStr intent =>
      let intent_lower := PyStr.lower intent in
      if PyStr.contains "escalation" intent_lower then Ok "escalation"
      else if PyStr.contains "fraud" intent_lower then Ok "fraud_resolved"
      else if PyStr.contains "delivery" intent_lower then Ok "delivery_investigation"
      else if (PyStr.contains "resolved" intent_lower
               || PyStr.contains "compensation" intent_lower)%bool
      then Ok "resolved_with_compensation"
      else match intent with
           | String _ _ => Ok intent
           | EmptyString => Ok "general_inquiry"
           end
  | _ => Raise AttributeError
  end.

(** [f"Speaker{i%2+1}"] *)
Definition default_speaker (i : nat) : pyval :=
  VStr ("Speaker" ++ PyStr.of_nat (i mod 2 + 1)).

(** The body of the loop over the turns: what it appends for element [i]. *)
Definition parse_turn (i : nat) (turn : pyval) : list ConversationTurn :=
  match turn with
  | VDict d =>
      [ {| turn_id := i;
           speaker := Dict.get_default String.eqb d "speaker" (default_speaker i);
           text := Dict.get_default String.eqb d "text"
                     (Dict.get_default String.eqb d "utterance" (VStr ""));
           timestamp := Dict.get_default String.eqb d "timestamp" VNone |} ]
  | VStr s =>
      [ {| turn_id := i; speaker := default_speaker i; text := VStr s; timestamp := VNone |} ]
  | _ => []
  end.

Definition _parse_conversation (conv_data : pyval) (idx : nat) : exc ConversationTranscript :=
  turns_default <- py_get conv_data "turns" (VList []) ;;
  conversation_data <- py_get conv_data "conversation" turns_default ;;
  items <- py_iter conversation_data ;;
  let turns := flat_map (fun it => parse_turn (fst it) (snd it)) (enumerate items) in
  intent <- py_get conv_data "intent" (VStr "") ;;
  outcome <- _parse_intent_to_outcome intent ;;
  time_of_interaction <- py_get conv_data "time_of_interaction" VNone ;;
  reason <- py_get conv_data "reason_for_call" (VStr "") ;;
  let metadata :=
    [ ("time_of_interaction", time_of_interaction);
      ("intent", intent);
      ("reason_for_call", reason) ] in
  transcript_id <- py_get conv_data "transcript_id" (VStr ("conv_" ++ PyStr.of_nat idx)) ;;
  domain <- py_get conv_data "domain" (VStr "unknown") ;;
  Ok {| transcript_id := transcript_id;
        domain := domain;
        outcome := outcome;
        turns := turns;
        metadata := metadata |}.

(** The body of the [try] of [load_conversations]. *)
Definition load_body (self : t) (idx : nat) (conv_data : pyval) : exc t :=
  transcript <- _parse_conversation conv_data idx ;;
  store <- setitem (conversations_by_id self) (transcript_id transcript) transcript ;;
  Ok {| conversations_by_id := store |}.

(** One turn of the loop: the [try] with its [except Exception], which logs
    and goes on. *)
Definition load_entry (self : t) (entry : nat * pyval) : t :=
  try_except (load_body self (fst entry) (snd entry)) (fun _ => self).

Definition load_conversations (self : t) (data : pyval) : exc (nat * t) :=
  let conversations := _extract_conversations data in
  entries <- py_iter conversations ;;
  let self := fold_left load_entry (enumerate entries) self in
  Ok (List.length (conversations_by_id self), self).

(** The number of entries of a call whose [try] body runs to its end: the
    transcripts that the call itself loads. *)
Definition entry_ok (entry : nat * pyval) : bool :=
  match load_body init (fst entry) (snd entry) with
  | Ok _ => true
  | Raise _ => false
  end.

Definition loaded_by_call (entries : list pyval) : nat :=
  List.length (filter entry_ok (enumerate entries)).

End Loader.

(* ================================================================== *)
(** * The behaviour the documentation describes, in its own words *)
(* ================================================================== *)

Module Spec.

(** A value clamped to the interval from [lo] to [hi]. *)
Definition clamp (lo hi x : PyFloat.float) : PyFloat.float :=
  if PyFloat.ltb x lo then lo
  else if PyFloat.ltb hi x then hi
  else x.

(** [0.6 + min(0.05 * transcript_count, 0.15) + min(0.03 * factor_count, 0.15)
    + (0.1 if the first transcript has a reason_for_call else 0)], clamped to
    the interval from 0.6 to 0.95. *)
Definition confidence_formula (transcript_count factor_count : nat) (has_reason : bool)
  : PyFloat.float :=
  clamp PyFloat.c0_6 PyFloat.c0_95
    (PyFloat.add
       (PyFloat.add
          (PyFloat.add PyFloat.c0_6
             (PyFloat.min (PyFloat.mul PyFloat.c0_05 (PyFloat.of_nat transcript_count))
                          PyFloat.c0_15))
          (PyFloat.min (PyFloat.mul PyFloat.c0_03 (PyFloat.of_nat factor_count))
                       PyFloat.c0_15))
       (if has_reason then PyFloat.c0_1 else PyFloat.zero)).

Definition nonempty (s : string) : bool :=
  match s with
  | EmptyString => false
  | String _ _ => true
  end.

(** A turn qualifies as evidence when its text, in lower case, contains a
    query token of more than three characters, in lower case, or a
    key-indicator word. *)
Definition qualifies (query : string) (turn : ConversationTurn) : bool :=
  (existsb (fun w => ((3 <? PyStr.len w)%nat
                      && PyStr.contains (PyStr.lower w) (PyStr.lower (text turn)))%bool)
           (PyStr.split query)
   || existsb (fun k => PyStr.contains k (PyStr.lower (text turn)))
              CausalAnalyzer.key_indicators)%bool.

(** The turn text cut to 120 characters, with an ellipsis when it was
    longer. *)
Definition truncated (s : string) : string :=
  if (PyStr.len s <=? 120)%nat then s else PyStr.take 120 s ++ "...".

(** The span of a turn: its id and its text behind the speaker in
    brackets. *)
Definition span_of (turn : ConversationTurn) : Z * string :=
  (turn_id turn, "[" ++ speaker turn ++ "] " ++ truncated (text turn)).

(** The first four qualifying turns, transcripts in the given order and the
    turns of each in turn order. *)
Definition evidence (query : string) (transcripts : list ConversationTranscript)
  : list (Z * string) :=
  firstn 4 (map span_of (filter (qualifies query) (flat_map turns transcripts))).

(** The factor that one pattern contributes to a text in lower case: the
    category, capitalised, and the template filled with the groups of the
    first match (a template without groups as it stands). *)
Definition factor_of (category : string) (text_lower : string)
           (entry : Re.regex * string) : list string :=
  match Re.search (fst entry) text_lower with
  | Some m =>
      let filled :=
        match Re.groups m with
        | [] => snd entry
        | gs => Re.format (snd entry) gs
        end in
      [PyStr.title category ++ ": " ++ filled]
  | None => []
  end.

(** One factor for every pattern that matches, categories and patterns in
    declaration order. *)
Definition causal_factors (table : list (string * list (Re.regex * string)))
           (text : string) : list string :=
  flat_map (fun item => flat_map (factor_of (fst item) (PyStr.lower text)) (snd item)) table.

(** The score of a category: matching patterns over patterns. *)
Definition category_score (text : string) (item : string * list Re.regex) : PyFloat.float :=
  PyFloat.div
    (PyFloat.of_nat (PatternAnalyzer.count_matches (snd item) (PyStr.lower text)))
    (PyFloat.of_nat (List.length (snd item))).

End Spec.

(* ================================================================== *)
(** * Sample data and auxiliary notions *)
(* ================================================================== *)

(** The reading of what the loader stores in the data model that the
    dataclasses declare, on which retrieval and analysis are embedded.  It is
    defined when every [transcript_id] and [domain] is a string, every
    [speaker] and [text] of a turn is a string and its [timestamp] a string
    or [None], and, in the metadata, [intent] and [reason_for_call] are
    strings and [time_of_interaction] is a string or [None] (it is then left
    out: neither retrieval nor analysis reads it).  The loader itself stores
    any JSON value; on values outside this data model the string methods of
    retrieval and analysis raise ([None.lower()], [" ".join] over a number),
    and this reading is undefined. *)
Definition as_str (v : Loader.pyval) : option string :=
  match v with
  | Loader.VStr s => Some s
  | _ => None
  end.

Fixpoint all_some {A : Type} (l : list (option A)) : option (list A) :=
  match l with
  | [] => Some []
  | Some a :: l' => option_map (cons a) (all_some l')
  | None :: _ => None
  end.

Definition typed_turn (turn : Loader.ConversationTurn) : option ConversationTurn :=
  match as_str (Loader.speaker turn), as_str (Loader.text turn) with
  | Some who, Some what =>
      match Loader.timestamp turn with
      | Loader.VNone =>
          Some {| turn_id := Z.of_nat (Loader.turn_id turn); speaker := who; text := what;
                  timestamp := None |}
      | Loader.VStr ts =>
          Some {| turn_id := Z.of_nat (Loader.turn_id turn); speaker := who; text := what;
                  timestamp := Some ts |}
      | _ => None
      end
  | _, _ => None
  end.

Definition typed_metadata (entries : list (string * Loader.pyval))
  : option (list (string * string)) :=
  option_map (@List.concat (string * string)%type)
    (all_some
       (map (fun entry =>
               match snd entry with
               | Loader.VStr s => Some [(fst entry, s)]
               | Loader.VNone =>
                   if String.eqb (fst entry) "time_of_interaction" then Some [] else None
               | _ => None
               end)
            entries)).

Definition typed_transcript (t : Loader.ConversationTranscript)
  : option ConversationTranscript :=
  match as_str (Loader.transcript_id t), as_str (Loader.domain t),
        all_some (map typed_turn (Loader.turns t)), typed_metadata (Loader.metadata t) with
  | Some tid, Some dom, Some ts, Some md =>
      Some {| transcript_id := tid; domain := dom; outcome := Loader.outcome t;
              turns := ts; metadata := md |}
  | _, _, _, _ => None
  end.

Definition typed_conversations (self : Loader.t)
  : option (list (string * ConversationTranscript)) :=
  all_some
    (map (fun item =>
            match as_str (fst item), typed_transcript (snd item) with
            | Some tid, Some t => Some (tid, t)
            | _, _ => None
            end)
         (Loader.conversations_by_id self)).

Definition raw_turn (who what : string) : Loader.pyval :=
  Loader.VDict [("speaker", Loader.VStr who); ("text", Loader.VStr what)].

(** [create_sample_data()] of main.py. *)
Definition create_sample_data : Loader.pyval :=
  Loader.VDict
    [ ("transcripts",
       Loader.VList
         [ Loader.VDict
             [ ("transcript_id", Loader.VStr "HC-001");
               ("domain", Loader.VStr "Healthcare Services");
               ("intent", Loader.VStr "Escalation - Repeated Service Failures");
               ("reason_for_call",
                Loader.VStr "Customer experiencing login issues for three weeks");
               ("conversation",
                Loader.VList
                  [ raw_turn "Agent" "Thank you for calling. How can I help you?";
                    raw_turn "Customer" "I've been trying to resolve a login issue for three weeks now and I'm not getting any real help.";
                    raw_turn "Agent" "I'm sorry to hear about your ongoing issue. Let me check your account.";
                    raw_turn "Customer" "I've explained this multiple times. Each time I'm told it's fixed, but it's not. I need to speak with a supervisor.";
                    raw_turn "Agent" "I understand your frustration. I see error code 3309 in your account.";
                    raw_turn "Customer" "Nobody can tell me what that means or how to fix it!";
                    raw_turn "Agent" "I'll transfer you to my supervisor right away." ]) ];
           Loader.VDict
             [ ("transcript_id", Loader.VStr "FR-002");
               ("domain", Loader.VStr "Banking");
               ("intent", Loader.VStr "Fraud Alert Investigation");
               ("reason_for_call", Loader.VStr "Unauthorized charge detected");
               ("conversation",
                Loader.VList
                  [ raw_turn "Agent" "Fraud Department, how can I help?";
                    raw_turn "Customer" "I got a fraud alert about a charge I didn't make.";
                    raw_turn "Agent" "I see a charge for $356.82 in New York. Did you make this?";
                    raw_turn "Customer" "No, I've never been to New York.";
                    raw_turn "Agent" "I'm blocking your card and reversing the charge. You'll get a new card in 2-3 days." ]) ] ]) ].

Definition sample_turn (i : Z) (who what : string) : ConversationTurn :=
  {| turn_id := i; speaker := who; text := what; timestamp := None |}.

(** The two transcripts of [create_sample_data] in main.py, as the loader
    stores them. *)
Definition sample_HC_001 : ConversationTranscript :=
  {| transcript_id := "HC-001";
     domain := "Healthcare Services";
     outcome := "escalation";
     turns :=
       [ sample_turn 0 "Agent" "Thank you for calling. How can I help you?";
         sample_turn 1 "Customer" "I've been trying to resolve a login issue for three weeks now and I'm not getting any real help.";
         sample_turn 2 "Agent" "I'm sorry to hear about your ongoing issue. Let me check your account.";
         sample_turn 3 "Customer" "I've explained this multiple times. Each time I'm told it's fixed, but it's not. I need to speak with a supervisor.";
         sample_turn 4 "Agent" "I understand your frustration. I see error code 3309 in your account.";
         sample_turn 5 "Customer" "Nobody can tell me what that means or how to fix it!";
         sample_turn 6 "Agent" "I'll transfer you to my supervisor right away." ];
     metadata :=
       [ ("intent", "Escalation - Repeated Service Failures");
         ("reason_for_call", "Customer experiencing login issues for three weeks") ] |}.

Definition sample_FR_002 : ConversationTranscript :=
  {| transcript_id := "FR-002";
     domain := "Banking";
     outcome := "fraud_resolved";
     turns :=
       [ sample_turn 0 "Agent" "Fraud Department, how can I help?";
         sample_turn 1 "Customer" "I got a fraud alert about a charge I didn't make.";
         sample_turn 2 "Agent" "I see a charge for $356.82 in New York. Did you make this?";
         sample_turn 3 "Customer" "No, I've never been to New York.";
         sample_turn 4 "Agent" "I'm blocking your card and reversing the charge. You'll get a new card in 2-3 days." ];
     metadata :=
       [ ("intent", "Fraud Alert Investigation");
         ("reason_for_call", "Unauthorized charge detected") ] |}.

Definition sample_store : ConversationRetriever.t :=
  {| ConversationRetriever.conversations_by_id :=
       [ ("HC-001", sample_HC_001); ("FR-002", sample_FR_002) ];
     ConversationRetriever.embeddings := [];
     ConversationRetriever.has_embeddings := false |}.

(** A backend that is not installed: every call raises. *)
Definition no_encode (text : string) : exc ConversationRetriever.embedding :=
  Raise AttributeError.

Definition no_cos_sim (a b : ConversationRetriever.embedding) : exc PyFloat.float :=
  Raise AttributeError.

(** A toy backend: a text is embedded as its length, and the similarity is
    the first coordinate of the stored vector. *)
Definition toy_encode (text : string) : exc ConversationRetriever.embedding :=
  Ok [PyFloat.of_nat (PyStr.len text)].

Definition toy_cos_sim (a b : ConversationRetriever.embedding) : exc PyFloat.float :=
  Ok (hd PyFloat.zero b).

Definition embedded_store : ConversationRetriever.t :=
  {| ConversationRetriever.conversations_by_id :=
       [ ("HC-001", sample_HC_001); ("FR-002", sample_FR_002) ];
     ConversationRetriever.embeddings :=
       [ ("HC-001", [PyFloat.c0_3]); ("FR-002", [PyFloat.c0_6]) ];
     ConversationRetriever.has_embeddings := true |}.

(** A store of two transcripts with the same text, the later id first. *)
Definition twin_store : ConversationRetriever.t :=
  {| ConversationRetriever.conversations_by_id :=
       [ ("T-2", sample_FR_002); ("T-1", sample_FR_002); ("T-0", sample_HC_001) ];
     ConversationRetriever.embeddings := [];
     ConversationRetriever.has_embeddings := false |}.

Definition scenario_A_text : string :=
  "I've been trying to resolve a login issue for three weeks... I've explained this multiple times... Nobody can tell me... error code 3309".

Definition scenario_A_cause : string :=
  "Customer escalated due to: prolonged issue duration (multiple weeks); multiple failed resolution attempts; previous agents unable to resolve; unresolved error code 3309".

Definition scenario_A_transcript : ConversationTranscript :=
  {| transcript_id := "HC-001";
     domain := "Healthcare Services";
     outcome := "escalation";
     turns := [ {| turn_id := 0; speaker := "Customer"; text := scenario_A_text;
                   timestamp := None |} ];
     metadata := [("reason_for_call", "Customer experiencing login issues for three weeks")] |}.

Definition frustration_transcript : ConversationTranscript :=
  {| transcript_id := "HC-001";
     domain := "Healthcare Services";
     outcome := "escalation";
     turns := [ {| turn_id := 0; speaker := "Customer"; text := scenario_A_text;
                   timestamp := None |};
                {| turn_id := 1; speaker := "Agent"; text := "I understand your frustration.";
                   timestamp := None |} ];
     metadata := [("reason_for_call", "Customer experiencing login issues for three weeks")] |}.

Definition long_turn : ConversationTurn :=
  {| turn_id := 4;
     speaker := "Agent";
     text := "I understand your frustration. I see error code 3309 in your account, and I can also see that the same error code was logged on each of your previous calls.";
     timestamp := None |}.

Definition long_turn_transcript : ConversationTranscript :=
  {| transcript_id := "HC-001";
     domain := "Healthcare Services";
     outcome := "escalation";
     turns := [long_turn];
     metadata := [] |}.

Definition raw_entry (tid : string) : Loader.pyval :=
  Loader.VDict [ ("transcript_id", Loader.VStr tid);
                 ("intent", Loader.VStr "Fraud Alert Investigation");
                 ("conversation", Loader.VList [Loader.VStr "Fraud Department, how can I help?"]) ].

Definition matches (text_lower : string) (pattern : Re.regex) : bool :=
  match Re.search pattern text_lower with
  | Some _ => true
  | None => false
  end.

(** A list in which no element is strictly below a later one. *)
Definition descending {A : Type} (key : A -> PyFloat.float) (l : list A) : Prop :=
  StronglySorted (fun a b => PyFloat.ltb (key a) (key b) = false) l.

(** The elements whose score equals [s]. *)
Definition same_score {A : Type} (key : A -> PyFloat.float) (s : PyFloat.float) (x : A)
  : bool :=
  PyFloat.eqb (key x) s.

(** The score of the transcript stored under an id. *)
Definition score_of (self : ConversationRetriever.t) (query : string) (tid : string)
  : PyFloat.float :=
  match ConversationRetriever.get_transcript self tid with
  | Some transcript => ConversationRetriever.keyword_score (PyStr.lower query) transcript
  | None => PyFloat.zero
  end.

(* ================================================================== *)
(** * Further functions of the repository and notions to state their
      properties *)
(* ================================================================== *)

(** The values a [for] loop can draw from, the values that are strings, and
    the elements of a conversation that become turns. *)
Definition iterable (v : Loader.pyval) : bool :=
  match v with
  | Loader.VList _ | Loader.VStr _ | Loader.VDict _ => true
  | _ => false
  end.

Definition is_str (v : Loader.pyval) : bool :=
  match v with
  | Loader.VStr _ => true
  | _ => false
  end.

Definition is_turn_value (v : Loader.pyval) : bool :=
  match v with
  | Loader.VDict _ | Loader.VStr _ => true
  | _ => false
  end.

(** The value that [_parse_conversation] iterates:
    [conv_data.get("conversation", conv_data.get("turns", []))]. *)
Definition conversation_value (d : list (string * Loader.pyval)) : Loader.pyval :=
  Dict.get_default String.eqb d "conversation"
    (Dict.get_default String.eqb d "turns" (Loader.VList [])).

(** An entry that loads: an object whose conversation can be iterated,
    whose intent, when present, is a string, and whose id, when present, can
    be a dictionary key. *)
Definition well_formed_entry (v : Loader.pyval) : bool :=
  match v with
  | Loader.VDict d =>
      (iterable (conversation_value d)
       && is_str (Dict.get_default String.eqb d "intent" (Loader.VStr ""))
       && Loader.hashable (Dict.get_default String.eqb d "transcript_id" (Loader.VStr "")))%bool
  | _ => false
  end.

(** The container that [_extract_conversations] takes from an object by
    name: the value under 'transcripts', or else under 'conversations'. *)
Definition named_container (d : list (string * Loader.pyval)) : option Loader.pyval :=
  match Dict.get String.eqb d "transcripts" with
  | Some v => Some v
  | None => Dict.get String.eqb d "conversations"
  end.

(** An entry whose conversation mixes a string, a number and an object. *)
Definition mixed_entry : list (string * Loader.pyval) :=
  [ ("transcript_id", Loader.VStr "MX-001");
    ("conversation",
     Loader.VList [ Loader.VStr "Hello";
                    Loader.VInt 7;
                    Loader.VDict [("speaker", Loader.VStr "Agent"); ("text", Loader.VStr "Hi")] ]) ].

(** The lookups of the retriever, on the store as the loader leaves it
    (ids are whatever values the data gave): [get_transcript] is
    [self.conversations_by_id.get(transcript_id)], which raises on a key
    that cannot be hashed; [get_all_transcripts] lists the values. *)
Module LoaderLookup.

Definition get_transcript (self : Loader.t) (transcript_id : Loader.pyval)
  : exc (option Loader.ConversationTranscript) :=
  if Loader.hashable transcript_id
  then Ok (Dict.get Loader.key_eqb (Loader.conversations_by_id self) transcript_id)
  else Raise TypeError.

Definition get_all_transcripts (self : Loader.t) : list Loader.ConversationTranscript :=
  Dict.values (Loader.conversations_by_id self).

End LoaderLookup.

(** The assignments that a run of the loop of [load_conversations] makes:
    one pair of id and transcript for each entry whose body runs to its
    end. *)
Definition loaded_pairs (entries : list (nat * Loader.pyval))
  : list (Loader.pyval * Loader.ConversationTranscript) :=
  flat_map (fun entry =>
              match Loader._parse_conversation (snd entry) (fst entry) with
              | Ok transcript =>
                  if Loader.hashable (Loader.transcript_id transcript)
                  then [(Loader.transcript_id transcript, transcript)]
                  else []
              | Raise _ => []
              end)
           entries.

(** A store in good order: no two keys are equal as dictionary keys, every
    key can be hashed, and every transcript is filed under a key equal to
    its own id. *)
Fixpoint distinct_keys {V : Type} (d : list (Loader.pyval * V)) : bool :=
  match d with
  | [] => true
  | (k, _) :: d' => (negb (Dict.mem Loader.key_eqb d' k) && distinct_keys d')%bool
  end.

Definition hashable_keys {V : Type} (d : list (Loader.pyval * V)) : bool :=
  forallb (fun kv => Loader.hashable (fst kv)) d.

Definition filed_under_id (d : list (Loader.pyval * Loader.ConversationTranscript)) : bool :=
  forallb (fun kv => Loader.key_eqb (fst kv) (Loader.transcript_id (snd kv))) d.

Definition store_ok (self : Loader.t) : bool :=
  (distinct_keys (Loader.conversations_by_id self)
   && hashable_keys (Loader.conversations_by_id self)
   && filed_under_id (Loader.conversations_by_id self))%bool.

(** The value that the last assignment to a key equal to [k] gives it. *)
Fixpoint final_value {V : Type} (pairs : list (Loader.pyval * V)) (k : Loader.pyval)
  : option V :=
  match pairs with
  | [] => None
  | (k', v) :: pairs' =>
      match final_value pairs' k with
      | Some x => Some x
      | None => if Loader.key_eqb k' k then Some v else None
      end
  end.

(** An entry without a 'transcript_id'. *)
Definition lacks_id (v : Loader.pyval) : bool :=
  match v with
  | Loader.VDict d => negb (Dict.mem String.eqb d "transcript_id")
  | _ => true
  end.

(** [f"conv_{idx}"] *)
Definition default_id (idx : nat) : Loader.pyval :=
  Loader.VStr ("conv_" ++ PyStr.of_nat idx).

(** Data in which two entries carry the same id, as the number 1 and as
    [True]. *)
Definition clash_data : Loader.pyval :=
  Loader.VList
    [ Loader.VDict [("transcript_id", Loader.VInt 1); ("intent", Loader.VStr "Fraud Alert")];
      Loader.VDict [("transcript_id", Loader.VStr "B")];
      Loader.VDict [("transcript_id", Loader.VBool true); ("intent", Loader.VStr "Delivery")] ].

(** A run of assignments [d[k] = v], in order. *)
Definition assign_all {V : Type} (pairs : list (Loader.pyval * V))
           (d : list (Loader.pyval * V)) : list (Loader.pyval * V) :=
  fold_left (fun d kv => Dict.set Loader.key_eqb d (fst kv) (snd kv)) pairs d.

(** ** main.py: the system that answers a query *)

Module CausalAnalysisSystem.

(** The system holds its retriever, that is the store as the loader leaves
    it, the embeddings and the flag of the backend, and its analyzer. *)
Record t : Type := {
  retriever : Loader.t;
  embeddings : list (string * ConversationRetriever.embedding);
  has_embeddings : bool;
  analyzer : CausalAnalyzer.t;
  loaded : bool
}.

(** [CausalAnalysisSystem()]; [has_embeddings] is what the retriever found
    of its optional backend. *)
Definition init (has_embeddings : bool) : t :=
  {| retriever := Loader.init;
     embeddings := [];
     has_embeddings := has_embeddings;
     analyzer := CausalAnalyzer.init;
     loaded := false |}.

(** The retriever over the store read in the declared data model. *)
Definition view (self : t) (conversations : list (string * ConversationTranscript))
  : ConversationRetriever.t :=
  {| ConversationRetriever.conversations_by_id := conversations;
     ConversationRetriever.embeddings := embeddings self;
     ConversationRetriever.has_embeddings := has_embeddings self |}.

(** [[self.retriever.get_transcript(tid) for tid in relevant_ids
      if self.retriever.get_transcript(tid)]]: a transcript object is always
    true. *)
Definition found_transcripts (retriever : ConversationRetriever.t)
           (relevant_ids : list string) : list ConversationTranscript :=
  flat_map (fun tid =>
              match ConversationRetriever.get_transcript retriever tid with
              | Some transcript => [transcript]
              | None => []
              end)
           relevant_ids.

Section ProcessQuery.
Variable encode : string -> exc ConversationRetriever.embedding.
Variable cos_sim :
  ConversationRetriever.embedding -> ConversationRetriever.embedding -> exc PyFloat.float.
(** [self.load_data()] reads the file system and fills the retriever: it
    returns its flag and the system after the call, or raises what the
    loader raises. *)
Variable load_data : t -> exc (bool * t).

(** [process_query] returns the explanation and the system after the
    call; [now] is the reading of the clock for the explanation.  The two
    early exits are embedded for every store.  Retrieval and analysis are
    embedded on stores of the declared data model: on a store with other
    values (a [reason_for_call] or a [text] that is no string, say) they
    raise [AttributeError] or [TypeError] from their string methods, or
    format the value, and the embedding gives no answer, [None]. *)
Definition process_query (self : t) (now query : string) (top_k : Z)
  : option (exc (CausalExplanation * t)) :=
  match (if loaded self then Ok (true, self) else load_data self) with
  | Raise e => Some (Raise e)
  | Ok (false, self) => Some (Ok (CausalAnalyzer._empty_explanation now query, self))
  | Ok (true, self) =>
      match typed_conversations (retriever self) with
      | None => None
      | Some conversations =>
          let relevant_ids :=
            ConversationRetriever.retrieve encode cos_sim (view self conversations)
                                           query top_k in
          let transcripts := found_transcripts (view self conversations) relevant_ids in
          Some (result <- CausalAnalyzer.analyze (analyzer self) now query transcripts true ;;
                Ok (fst result,
                    {| retriever := retriever self;
                       embeddings := embeddings self;
                       has_embeddings := has_embeddings self;
                       analyzer := snd result;
                       loaded := loaded self |}))
      end
  end.

End ProcessQuery.

End CausalAnalysisSystem.

(** A retriever in good order: every transcript is stored under its own id,
    and every embedding belongs to a stored transcript. *)
Definition filed_by_id (self : ConversationRetriever.t) : bool :=
  forallb (fun kv => String.eqb (fst kv) (transcript_id (snd kv)))
          (ConversationRetriever.conversations_by_id self).

Definition embeddings_known (self : ConversationRetriever.t) : bool :=
  forallb (fun k => Dict.mem String.eqb (ConversationRetriever.conversations_by_id self) k)
          (Dict.keys (ConversationRetriever.embeddings self)).

(** A loader that is never called, the store that loading the sample data
    leaves, and the system that has loaded the sample data. *)
Definition no_load_data (self : CausalAnalysisSystem.t)
  : exc (bool * CausalAnalysisSystem.t) :=
  Raise TypeError.

Definition loaded_sample : Loader.t :=
  match Loader.load_conversations Loader.init create_sample_data with
  | Ok (_, after) => after
  | Raise _ => Loader.init
  end.

Definition sample_system : CausalAnalysisSystem.t :=
  {| CausalAnalysisSystem.retriever := loaded_sample;
     CausalAnalysisSystem.embeddings := [];
     CausalAnalysisSystem.has_embeddings := false;
     CausalAnalysisSystem.analyzer := CausalAnalyzer.init;
     CausalAnalysisSystem.loaded := true |}.


(** ** Tables and values for the analyzer *)

(** The ten tests of [_extract_supporting_factors], in the order of the
    code: the two words looked for and the factor that is reported. *)
Definition supporting_factor_checklist : list (string * string * string) :=
  [ ("three weeks", "weeks", "Extended duration: issue persisted for weeks");
    ("yesterday", "today", "Recent occurrence: within last 24 hours");
    ("multiple", "several", "Multiple occurrences or attempts documented");
    ("repeated", "again", "Repeated failures noted");
    ("frustrated", "frustration", "Customer expressed frustration");
    ("upset", "angry", "Customer emotional distress");
    ("checked", "verified", "Customer performed verification steps");
    ("supervisor", "manager", "Escalation to supervisor requested");
    ("expedited", "immediately", "Agent provided swift response");
    ("blocked", "reversed", "Immediate security action taken") ].

Definition checklist_holds (text : string) (item : string * string * string) : bool :=
  (PyStr.contains (fst (fst item)) text || PyStr.contains (snd (fst item)) text)%bool.

(** The values of the dictionary that [to_dict] builds. *)
#[warnings="-register-all"]
Inductive py_any : Type :=
| AStr (s : string)
| AInt (z : Z)
| AFloat (x : PyFloat.float)
| AList (l : list py_any)
| ADict (d : list (string * py_any)).

(** [CausalExplanation.to_dict] *)
Definition to_dict (self : CausalExplanation) : list (string * py_any) :=
  [ ("query", AStr (query self));
    ("primary_cause", AStr (primary_cause self));
    ("supporting_factors", AList (map AStr (supporting_factors self)));
    ("evidence_spans",
     AList (map (fun span => let '(t, s) := span in
                             ADict [("turn_id", AInt t); ("text", AStr s)])
                (evidence_spans self)));
    ("confidence", AFloat (confidence self));
    ("relevant_transcript_ids", AList (map AStr (relevant_transcript_ids self)));
    ("timestamp", AStr (explanation_timestamp self)) ].

(** The number of matching patterns of each category of the table that
    [PatternAnalyzer()] loads. *)
Definition shipped_counts (text : string) : list (string * nat) :=
  map (fun item => (fst item, PatternAnalyzer.count_matches (snd item) (PyStr.lower text)))
      (PatternAnalyzer.outcome_patterns PatternAnalyzer.init).

(** [k / 5] on two [int]s. *)
Definition fifths (k : nat) : PyFloat.float :=
  PyFloat.div (PyFloat.of_nat k) (PyFloat.of_nat 5).

(** ** Notions for retrieval by embeddings *)

(** A float that is a number: any value but NaN. *)
Definition is_number (x : PyFloat.float) : bool :=
  match x with
  | S754_nan => false
  | _ => true
  end.

(** What the backend answers for one stored embedding, 0.0 standing for an
    exception. *)
Definition similarity_value
           (cos_sim : ConversationRetriever.embedding -> ConversationRetriever.embedding ->
                      exc PyFloat.float)
           (query_embedding emb : ConversationRetriever.embedding) : PyFloat.float :=
  match cos_sim query_embedding emb with
  | Ok s => s
  | Raise _ => PyFloat.zero
  end.

(** The similarity of the embedding stored under an id. *)
Definition similarity_of
           (cos_sim : ConversationRetriever.embedding -> ConversationRetriever.embedding ->
                      exc PyFloat.float)
           (query_embedding : ConversationRetriever.embedding)
           (self : ConversationRetriever.t) (tid : string) : PyFloat.float :=
  match Dict.get String.eqb (ConversationRetriever.embeddings self) tid with
  | Some emb => similarity_value cos_sim query_embedding emb
  | None => PyFloat.zero
  end.

(** A backend whose similarities may be negative: the first coordinate of
    the stored vector, negated. *)
Definition negating_cos_sim (a b : ConversationRetriever.embedding) : exc PyFloat.float :=
  Ok (SFopp (hd PyFloat.zero b)).

(** A string without a space character. *)
Fixpoint no_space (s : string) : bool :=
  match s with
  | EmptyString => true
  | String c s' => (negb (PyStr.isspace c) && no_space s')%bool
  end.

(* ================================================================== *)
(** * Facts about binary64 comparison and arithmetic *)
(* ================================================================== *)

Module FloatFacts.
Import PyFloat.

Lemma compare_finite_pos (m1 m2 : positive) (e1 e2 : Z) :
  SFcompare (S754_finite false m1 e1) (S754_finite false m2 e2) =
  Some (match (e1 ?= e2)%Z with Lt => Lt | Gt => Gt | Eq => (m1 ?= m2)%positive end).
Proof. reflexivity. Qed.

Lemma compare_finite_neg (m1 m2 : positive) (e1 e2 : Z) :
  SFcompare (S754_finite true m1 e1) (S754_finite true m2 e2) =
  Some (match (e1 ?= e2)%Z with Lt => Gt | Gt => Lt | Eq => CompOpp (m1 ?= m2)%positive end).
Proof. reflexivity. Qed.

Ltac cmp_cases :=
  repeat match goal with
         | |- context [Pos.compare_cont Eq ?a ?b] =>
             change (Pos.compare_cont Eq a b) with (Pos.compare a b)
         | H : context [Pos.compare_cont Eq ?a ?b] |- _ =>
             change (Pos.compare_cont Eq a b) with (Pos.compare a b) in H
         end;
  repeat match goal with
         | |- context [(?a ?= ?b)%Z] => destruct (Z.compare_spec a b)
         | H : context [(?a ?= ?b)%Z] |- _ => destruct (Z.compare_spec a b)
         | |- context [(?a ?= ?b)%positive] => destruct (Pos.compare_spec a b)
         | H : context [(?a ?= ?b)%positive] |- _ => destruct (Pos.compare_spec a b)
         end;
  cbn [CompOpp] in *; try congruence; try lia.

Ltac float_cases x :=
  destruct x as [[|]|[|]| |[|] ? ?].

Lemma ltb_irrefl (x : float) : ltb x x = false.
Proof.
  unfold ltb, SFltb. float_cases x; try reflexivity.
  - rewrite compare_finite_neg. cmp_cases.
  - rewrite compare_finite_pos. cmp_cases.
Qed.

Lemma ltb_trans (a b c : float) :
  ltb a b = true -> ltb b c = true -> ltb a c = true.
Proof.
  unfold ltb, SFltb.
  float_cases a; float_cases b; simpl; try discriminate;
    float_cases c; simpl; try discriminate; try reflexivity;
    rewrite ?compare_finite_neg, ?compare_finite_pos; intros; cmp_cases.
Qed.

(** [y == x] lets [y] take the place of [x] on the right of [<]. *)
Lemma ltb_eqb_r (a x y : float) :
  ltb a x = true -> eqb y x = true -> ltb a y = true.
Proof.
  unfold ltb, eqb, SFltb, SFeqb.
  float_cases a; float_cases x; simpl; try discriminate;
    float_cases y; simpl; try discriminate; try reflexivity;
    rewrite ?compare_finite_neg, ?compare_finite_pos; intros; cmp_cases.
Qed.

Lemma ltb_not_eqb (a b : float) : ltb a b = true -> eqb a b = false.
Proof.
  unfold ltb, eqb, SFltb, SFeqb. destruct (SFcompare a b) as [[| |]|]; congruence.
Qed.

(** Two scores equal to a third are not ordered by [<]. *)
Lemma eqb_eqb_not_ltb (a b s : float) :
  eqb a s = true -> eqb b s = true -> ltb a b = false.
Proof.
  unfold ltb, eqb, SFltb, SFeqb.
  float_cases a; float_cases s; simpl; try discriminate;
    float_cases b; simpl; try discriminate; try reflexivity;
    rewrite ?compare_finite_neg, ?compare_finite_pos; intros; cmp_cases.
Qed.

(** [<] and [>] are each other's converse. *)
Lemma compare_antisym (a b : float) :
  SFcompare b a = option_map CompOpp (SFcompare a b).
Proof.
  float_cases a; float_cases b; try reflexivity;
    rewrite ?compare_finite_neg, ?compare_finite_pos; simpl; f_equal;
    rewrite (Z.compare_antisym e e0), (Pos.compare_antisym m m0);
    destruct (e ?= e0)%Z, (m ?= m0)%positive; reflexivity.
Qed.

Lemma not_ltb_leb (a b : float) :
  SFcompare a b <> None -> ltb a b = false -> leb b a = true.
Proof.
  unfold ltb, leb, SFltb, SFleb. rewrite (compare_antisym a b).
  destruct (SFcompare a b) as [[| |]|]; simpl; congruence.
Qed.

Lemma nonneg_comparable (a b : float) :
  nonneg a = true -> nonneg b = true -> SFcompare a b <> None.
Proof. float_cases a; float_cases b; simpl; congruence. Qed.

Lemma mul_comm (x y : float) : mul x y = mul y x.
Proof.
  unfold mul. float_cases x; float_cases y; try reflexivity;
    unfold SFmul; rewrite (Pos.mul_comm m m0), (Z.add_comm e e0); reflexivity.
Qed.

(** Adding [+0.0] changes nothing but [-0.0]. *)
Lemma add_zero_r (x : float) : nonneg x = true -> add x zero = x.
Proof. float_cases x; simpl; congruence. Qed.

Lemma iter_pos_invariant {A : Type} (P : A -> Prop) (f : A -> A) :
  (forall x, P x -> P (f x)) -> forall n x, P x -> P (iter_pos f n x).
Proof.
  intros Hf. induction n as [n IH | n IH |]; intros x Hx; simpl; auto.
Qed.

Lemma shr_1_nonneg (mrs : shr_record) : (0 <= shr_m mrs)%Z -> (0 <= shr_m (shr_1 mrs))%Z.
Proof.
  destruct mrs as [m r s]. simpl. destruct m as [|[p|p|]|p]; simpl; lia.
Qed.

Lemma shr_nonneg (mrs : shr_record) (e n : Z) :
  (0 <= shr_m mrs)%Z -> (0 <= shr_m (fst (shr mrs e n)))%Z.
Proof.
  intros H. destruct n as [|p|p]; simpl; auto.
  apply (iter_pos_invariant (fun r => (0 <= shr_m r)%Z)); auto using shr_1_nonneg.
Qed.

Lemma shr_fexp_nonneg (m e : Z) (l : location) :
  (0 <= m)%Z -> (0 <= shr_m (fst (shr_fexp prec emax m e l)))%Z.
Proof.
  intros H. unfold shr_fexp. apply shr_nonneg.
  destruct l as [|[| |]]; simpl; assumption.
Qed.

Lemma round_nearest_even_nonneg (m : Z) (l : location) :
  (0 <= m)%Z -> (0 <= round_nearest_even m l)%Z.
Proof.
  intros H. destruct l as [|[| |]]; simpl; try lia. destruct (Z.even m); lia.
Qed.

(** Rounding a non-negative mantissa with a clear sign bit never gives a
    NaN or a set sign bit. *)
Lemma binary_round_aux_nonneg (mx ex : Z) (lx : location) :
  (0 <= mx)%Z -> nonneg (binary_round_aux prec emax false mx ex lx) = true.
Proof.
  intros H. unfold binary_round_aux.
  pose proof (shr_fexp_nonneg mx ex lx H) as H1.
  destruct (shr_fexp prec emax mx ex lx) as [mrs' e']. simpl in H1.
  pose proof (shr_fexp_nonneg _ e' loc_Exact
                (round_nearest_even_nonneg _ (loc_of_shr_record mrs') H1)) as H2.
  destruct (shr_fexp prec emax _ e' loc_Exact) as [mrs'' e'']. simpl in H2.
  destruct (shr_m mrs'') as [|p|p]; try reflexivity.
  - destruct (e'' <=? emax - prec)%Z; reflexivity.
  - lia.
Qed.

Lemma binary_round_nonneg (m : positive) (e : Z) :
  nonneg (binary_round prec emax false m e) = true.
Proof.
  unfold binary_round. destruct (shl_align m e _) as [mz ez].
  apply binary_round_aux_nonneg. lia.
Qed.

Lemma of_nat_nonneg (n : nat) : nonneg (of_nat n) = true.
Proof.
  unfold of_nat, of_Z, binary_normalize. destruct (Z.of_nat n) eqn:E; try reflexivity.
  - apply binary_round_nonneg.
  - lia.
Qed.

Lemma mul_finite_nonneg (x : float) (m : positive) (e : Z) :
  nonneg x = true -> nonneg (mul x (S754_finite false m e)) = true.
Proof.
  float_cases x; simpl; try congruence. intros _.
  apply binary_round_aux_nonneg. lia.
Qed.

Lemma add_nonneg (x y : float) :
  nonneg x = true -> nonneg y = true -> nonneg (add x y) = true.
Proof.
  float_cases x; float_cases y; simpl; try congruence. intros _ _.
  unfold add, SFadd, binary_normalize. simpl.
  apply binary_round_nonneg.
Qed.

Lemma min_nonneg (x y : float) :
  nonneg x = true -> nonneg y = true -> nonneg (min x y) = true.
Proof. unfold min. destruct (ltb y x); auto. Qed.

Lemma max_nonneg (x y : float) :
  nonneg x = true -> nonneg y = true -> nonneg (max x y) = true.
Proof. unfold max. destruct (ltb x y); auto. Qed.

(** Clamping a number that is not a NaN puts it between the bounds. *)
Lemma clamp_range (c lo hi : float) :
  nonneg c = true -> nonneg lo = true -> nonneg hi = true ->
  leb lo hi = true ->
  leb lo (min (max c lo) hi) = true /\ leb (min (max c lo) hi) hi = true.
Proof.
  intros Hc Hlo Hhi Hlh.
  assert (Hr : nonneg (max c lo) = true) by (apply max_nonneg; assumption).
  assert (H1 : leb lo (max c lo) = true).
  { unfold max. destruct (ltb c lo) eqn:E.
    - apply not_ltb_leb; [apply nonneg_comparable; assumption | apply ltb_irrefl].
    - apply not_ltb_leb; [apply nonneg_comparable; assumption | exact E]. }
  unfold min. destruct (ltb hi (max c lo)) eqn:E; split; auto.
  - apply not_ltb_leb; [apply nonneg_comparable; assumption | apply ltb_irrefl].
  - apply not_ltb_leb; [apply nonneg_comparable; assumption | exact E].
Qed.

Local Open Scope Z_scope.

Lemma digits_iter_xO (p k : positive) :
  digits2_pos (Pos.iter xO p k) = (digits2_pos p + k)%positive.
Proof.
  induction k as [|k IH] using Pos.peano_ind.
  - simpl. lia.
  - rewrite Pos.iter_succ. simpl. rewrite IH. lia.
Qed.

Lemma digits_lower_bound (p : positive) : 2 ^ (Zpos (digits2_pos p) - 1) <= Zpos p.
Proof.
  induction p as [p IH|p IH|]; cbn [digits2_pos].
  - rewrite Pos2Z.inj_succ. replace (Z.succ (Zpos (digits2_pos p)) - 1) with (Z.succ (Zpos (digits2_pos p) - 1)) by lia.
    rewrite Z.pow_succ_r by lia. lia.
  - rewrite Pos2Z.inj_succ. replace (Z.succ (Zpos (digits2_pos p)) - 1) with (Z.succ (Zpos (digits2_pos p) - 1)) by lia.
    rewrite Z.pow_succ_r by lia. lia.
  - simpl. lia.
Qed.

Lemma digits_le_53 (p : positive) : Zpos p < 2 ^ 53 -> Zpos (digits2_pos p) <= 53.
Proof.
  intros H. pose proof (digits_lower_bound p) as Hl.
  destruct (Z.le_gt_cases (Zpos (digits2_pos p)) 53) as [|Hgt]; [assumption|].
  assert (2 ^ 53 <= 2 ^ (Zpos (digits2_pos p) - 1)) by (apply Z.pow_le_mono_r; lia).
  lia.
Qed.

(** A mantissa of 53 digits with an exponent in range is its own rounding. *)
Lemma round_canonical (mz : positive) (ez : Z) :
  Zpos (digits2_pos mz) = 53 -> -1074 <= ez <= 971 ->
  binary_round_aux prec emax false (Zpos mz) ez loc_Exact = S754_finite false mz ez.
Proof.
  intros Hd He. unfold binary_round_aux, shr_fexp, fexp, emin, Zdigits2, prec, emax.
  rewrite Hd. cbn [shr_record_of_loc].
  replace (Z.max (53 + ez - 53) (3 - 1024 - 53) - ez) with 0 by lia.
  cbn [shr shr_m loc_of_shr_record round_nearest_even Zdigits2].
  rewrite Hd.
  replace (Z.max (53 + ez - 53) (3 - 1024 - 53) - ez) with 0 by lia.
  cbn [shr shr_m].
  destruct (Z.leb_spec ez (1024 - 53)); [reflexivity | lia].
Qed.

(** An integer below [2^53] converts to a finite float. *)
Lemma of_Z_finite (p : positive) :
  Zpos p < 2 ^ 53 -> exists m e, of_Z (Zpos p) = S754_finite false m e.
Proof.
  intros H. apply digits_le_53 in H.
  unfold of_Z, binary_normalize, binary_round, shl_align, fexp, emin, prec, emax.
  set (d := digits2_pos p) in *.
  replace (Z.max (Zpos d + 0 - 53) (3 - 1024 - 53) - 0) with (Zpos d - 53) by lia.
  replace (Z.max (Zpos d + 0 - 53) (3 - 1024 - 53)) with (Zpos d - 53) by lia.
  destruct (Zpos d - 53) as [|k|k] eqn:E; try lia.
  - exists p, 0. apply round_canonical; [fold d; lia | lia].
  - eexists _, _. apply round_canonical; [|lia].
    rewrite digits_iter_xO. fold d. lia.
Qed.

Lemma of_nat_finite (n : nat) :
  (0 < n)%nat -> Z.of_nat n < 2 ^ 53 -> exists m e, of_nat n = S754_finite false m e.
Proof.
  intros Hn Hb. unfold of_nat. destruct (Z.of_nat n) as [|p|p] eqn:E; try lia.
  now apply of_Z_finite.
Qed.

Lemma div_finite_nonneg (x : float) (m : positive) (e : Z) :
  nonneg x = true -> nonneg (div x (S754_finite false m e)) = true.
Proof.
  float_cases x; simpl; try congruence. intros _.
  unfold div, SFdiv, SFdiv_core_binary. cbv zeta.
  match goal with
  | |- context [Z.div_eucl ?a ?b] =>
      assert (Ha : 0 <= a);
      [| pose proof (Z.div_pos a b Ha ltac:(lia)) as Hq; unfold Z.div in Hq;
         destruct (Z.div_eucl a b) as [q r] ]
  end.
  - match goal with
    | |- 0 <= match ?sh with _ => _ end => destruct sh; try lia
    end.
    apply Z.shiftl_nonneg. lia.
  - apply binary_round_aux_nonneg. exact Hq.
Qed.

Local Close Scope Z_scope.

End FloatFacts.

(* ================================================================== *)
(** * The confidence of an explanation *)
(* ================================================================== *)

Lemma generate_primary_cause_total (outcome : string) (first : ConversationTranscript)
      (rest : list ConversationTranscript) :
  exists cause, CausalAnalyzer._generate_primary_cause outcome (first :: rest) = Ok cause.
Proof.
  unfold CausalAnalyzer._generate_primary_cause. cbv zeta.
  repeat match goal with
         | |- context [if PyStr.contains ?a outcome then _ else _] =>
             destruct (PyStr.contains a outcome)
         end;
    match goal with
    | |- exists c, match ?x with _ => _ end = Ok c => destruct x; eexists; reflexivity
    end.
Qed.

(** What [analyze] returns on a list that is not empty. *)
Lemma analyze_cons (self : CausalAnalyzer.t) (now query : string)
      (first : ConversationTranscript) (rest : list ConversationTranscript)
      (include_history : bool) :
  exists cause,
    CausalAnalyzer._generate_primary_cause (outcome first) (first :: rest) = Ok cause /\
    CausalAnalyzer.analyze self now query (first :: rest) include_history =
    Ok ({| query := query;
           primary_cause := cause;
           supporting_factors :=
             CausalAnalyzer._extract_supporting_factors (outcome first) (first :: rest);
           evidence_spans := CausalAnalyzer._extract_evidence query (first :: rest);
           confidence :=
             CausalAnalyzer._calculate_confidence (first :: rest)
               (CausalAnalyzer._extract_supporting_factors (outcome first) (first :: rest));
           relevant_transcript_ids := map transcript_id (first :: rest);
           explanation_timestamp := now |},
        if include_history
        then {| CausalAnalyzer.history :=
                  list_append (CausalAnalyzer.history self)
                    {| CausalAnalyzer.h_query := query;
                       CausalAnalyzer.h_explanation := cause;
                       CausalAnalyzer.h_timestamp := now |} |}
        else self).
Proof.
  destruct (generate_primary_cause_total (outcome first) first rest) as [cause Hc].
  exists cause. split; [exact Hc|].
  unfold CausalAnalyzer.analyze. rewrite Hc. reflexivity.
Qed.

Section Confidence.
Import PyFloat FloatFacts.

Lemma min_mul_nonneg (n : nat) (m : positive) (e : Z) (cap : float) :
  nonneg cap = true ->
  nonneg (min (mul (of_nat n) (S754_finite false m e)) cap) = true.
Proof.
  intros H. apply min_nonneg; [|exact H].
  apply mul_finite_nonneg, of_nat_nonneg.
Qed.

Lemma clamp_min_max (c : float) :
  min (max c c0_6) c0_95 = Spec.clamp c0_6 c0_95 c.
Proof.
  unfold min, max, Spec.clamp. destruct (ltb c c0_6); reflexivity.
Qed.

(** The sum before the clamp has a clear sign bit and is no NaN. *)
Lemma confidence_sum_nonneg (n f : nat) :
  nonneg (add (add c0_6 (min (mul (of_nat n) c0_05) c0_15))
              (min (mul (of_nat f) c0_03) c0_15)) = true.
Proof.
  apply add_nonneg; [apply add_nonneg; [reflexivity|]|];
    apply min_mul_nonneg; reflexivity.
Qed.

Lemma calculate_confidence_formula (first : ConversationTranscript)
      (rest : list ConversationTranscript) (factors : list string) :
  CausalAnalyzer._calculate_confidence (first :: rest) factors =
  Spec.confidence_formula (List.length (first :: rest)) (List.length factors)
                          (Spec.nonempty (reason_for_call first)).
Proof.
  unfold CausalAnalyzer._calculate_confidence, Spec.confidence_formula. cbv zeta.
  rewrite clamp_min_max.
  rewrite (mul_comm c0_05), (mul_comm c0_03).
  destruct (reason_for_call first); simpl Spec.nonempty; cbv iota.
  - rewrite add_zero_r; [reflexivity | apply confidence_sum_nonneg].
  - reflexivity.
Qed.

Lemma calculate_confidence_range (transcripts : list ConversationTranscript)
      (factors : list string) :
  leb c0_6 (CausalAnalyzer._calculate_confidence transcripts factors) = true /\
  leb (CausalAnalyzer._calculate_confidence transcripts factors) c0_95 = true.
Proof.
  unfold CausalAnalyzer._calculate_confidence. cbv zeta.
  apply clamp_range; try reflexivity.
  pose proof (confidence_sum_nonneg (List.length transcripts) (List.length factors)) as H.
  destruct transcripts as [|first rest]; [exact H|].
  destruct (reason_for_call first); [exact H|].
  apply add_nonneg; [exact H | reflexivity].
Qed.

End Confidence.

(** C1.  On a list of transcripts that is not empty, [analyze] returns an
    explanation whose confidence is
    [0.6 + min(0.05 * transcript_count, 0.15) + min(0.03 * factor_count, 0.15)
     + (0.1 if the first transcript's reason_for_call is non-empty else 0)]
    clamped to the interval from 0.6 to 0.95, where [factor_count] is the
    number of supporting factors of that explanation; the value lies between
    0.6 and 0.95.  On the empty list the confidence is exactly 0.3.  All
    numbers are binary64 and all operations correctly rounded. *)
Theorem analyze_confidence (self : CausalAnalyzer.t) (now query : string)
        (first : ConversationTranscript) (rest : list ConversationTranscript)
        (include_history : bool) :
  (exists e self',
      CausalAnalyzer.analyze self now query (first :: rest) include_history = Ok (e, self') /\
      confidence e =
        Spec.confidence_formula (List.length (first :: rest))
                                (List.length (supporting_factors e))
                                (Spec.nonempty (reason_for_call first)) /\
      PyFloat.leb PyFloat.c0_6 (confidence e) = true /\
      PyFloat.leb (confidence e) PyFloat.c0_95 = true) /\
  (exists e self',
      CausalAnalyzer.analyze self now query [] include_history = Ok (e, self') /\
      confidence e = PyFloat.c0_3).
Proof.
  split.
  - destruct (analyze_cons self now query first rest include_history) as [cause [_ Ha]].
    eexists. eexists. split; [exact Ha|]. cbn [confidence supporting_factors].
    split; [apply calculate_confidence_formula | apply calculate_confidence_range].
  - eexists. eexists. split; reflexivity.
Qed.

(* ================================================================== *)
(** * The analyzer's history and the repeatability of [analyze] *)
(* ================================================================== *)

(** C8.  Two calls of [analyze] with the same query and the same list of
    transcripts, whatever the two analyzer states are (the second may be the
    state the first call left), whatever the two clock readings and history
    flags are, return explanations with the same primary cause, supporting
    factors, evidence spans and confidence. *)
Theorem analyze_idempotent (self1 self2 : CausalAnalyzer.t) (now1 now2 query : string)
        (transcripts : list ConversationTranscript) (h1 h2 : bool) :
  exists e1 after1 e2 after2,
    CausalAnalyzer.analyze self1 now1 query transcripts h1 = Ok (e1, after1) /\
    CausalAnalyzer.analyze self2 now2 query transcripts h2 = Ok (e2, after2) /\
    primary_cause e1 = primary_cause e2 /\
    supporting_factors e1 = supporting_factors e2 /\
    evidence_spans e1 = evidence_spans e2 /\
    confidence e1 = confidence e2.
Proof.
  destruct transcripts as [|first rest].
  - do 4 eexists. repeat split.
  - destruct (analyze_cons self1 now1 query first rest h1) as [c1 [Hc1 H1]].
    destruct (analyze_cons self2 now2 query first rest h2) as [c2 [Hc2 H2]].
    assert (c1 = c2) by congruence. subst c2.
    do 4 eexists. split; [exact H1|]. split; [exact H2|]. repeat split.
Qed.

(** C9.  [analyze] on the empty list returns the analyzer as it was, and
    [analyze] on a list that is not empty, with [include_history] at its
    default [True], returns the analyzer with exactly one entry more at the
    end of its history: the query, the primary cause and the timestamp of the
    explanation. *)
Theorem analyze_history_effect (self : CausalAnalyzer.t) (now query : string)
        (first : ConversationTranscript) (rest : list ConversationTranscript)
        (include_history : bool) :
  (exists e, CausalAnalyzer.analyze self now query [] include_history = Ok (e, self)) /\
  (exists e after,
      CausalAnalyzer.analyze self now query (first :: rest) true = Ok (e, after) /\
      CausalAnalyzer.history after =
        (CausalAnalyzer.history self ++
         [ {| CausalAnalyzer.h_query := query;
              CausalAnalyzer.h_explanation := primary_cause e;
              CausalAnalyzer.h_timestamp := explanation_timestamp e |} ])%list /\
      List.length (CausalAnalyzer.history after) =
        S (List.length (CausalAnalyzer.history self))).
Proof.
  split.
  - eexists. reflexivity.
  - destruct (analyze_cons self now query first rest true) as [cause [_ Ha]].
    do 2 eexists. split; [exact Ha|]. cbn. unfold list_append. split; [reflexivity|].
    rewrite length_app. simpl. lia.
Qed.

(* ================================================================== *)
(** * Scenario A: the escalation rules *)
(* ================================================================== *)

Lemma append_assoc (a b c : string) : ((a ++ b) ++ c)%string = (a ++ b ++ c)%string.
Proof. induction a as [|x a IH]; simpl; [reflexivity | now rewrite IH]. Qed.

Lemma startswith_spec (p s : string) :
  PyStr.startswith p s = true <-> exists b, s = (p ++ b)%string.
Proof.
  revert s. induction p as [|x p IH]; intros s; simpl.
  - split; [intros _; exists s; reflexivity | reflexivity].
  - destruct s as [|y s].
    + split; [discriminate | intros [b Hb]; discriminate].
    + destruct (Ascii.eqb_spec x y) as [->|Hxy].
      * rewrite IH. split; intros [b Hb]; exists b; [now rewrite Hb | now injection Hb].
      * split; [discriminate | intros [b Hb]; congruence].
Qed.

(** [sub in s] holds exactly when [s] is [sub] with something before and
    something behind. *)
Lemma contains_spec (sub s : string) :
  PyStr.contains sub s = true <-> exists a b, s = (a ++ sub ++ b)%string.
Proof.
  induction s as [|y s IH]; cbn [PyStr.contains].
  - destruct (PyStr.startswith sub EmptyString) eqn:E.
    + apply startswith_spec in E. destruct E as [b Hb].
      split; [intros _; exists EmptyString, b; exact Hb | reflexivity].
    + split; [discriminate|]. intros [a [b Hab]].
      destruct a; [|discriminate]. simpl in Hab.
      assert (PyStr.startswith sub EmptyString = true)
        by (apply startswith_spec; exists b; exact Hab).
      congruence.
  - destruct (PyStr.startswith sub (String y s)) eqn:E.
    + apply startswith_spec in E. destruct E as [b Hb].
      split; [intros _; exists EmptyString, b; exact Hb | reflexivity].
    + rewrite IH. split.
      * intros [a [b Hab]]. exists (String y a), b. simpl. now rewrite Hab.
      * intros [a [b Hab]]. destruct a as [|x a].
        -- simpl in Hab.
           assert (PyStr.startswith sub (String y s) = true)
             by (apply startswith_spec; exists b; exact Hab).
           congruence.
        -- simpl in Hab. injection Hab as _ Hs. exists a, b. exact Hs.
Qed.

Lemma lower_append (a b : string) :
  PyStr.lower (a ++ b) = (PyStr.lower a ++ PyStr.lower b)%string.
Proof. induction a as [|x a IH]; simpl; [reflexivity | now rewrite IH]. Qed.

Lemma contains_lower (sub s : string) :
  PyStr.contains sub s = true -> PyStr.contains (PyStr.lower sub) (PyStr.lower s) = true.
Proof.
  rewrite !contains_spec. intros [a [b ->]].
  exists (PyStr.lower a), (PyStr.lower b). now rewrite !lower_append.
Qed.

Lemma contains_trans (a b c : string) :
  PyStr.contains a b = true -> PyStr.contains b c = true -> PyStr.contains a c = true.
Proof.
  rewrite !contains_spec. intros [x [y ->]] [u [v ->]].
  exists (u ++ x)%string, (y ++ v)%string. now rewrite !append_assoc.
Qed.

(** A word of the scenario text is a word of every text that contains the
    scenario text. *)
Lemma scenario_A_word (word text : string) :
  PyStr.contains word (PyStr.lower scenario_A_text) = true ->
  PyStr.contains scenario_A_text text = true ->
  PyStr.contains word (PyStr.lower text) = true.
Proof.
  intros Hw Ht. apply (contains_trans _ _ _ Hw). now apply contains_lower.
Qed.

(** C3, as the code has it.  For a transcript with outcome [escalation]
    whose full text contains the text of scenario A, does not mention
    "frustrated" or "frustration" in any case of letters, and whose first
    error code, as the pattern of the escalation rule finds it, is 3309:
    [analyze], with the query "why did the conversation escalate" or any
    other, returns the primary cause of scenario A. *)
Theorem scenario_A_primary_cause (self : CausalAnalyzer.t) (now query : string)
        (t : ConversationTranscript) (include_history : bool) :
  outcome t = "escalation" ->
  PyStr.contains scenario_A_text (get_full_text t) = true ->
  PyStr.contains "frustrated" (PyStr.lower (get_full_text t)) = false ->
  PyStr.contains "frustration" (PyStr.lower (get_full_text t)) = false ->
  (exists m, Re.search CausalAnalyzer.error_code_re (PyStr.lower (get_full_text t)) = Some m
             /\ Re.groups m = ["3309"]) ->
  exists e after,
    CausalAnalyzer.analyze self now query [t] include_history = Ok (e, after) /\
    primary_cause e = scenario_A_cause.
Proof.
  intros Hout Htext Hf1 Hf2 [m [Hm Hg]].
  destruct (analyze_cons self now query t [] include_history) as [cause [Hc Ha]].
  do 2 eexists. split; [exact Ha|]. cbn [primary_cause].
  rewrite Hout in Hc.
  unfold CausalAnalyzer._generate_primary_cause, CausalAnalyzer.all_text_lower in Hc.
  cbn [map PyStr.join] in Hc. cbv zeta in Hc.
  change (PyStr.contains "escalation" "escalation") with true in Hc. cbv iota in Hc.
  rewrite (scenario_A_word "three weeks" _ eq_refl Htext) in Hc.
  rewrite (scenario_A_word "multiple" _ eq_refl Htext) in Hc.
  rewrite (scenario_A_word "nobody" _ eq_refl Htext) in Hc.
  rewrite Hf1, Hf2, Hm, Hg in Hc.
  cbn [orb CausalAnalyzer.append_if list_append app nth] in Hc.
  injection Hc as <-. reflexivity.
Qed.

Lemma scenario_A_primary_cause_witness :
  exists e after,
    CausalAnalyzer.analyze CausalAnalyzer.init "2024-01-01T00:00:00"
      "why did the conversation escalate" [scenario_A_transcript] true = Ok (e, after) /\
    primary_cause e = scenario_A_cause.
Proof.
  apply (scenario_A_primary_cause CausalAnalyzer.init "2024-01-01T00:00:00"
           "why did the conversation escalate" scenario_A_transcript true);
    try reflexivity.
  eexists. split; vm_compute; reflexivity.
Defined.

(** C3 as stated fails: the full text of this transcript
    contains the text of scenario A and goes on with a sentence of the agent
    of the sample data, and the primary cause has a fifth part. *)
Lemma scenario_A_with_frustration :
  outcome frustration_transcript = "escalation" /\
  PyStr.contains scenario_A_text (get_full_text frustration_transcript) = true /\
  exists e after,
    CausalAnalyzer.analyze CausalAnalyzer.init "2024-01-01T00:00:00"
      "why did the conversation escalate" [frustration_transcript] true = Ok (e, after) /\
    primary_cause e =
      "Customer escalated due to: prolonged issue duration (multiple weeks); multiple failed resolution attempts; accumulated customer frustration; previous agents unable to resolve; unresolved error code 3309" /\
    primary_cause e <> scenario_A_cause.
Proof.
  split; [reflexivity|]. split; [vm_compute; reflexivity|].
  do 2 eexists. split; [vm_compute; reflexivity|].
  split; [reflexivity | discriminate].
Qed.

(* ================================================================== *)
(** * Evidence spans *)
(* ================================================================== *)

Lemma length_append (a b : string) :
  String.length (a ++ b) = String.length a + String.length b.
Proof. induction a as [|c a IH]; simpl; [reflexivity | now rewrite IH]. Qed.

Lemma length_take (n : nat) (s : string) : String.length (PyStr.take n s) <= n.
Proof.
  revert s. induction n as [|n IH]; intros [|c s]; simpl; try lia.
  specialize (IH s). lia.
Qed.

Lemma In_firstn {A : Type} (x : A) (n : nat) (l : list A) :
  In x (firstn n l) -> In x l.
Proof.
  revert l. induction n as [|n IH]; intros [|a l]; simpl; try tauto.
  intros [H|H]; [left; exact H | right; now apply IH].
Qed.

Lemma count_positive {A : Type} (f : A -> bool) (l : list A) :
  (0 <? List.length (filter f l))%nat = existsb f l.
Proof.
  induction l as [|a l IH]; simpl; [reflexivity|].
  destruct (f a); simpl; [reflexivity | exact IH].
Qed.

Lemma existsb_nodup (f : string -> bool) (l : list string) :
  existsb f (nodup string_dec l) = existsb f l.
Proof.
  apply eq_true_iff_eq. rewrite !existsb_exists.
  split; intros [x [Hin Hf]]; exists x; split; auto; now apply (nodup_In string_dec).
Qed.

Lemma existsb_map {A B : Type} (f : B -> bool) (g : A -> B) (l : list A) :
  existsb f (map g l) = existsb (fun x => f (g x)) l.
Proof. induction l as [|a l IH]; simpl; [reflexivity | now rewrite IH]. Qed.

Lemma existsb_filter {A : Type} (f p : A -> bool) (l : list A) :
  existsb f (filter p l) = existsb (fun x => (p x && f x)%bool) l.
Proof.
  induction l as [|a l IH]; simpl; [reflexivity|].
  destruct (p a); simpl; now rewrite IH.
Qed.

Lemma display_of_truncated (turn : ConversationTurn) :
  CausalAnalyzer.display_of turn = Spec.truncated (text turn).
Proof.
  unfold CausalAnalyzer.display_of, Spec.truncated.
  destruct (Nat.ltb_spec 120 (PyStr.len (text turn))) as [H|H];
    destruct (Nat.leb_spec (PyStr.len (text turn)) 120) as [H'|H']; try reflexivity; lia.
Qed.

Lemma truncated_length (s : string) : String.length (Spec.truncated s) <= 123.
Proof.
  unfold Spec.truncated, PyStr.len.
  destruct (Nat.leb_spec (String.length s) 120) as [H|H]; [lia|].
  rewrite length_append. pose proof (length_take 120 s) as Ht.
  change (String.length "...") with 3. lia.
Qed.

Lemma span_length (turn : ConversationTurn) :
  String.length (snd (Spec.span_of turn)) =
  String.length (speaker turn) + 3 + String.length (Spec.truncated (text turn)).
Proof.
  unfold Spec.span_of. cbn [snd]. rewrite !length_append.
  change (String.length "[") with 1. change (String.length "] ") with 2. lia.
Qed.

(** The test of the loop body is the qualification of the turn. *)
Lemma evidence_step_spec (query : string) (evidence : list (Z * string))
      (turn : ConversationTurn) :
  CausalAnalyzer.evidence_step (CausalAnalyzer.query_terms query) evidence turn =
  if (Spec.qualifies query turn && (List.length evidence <? 4)%nat)%bool
  then (evidence ++ [Spec.span_of turn])%list
  else evidence.
Proof.
  unfold CausalAnalyzer.evidence_step, CausalAnalyzer.count_in, Spec.qualifies,
    CausalAnalyzer.query_terms, Spec.span_of, list_append.
  cbv zeta. rewrite !count_positive, existsb_nodup, existsb_map, existsb_filter.
  rewrite display_of_truncated. reflexivity.
Qed.

Lemma evidence_fold (query : string) (l : list ConversationTurn)
      (evidence : list (Z * string)) :
  List.length evidence <= 4 ->
  fold_left (CausalAnalyzer.evidence_step (CausalAnalyzer.query_terms query)) l evidence =
  firstn 4 (evidence ++ map Spec.span_of (filter (Spec.qualifies query) l))%list.
Proof.
  revert evidence. induction l as [|turn l IH]; intros evidence Hlen;
    cbn [fold_left filter].
  - cbn [map]. rewrite app_nil_r. symmetry. now apply firstn_all2.
  - rewrite evidence_step_spec.
    destruct (Spec.qualifies query turn); cbn [andb map].
    + destruct (Nat.ltb_spec (List.length evidence) 4) as [H|H].
      * rewrite IH by (rewrite length_app; cbn [List.length]; lia).
        now rewrite <- app_assoc.
      * rewrite IH by exact Hlen.
        rewrite !firstn_app. replace (4 - List.length evidence) with 0 by lia.
        reflexivity.
    + now apply IH.
Qed.

Lemma extract_evidence_flat (terms : list string) (transcripts : list ConversationTranscript)
      (evidence : list (Z * string)) :
  fold_left (fun ev t => fold_left (CausalAnalyzer.evidence_step terms) (turns t) ev)
            transcripts evidence =
  fold_left (CausalAnalyzer.evidence_step terms) (flat_map turns transcripts) evidence.
Proof.
  revert evidence. induction transcripts as [|t ts IH]; intros evidence; simpl.
  - reflexivity.
  - now rewrite fold_left_app, IH.
Qed.

Lemma extract_evidence_spec (query : string) (transcripts : list ConversationTranscript) :
  CausalAnalyzer._extract_evidence query transcripts = Spec.evidence query transcripts.
Proof.
  unfold CausalAnalyzer._extract_evidence, Spec.evidence. cbv zeta.
  rewrite extract_evidence_flat, evidence_fold by (cbn [List.length]; lia). reflexivity.
Qed.

Lemma analyze_evidence (self : CausalAnalyzer.t) (now query : string)
      (transcripts : list ConversationTranscript) (include_history : bool) :
  exists e after,
    CausalAnalyzer.analyze self now query transcripts include_history = Ok (e, after) /\
    evidence_spans e = Spec.evidence query transcripts.
Proof.
  destruct transcripts as [|first rest].
  - do 2 eexists. split; reflexivity.
  - destruct (analyze_cons self now query first rest include_history) as [cause [_ Ha]].
    do 2 eexists. split; [exact Ha|]. apply extract_evidence_spec.
Qed.

(** C4, as the code has it.  [analyze] returns at most four evidence spans:
    the spans of the first four qualifying turns, transcripts in the given
    order and turns in turn order.  A turn qualifies iff its text, in lower
    case, contains a query token of more than three characters, in lower
    case, or a key-indicator word.  The span of a turn is its id with
    "[speaker] text", the text cut to 120 characters plus "..." when it is
    longer: the text part is at most 123 characters long, and the whole
    display text is longer than it by the speaker and three characters. *)
Theorem analyze_evidence_spans (self : CausalAnalyzer.t) (now query : string)
        (transcripts : list ConversationTranscript) (include_history : bool) :
  exists e after,
    CausalAnalyzer.analyze self now query transcripts include_history = Ok (e, after) /\
    evidence_spans e =
      firstn 4 (map Spec.span_of
                    (filter (Spec.qualifies query) (flat_map turns transcripts))) /\
    List.length (evidence_spans e) <= 4 /\
    forall span, In span (evidence_spans e) ->
      exists turn,
        In turn (flat_map turns transcripts) /\
        Spec.qualifies query turn = true /\
        span = (turn_id turn, "[" ++ speaker turn ++ "] " ++ Spec.truncated (text turn)) /\
        String.length (Spec.truncated (text turn)) <= 123 /\
        String.length (snd span) =
          String.length (speaker turn) + 3 + String.length (Spec.truncated (text turn)).
Proof.
  destruct (analyze_evidence self now query transcripts include_history)
    as [e [after [Ha He]]].
  exists e, after. split; [exact Ha|]. split; [exact He|].
  rewrite He. unfold Spec.evidence. split; [apply firstn_le_length|].
  intros span Hin. apply In_firstn in Hin. apply in_map_iff in Hin.
  destruct Hin as [turn [Hspan Hturn]]. apply filter_In in Hturn.
  destruct Hturn as [Hin Hq]. exists turn. subst span.
  repeat split; auto using truncated_length, span_length.
Qed.

(** C4 as stated fails: a qualifying turn of speaker "Agent"
    with a text of more than 120 characters has a display text of 131
    characters, the eight characters of "[Agent] " before the 123 of the cut
    text. *)
Lemma display_text_longer_than_123 :
  exists e after span,
    CausalAnalyzer.analyze CausalAnalyzer.init "2024-01-01T00:00:00"
      "what error code was mentioned" [long_turn_transcript] true = Ok (e, after) /\
    In span (evidence_spans e) /\
    String.length (snd span) = 131 /\
    ~ (String.length (snd span) <= 123).
Proof.
  do 3 eexists. split; [vm_compute; reflexivity|].
  split; [left; reflexivity|]. split; [reflexivity|]. vm_compute. lia.
Qed.

(* ================================================================== *)
(** * The pattern library *)
(* ================================================================== *)

Lemma factor_step_spec (category text_lower : string) (factors : list string)
      (entry : Re.regex * string) :
  PatternAnalyzer.factor_step category text_lower factors entry =
  (factors ++ Spec.factor_of category text_lower entry)%list.
Proof.
  unfold PatternAnalyzer.factor_step, Spec.factor_of, list_append.
  destruct entry as [pattern template]. cbn [fst snd].
  destruct (Re.search pattern text_lower) as [m|]; [|now rewrite app_nil_r].
  destruct (Re.groups m); reflexivity.
Qed.

Lemma factor_loop_spec (category text_lower : string)
      (patterns : list (Re.regex * string)) (factors : list string) :
  fold_left (PatternAnalyzer.factor_step category text_lower) patterns factors =
  (factors ++ flat_map (Spec.factor_of category text_lower) patterns)%list.
Proof.
  revert factors. induction patterns as [|entry patterns IH]; intros factors;
    cbn [fold_left flat_map].
  - now rewrite app_nil_r.
  - now rewrite IH, factor_step_spec, app_assoc.
Qed.

Lemma category_loop_spec (text_lower : string)
      (table : list (string * list (Re.regex * string))) (factors : list string) :
  fold_left
    (fun factors item =>
       let '(category, patterns) := item in
       fold_left (PatternAnalyzer.factor_step category text_lower) patterns factors)
    table factors =
  (factors ++
   flat_map (fun item => flat_map (Spec.factor_of (fst item) text_lower) (snd item)) table)%list.
Proof.
  revert factors. induction table as [|[category patterns] table IH]; intros factors;
    cbn [fold_left flat_map fst snd].
  - now rewrite app_nil_r.
  - now rewrite IH, factor_loop_spec, app_assoc.
Qed.

Lemma factor_of_length (category text_lower : string) (entry : Re.regex * string) :
  List.length (Spec.factor_of category text_lower entry) =
  if matches text_lower (fst entry) then 1 else 0.
Proof.
  unfold Spec.factor_of, matches. destruct (Re.search (fst entry) text_lower); reflexivity.
Qed.

Lemma causal_factors_length (table : list (string * list (Re.regex * string)))
      (text : string) :
  List.length (Spec.causal_factors table text) =
  List.length (filter (matches (PyStr.lower text))
                      (flat_map (fun item => map fst (snd item)) table)).
Proof.
  unfold Spec.causal_factors.
  induction table as [|[category patterns] table IH]; cbn [flat_map fst snd].
  - reflexivity.
  - rewrite length_app, filter_app, length_app, IH. f_equal.
    clear IH. induction patterns as [|entry patterns IHp]; cbn [flat_map map filter].
    + reflexivity.
    + rewrite length_app, factor_of_length, IHp.
      destruct (matches (PyStr.lower text) (fst entry)); reflexivity.
Qed.

(** C6.  For every text and every pattern table written with ASCII category
    names and [{}] fields (the table that [PatternAnalyzer()] loads among
    them), [extract_causal_factors] returns
    the factors of the categories in declaration order and, within a
    category, of the patterns in declaration order: every pattern that
    matches the text in lower case gives one string
    "<Category>: <template filled with the groups of its first match>"
    (the template as it stands when the pattern has no group), every other
    pattern gives none; so the factors are as many as the matching patterns,
    with no factor dropped and no pattern skipped. *)
Theorem extract_causal_factors_spec (self : PatternAnalyzer.t) (text : string) :
  PatternAnalyzer.extract_causal_factors self text =
    flat_map (fun item =>
                flat_map (Spec.factor_of (fst item) (PyStr.lower text)) (snd item))
             (PatternAnalyzer.causal_patterns self) /\
  List.length (PatternAnalyzer.extract_causal_factors self text) =
    List.length (filter (matches (PyStr.lower text))
                        (flat_map (fun item => map fst (snd item))
                                  (PatternAnalyzer.causal_patterns self))).
Proof.
  assert (H : PatternAnalyzer.extract_causal_factors self text =
              Spec.causal_factors (PatternAnalyzer.causal_patterns self) text).
  { unfold PatternAnalyzer.extract_causal_factors. cbv zeta.
    now rewrite category_loop_spec. }
  split; [exact H|]. rewrite H. apply causal_factors_length.
Qed.

(* ------------------------------------------------------------------ *)
(** ** [classify_outcome] *)

Lemma dict_set_absent {V : Type} (d : list (string * V)) (k : string) (v : V) :
  ~ In k (map fst d) -> Dict.set String.eqb d k v = (d ++ [(k, v)])%list.
Proof.
  induction d as [|[k' v'] d IH]; intros Hk; cbn [Dict.set app].
  - reflexivity.
  - destruct (String.eqb_spec k' k) as [E|E].
    + exfalso. apply Hk. left. exact E.
    + rewrite IH; [reflexivity|]. intros H. apply Hk. right. exact H.
Qed.

Lemma dict_set_length {K V : Type} (keq : K -> K -> bool) (d : list (K * V)) (k : K) (v : V) :
  List.length d <= List.length (Dict.set keq d k v) <= S (List.length d).
Proof.
  induction d as [|[k' v'] d IH]; cbn [Dict.set List.length]; [lia|].
  destruct (keq k' k); cbn [List.length]; lia.
Qed.

Lemma dict_set_length_pos {K V : Type} (keq : K -> K -> bool) (d : list (K * V)) (k : K)
      (v : V) :
  1 <= List.length (Dict.set keq d k v).
Proof.
  destruct d as [|[k' v'] d]; cbn [Dict.set List.length]; [lia|].
  destruct (keq k' k); cbn [List.length]; lia.
Qed.

Lemma dict_set_keys {V : Type} (d : list (string * V)) (k : string) (v : V) (x : string) :
  In x (map fst (Dict.set String.eqb d k v)) -> x = k \/ In x (map fst d).
Proof.
  induction d as [|[k' v'] d IH]; cbn [Dict.set map fst In].
  - intros [H|[]]. left. now symmetry.
  - destruct (String.eqb_spec k' k); cbn [map fst In]; intros [H|H]; auto.
    destruct (IH H); auto.
Qed.

(** Assignment keeps the keys of a dictionary distinct. *)
Lemma dict_set_nodup {V : Type} (d : list (string * V)) (k : string) (v : V) :
  NoDup (map fst d) -> NoDup (map fst (Dict.set String.eqb d k v)).
Proof.
  induction d as [|[k' v'] d IH]; intros Hnd; cbn [Dict.set map fst].
  - repeat constructor. intros [].
  - inversion Hnd as [|? ? Hnotin Hnd']; subst.
    destruct (String.eqb_spec k' k) as [E|E]; cbn [map fst]; [exact Hnd|].
    constructor; [|now apply IH].
    intros Hin. apply dict_set_keys in Hin. destruct Hin as [Hin|Hin]; [congruence | auto].
Qed.

(** On a table with distinct category names and no empty pattern list, the
    loop leaves one score per category, in the order of the table. *)
Lemma score_loop_spec (text : string) (items : list (string * list Re.regex))
      (scores : list (string * PyFloat.float)) :
  NoDup (map fst scores ++ map fst items)%list ->
  (forall item, In item items -> snd item <> []) ->
  PatternAnalyzer.score_loop items (PyStr.lower text) scores =
  Ok (scores ++ map (fun item => (fst item, Spec.category_score text item)) items)%list.
Proof.
  revert scores. induction items as [|[name patterns] items IH]; intros scores Hnd Hne;
    cbn [PatternAnalyzer.score_loop map].
  - now rewrite app_nil_r.
  - assert (Hp : patterns <> []) by (apply (Hne (name, patterns)); left; reflexivity).
    destruct patterns as [|p ps]; [congruence|].
    unfold PatternAnalyzer.truediv. cbn [List.length bind].
    rewrite dict_set_absent.
    + rewrite IH.
      * now rewrite <- app_assoc.
      * rewrite map_app. cbn [map fst app]. rewrite <- app_assoc. exact Hnd.
      * intros item Hin. apply Hne. right. exact Hin.
    + cbn [map fst] in Hnd. apply NoDup_remove_2 in Hnd.
      intros Hin. apply Hnd. apply in_or_app. left. exact Hin.
Qed.

Section MaxByScore.
Import PyFloat FloatFacts.


End MaxByScore.





(* ================================================================== *)
(** * Keyword retrieval *)
(* ================================================================== *)

Lemma slice_to_length {A : Type} (l : list A) (k : Z) :
  (0 <= k)%Z -> List.length (slice_to l k) <= Z.to_nat k.
Proof.
  intros H. unfold slice_to. destruct (Z.leb_spec 0 k); [|lia]. apply firstn_le_length.
Qed.

Lemma slice_to_nonempty {A : Type} (l : list A) (k : Z) :
  (1 <= k)%Z -> l <> [] -> slice_to l k <> [].
Proof.
  intros H Hl. unfold slice_to. destruct (Z.leb_spec 0 k); [|lia].
  destruct l as [|a l]; [congruence|].
  destruct (Z.to_nat k) eqn:E; [lia|]. discriminate.
Qed.

Lemma insert_desc_length {A : Type} (key : A -> PyFloat.float) (x : A) (l : list A) :
  List.length (insert_desc key x l) = S (List.length l).
Proof.
  induction l as [|y l IH]; cbn [insert_desc List.length]; [reflexivity|].
  destruct (PyFloat.ltb (key x) (key y)); cbn [List.length]; [now rewrite IH | reflexivity].
Qed.

Lemma sorted_desc_length {A : Type} (key : A -> PyFloat.float) (l : list A) :
  List.length (sorted_desc key l) = List.length l.
Proof.
  induction l as [|x l IH]; cbn [sorted_desc fold_right List.length]; [reflexivity|].
  fold (sorted_desc key l). now rewrite insert_desc_length, IH.
Qed.

Lemma retrieve_keyword_length (self : ConversationRetriever.t) (query : string) (top_k : Z) :
  (1 <= top_k)%Z ->
  List.length (ConversationRetriever._retrieve_keyword self query top_k) <= Z.to_nat top_k /\
  (ConversationRetriever.conversations_by_id self <> [] ->
   ConversationRetriever._retrieve_keyword self query top_k <> []).
Proof.
  intros Hk.
  unfold ConversationRetriever._retrieve_keyword. cbv zeta.
  set (ranked := slice_to _ top_k).
  set (kept := filter _ ranked).
  assert (Hkept : List.length (map fst kept) <= Z.to_nat top_k).
  { rewrite length_map. unfold kept.
    pose proof (filter_length_le (fun p : string * PyFloat.float =>
                                    PyFloat.ltb PyFloat.zero (snd p)) ranked) as H.
    pose proof (slice_to_length
                  (sorted_desc snd
                     (ConversationRetriever.keyword_scores self (PyStr.lower query)))
                  top_k ltac:(lia)) as H0.
    fold ranked in H0. lia. }
  split.
  - destruct (map fst kept) eqn:E; [apply slice_to_length; lia | exact Hkept].
  - intros Hstore. destruct (map fst kept) eqn:E; [|discriminate].
    apply slice_to_nonempty; [exact Hk|].
    unfold Dict.keys. destruct (ConversationRetriever.conversations_by_id self);
      [congruence | discriminate].
Qed.

Section SemanticFacts.
Variable encode : string -> exc ConversationRetriever.embedding.
Variable cos_sim :
  ConversationRetriever.embedding -> ConversationRetriever.embedding -> exc PyFloat.float.

Lemma similarity_loop_length (qe : ConversationRetriever.embedding)
      (items : list (string * ConversationRetriever.embedding))
      (scores scores' : list (string * PyFloat.float)) :
  ConversationRetriever.similarity_loop cos_sim qe items scores = Ok scores' ->
  List.length scores <= List.length scores' /\ (items <> [] -> 1 <= List.length scores').
Proof.
  revert scores. induction items as [|[tid emb] items IH]; intros scores H;
    cbn [ConversationRetriever.similarity_loop] in H.
  - injection H as <-. split; [lia | congruence].
  - destruct (cos_sim qe emb) as [sim|e]; cbn [bind] in H; [|discriminate].
    apply IH in H. destruct H as [H _].
    pose proof (dict_set_length String.eqb scores tid sim) as H1.
    pose proof (dict_set_length_pos String.eqb scores tid sim) as H2.
    split; intros; lia.
Qed.

Lemma retrieve_semantic_length (self : ConversationRetriever.t) (query : string) (top_k : Z) :
  (1 <= top_k)%Z ->
  ConversationRetriever.embeddings self <> [] ->
  List.length (ConversationRetriever._retrieve_semantic encode cos_sim self query top_k)
    <= Z.to_nat top_k /\
  (ConversationRetriever.conversations_by_id self <> [] ->
   ConversationRetriever._retrieve_semantic encode cos_sim self query top_k <> []).
Proof.
  intros Hk Hemb. unfold ConversationRetriever._retrieve_semantic.
  destruct (encode query) as [qe|e]; cbn [bind try_except];
    [|now apply retrieve_keyword_length].
  destruct (ConversationRetriever.similarity_loop cos_sim qe _ []) as [scores|e] eqn:E;
    cbn [bind try_except]; [|now apply retrieve_keyword_length].
  apply similarity_loop_length in E. destruct E as [_ E]. specialize (E Hemb).
  split.
  - rewrite length_map. apply slice_to_length. lia.
  - intros _ Hnil. apply map_eq_nil in Hnil. revert Hnil.
    apply slice_to_nonempty; [exact Hk|].
    intros Hs. apply (f_equal (@List.length _)) in Hs.
    rewrite sorted_desc_length in Hs. cbn [List.length] in Hs. lia.
Qed.

Lemma retrieve_length (self : ConversationRetriever.t) (query : string) (top_k : Z) :
  (1 <= top_k)%Z ->
  List.length (ConversationRetriever.retrieve encode cos_sim self query top_k)
    <= Z.to_nat top_k /\
  (ConversationRetriever.conversations_by_id self <> [] ->
   ConversationRetriever.retrieve encode cos_sim self query top_k <> []).
Proof.
  intros Hk. unfold ConversationRetriever.retrieve.
  destruct (ConversationRetriever.has_embeddings self);
    [|now apply retrieve_keyword_length].
  destruct (ConversationRetriever.embeddings self) as [|e es] eqn:E;
    [now apply retrieve_keyword_length|].
  apply retrieve_semantic_length; [exact Hk | rewrite E; discriminate].
Qed.

End SemanticFacts.

(** C2, as the code has it.  For every query (its token set empty or not)
    and every [top_k] of at least 1, [retrieve] returns at most [top_k] ids,
    and at least one id when the store is not empty, whatever the embedding
    backend does; and in keyword retrieval, when no transcript among the
    [top_k] best has a score above 0, the result is the first [top_k] ids of
    the store in iteration order. *)
Theorem retrieve_bounds (encode : string -> exc ConversationRetriever.embedding)
        (cos_sim : ConversationRetriever.embedding -> ConversationRetriever.embedding ->
                   exc PyFloat.float)
        (self : ConversationRetriever.t) (query : string) (top_k : Z) :
  (1 <= top_k)%Z ->
  List.length (ConversationRetriever.retrieve encode cos_sim self query top_k)
    <= Z.to_nat top_k /\
  (ConversationRetriever.conversations_by_id self <> [] ->
   ConversationRetriever.retrieve encode cos_sim self query top_k <> []) /\
  (filter (fun p => PyFloat.ltb PyFloat.zero (snd p))
          (slice_to (sorted_desc snd
                       (ConversationRetriever.keyword_scores self (PyStr.lower query)))
                    top_k) = [] ->
   ConversationRetriever._retrieve_keyword self query top_k =
   firstn (Z.to_nat top_k)
          (Dict.keys (ConversationRetriever.conversations_by_id self))).
Proof.
  intros Hk. destruct (retrieve_length encode cos_sim self query top_k Hk) as [H1 H2].
  split; [exact H1|]. split; [exact H2|].
  intros Hnone. unfold ConversationRetriever._retrieve_keyword. cbv zeta.
  rewrite Hnone. cbn [map]. unfold slice_to.
  destruct (Z.leb_spec 0 top_k); [reflexivity | lia].
Qed.

Lemma retrieve_bounds_witness :
  (1 <= 1)%Z /\
  List.length (ConversationRetriever.retrieve no_encode no_cos_sim sample_store
                 "what was the fraud amount" 1) <= Z.to_nat 1 /\
  ConversationRetriever.retrieve no_encode no_cos_sim sample_store
    "what was the fraud amount" 1 <> [].
Proof.
  assert (Hk : (1 <= 1)%Z) by lia.
  destruct (retrieve_bounds no_encode no_cos_sim sample_store
              "what was the fraud amount" 1 Hk) as [H1 [H2 _]].
  split; [exact Hk|]. split; [exact H1|]. apply H2. discriminate.
Defined.

(** C2 as stated fails at [top_k = 0]: the query has a token, the store
    holds two transcripts, and nothing is returned.  At [top_k = -1] one id
    is returned, which is more than [top_k]. *)
Lemma retrieve_top_k_zero_returns_nothing :
  filter (fun w => (2 <? PyStr.len w)%nat) (PyStr.split (PyStr.lower "fraud")) <> [] /\
  ConversationRetriever.retrieve no_encode no_cos_sim sample_store "fraud" 0 = [] /\
  ~ (ConversationRetriever.conversations_by_id sample_store <> [] ->
     ConversationRetriever.retrieve no_encode no_cos_sim sample_store "fraud" 0 <> []) /\
  ConversationRetriever.retrieve no_encode no_cos_sim sample_store "fraud" (-1) = ["FR-002"] /\
  ~ (Z.of_nat (List.length (ConversationRetriever.retrieve no_encode no_cos_sim
                              sample_store "fraud" (-1))) <= -1)%Z.
Proof.
  split; [discriminate|]. split; [vm_compute; reflexivity|].
  split; [intros H; apply H; [discriminate | vm_compute; reflexivity]|].
  split; [vm_compute; reflexivity|]. vm_compute. intros H. apply H. reflexivity.
Qed.

(* ------------------------------------------------------------------ *)
(** ** The sort *)

Section SortFacts.
Import PyFloat FloatFacts.
Context {A : Type}.
Variable key : A -> float.

Lemma ltb_asym (a b : float) : ltb a b = true -> ltb b a = false.
Proof.
  intros H. destruct (ltb b a) eqn:E; [|reflexivity].
  rewrite <- (ltb_irrefl a). symmetry. exact (ltb_trans _ _ _ H E).
Qed.

(** On numbers that are no NaN, [x < z] puts any [y] above [x] or below
    [z]. *)
Lemma ltb_neg_trans (x y z : float) :
  nonneg x = true -> nonneg y = true -> nonneg z = true ->
  ltb x y = false -> ltb y z = false -> ltb x z = false.
Proof.
  unfold ltb, SFltb.
  float_cases x; simpl; try discriminate; float_cases y; simpl; try discriminate;
    float_cases z; simpl; try discriminate; try reflexivity;
    intros _ _ _; rewrite ?compare_finite_pos; intros; cmp_cases.
Qed.

Lemma insert_desc_perm (x : A) (l : list A) : Permutation (insert_desc key x l) (x :: l).
Proof.
  induction l as [|y l IH]; cbn [insert_desc]; [reflexivity|].
  destruct (ltb (key x) (key y)); [|reflexivity].
  rewrite IH. apply perm_swap.
Qed.

(** The sort only reorders. *)
Lemma sorted_desc_perm (l : list A) : Permutation (sorted_desc key l) l.
Proof.
  induction l as [|x l IH]; cbn [sorted_desc fold_right]; [reflexivity|].
  fold (sorted_desc key l). rewrite insert_desc_perm. now constructor.
Qed.

Lemma insert_desc_descending (x : A) (l : list A) :
  nonneg (key x) = true ->
  Forall (fun y => nonneg (key y) = true) l ->
  descending key l -> descending key (insert_desc key x l).
Proof.
  intros Hx Hl Hs. induction Hs as [|y l Hs IH Hy]; cbn [insert_desc].
  - repeat constructor.
  - inversion Hl as [|? ? Hny Hl']; subst.
    destruct (ltb (key x) (key y)) eqn:E.
    + constructor; [now apply IH|].
      rewrite (Forall_forall _ _). intros z Hz.
      apply (Permutation_in _ (insert_desc_perm x l)) in Hz. destruct Hz as [<-|Hz].
      * now apply ltb_asym.
      * rewrite Forall_forall in Hy. now apply Hy.
    + constructor; [now constructor|].
      constructor; [exact E|].
      rewrite Forall_forall in *. intros z Hz.
      apply (ltb_neg_trans _ (key y)); auto.
Qed.

(** On scores that are no NaN the sort gives a descending list. *)
Lemma sorted_desc_descending (l : list A) :
  Forall (fun y => nonneg (key y) = true) l -> descending key (sorted_desc key l).
Proof.
  induction l as [|x l IH]; intros Hl; cbn [sorted_desc fold_right]; [constructor|].
  fold (sorted_desc key l). inversion Hl as [|? ? Hx Hl']; subst.
  apply insert_desc_descending; auto.
  rewrite Forall_forall in *. intros y Hy. apply Hl'.
  now apply (Permutation_in _ (sorted_desc_perm l)).
Qed.

End SortFacts.

(* ------------------------------------------------------------------ *)
(** ** The order of the ranking *)

Section Ranking.
Import PyFloat FloatFacts.

Lemma eqb_sym (a b : float) : eqb a b = eqb b a.
Proof.
  unfold eqb, SFeqb. rewrite (compare_antisym a b).
  destruct (SFcompare a b) as [[| |]|]; reflexivity.
Qed.

(** Equal scores are on the same side of 0. *)
Lemma eqb_same_sign (a s : float) : eqb a s = true -> ltb zero a = ltb zero s.
Proof.
  intros H. destruct (ltb zero s) eqn:Es.
  - exact (ltb_eqb_r _ _ _ Es H).
  - destruct (ltb zero a) eqn:Ea; [|reflexivity].
    rewrite eqb_sym in H. rewrite (ltb_eqb_r _ _ _ Ea H) in Es. discriminate.
Qed.

Context {A : Type}.
Variable key : A -> float.
Variable s : float.

Lemma filter_insert_desc (x : A) (l : list A) :
  filter (same_score key s) (insert_desc key x l) = filter (same_score key s) (x :: l).
Proof.
  induction l as [|y l IH]; cbn [insert_desc].
  - reflexivity.
  - destruct (ltb (key x) (key y)) eqn:Hlt; [|reflexivity].
    cbn [filter] in *. rewrite IH.
    destruct (same_score key s x) eqn:Hx; [|reflexivity].
    destruct (same_score key s y) eqn:Hy; [|reflexivity].
    unfold same_score in Hx, Hy. rewrite (eqb_eqb_not_ltb _ _ _ Hx Hy) in Hlt. discriminate.
Qed.

(** The transcripts of one score keep their order in the sort. *)
Lemma filter_sorted_desc (l : list A) :
  filter (same_score key s) (sorted_desc key l) = filter (same_score key s) l.
Proof.
  induction l as [|x l IH]; cbn [sorted_desc fold_right].
  - reflexivity.
  - fold (sorted_desc key l). rewrite filter_insert_desc. cbn [filter]. now rewrite IH.
Qed.

Lemma filter_positive (l : list A) :
  filter (same_score key s) (filter (fun x => ltb zero (key x)) l) =
  if ltb zero s then filter (same_score key s) l else [].
Proof.
  induction l as [|x l IH]; cbn [filter].
  - now destruct (ltb zero s).
  - destruct (same_score key s x) eqn:Hx.
    + rewrite (eqb_same_sign (key x) s Hx).
      destruct (ltb zero s) eqn:Es.
      * cbn [filter]. now rewrite Hx, IH.
      * exact IH.
    + destruct (ltb zero (key x)); [cbn [filter]; rewrite Hx|]; exact IH.
Qed.

End Ranking.

Lemma filter_firstn_prefix {A : Type} (P : A -> bool) (n : nat) (l : list A) :
  exists rest, filter P l = (filter P (firstn n l) ++ rest)%list.
Proof.
  exists (filter P (skipn n l)). rewrite <- filter_app. now rewrite firstn_skipn.
Qed.

Lemma filter_slice_prefix {A : Type} (P : A -> bool) (k : Z) (l : list A) :
  exists rest, filter P l = (filter P (slice_to l k) ++ rest)%list.
Proof. unfold slice_to. destruct (0 <=? k)%Z; apply filter_firstn_prefix. Qed.

Lemma fold_set_fresh {V W : Type} (g : V -> W) (items : list (string * V))
      (acc : list (string * W)) :
  NoDup (map fst acc ++ map fst items)%list ->
  fold_left (fun scores item => let '(k, v) := item in Dict.set String.eqb scores k (g v))
            items acc =
  (acc ++ map (fun item => (fst item, g (snd item))) items)%list.
Proof.
  revert acc. induction items as [|[k v] items IH]; intros acc Hnd; cbn [fold_left map].
  - now rewrite app_nil_r.
  - rewrite dict_set_absent.
    + rewrite IH; [now rewrite <- app_assoc|].
      rewrite map_app. cbn [map fst app]. rewrite <- app_assoc. exact Hnd.
    + cbn [map fst] in Hnd. apply NoDup_remove_2 in Hnd.
      intros Hin. apply Hnd. apply in_or_app. left. exact Hin.
Qed.

Lemma keyword_scores_spec (self : ConversationRetriever.t) (query_lower : string) :
  NoDup (Dict.keys (ConversationRetriever.conversations_by_id self)) ->
  ConversationRetriever.keyword_scores self query_lower =
  map (fun item => (fst item, ConversationRetriever.keyword_score query_lower (snd item)))
      (ConversationRetriever.conversations_by_id self).
Proof.
  intros Hnd. unfold ConversationRetriever.keyword_scores.
  rewrite (fold_set_fresh (ConversationRetriever.keyword_score query_lower)); auto.
Qed.

Lemma dict_get_in {V : Type} (d : list (string * V)) (k : string) (v : V) :
  NoDup (map fst d) -> In (k, v) d -> Dict.get String.eqb d k = Some v.
Proof.
  induction d as [|[k' v'] d IH]; intros Hnd Hin; [destruct Hin|].
  cbn [Dict.get]. cbn [map fst] in Hnd. inversion Hnd as [|? ? Hnotin Hnd']; subst.
  destruct Hin as [E|Hin].
  - injection E as -> ->. now rewrite String.eqb_refl.
  - destruct (String.eqb_spec k' k) as [->|_]; [|now apply IH].
    exfalso. apply Hnotin. change k with (fst (k, v)). now apply in_map.
Qed.

Lemma filter_map_fst {W : Type} (P : string -> bool) (Q : string * W -> bool)
      (l : list (string * W)) :
  (forall item, In item l -> Q item = P (fst item)) ->
  filter P (map fst l) = map fst (filter Q l).
Proof.
  induction l as [|x l IH]; intros H; cbn [map filter]; [reflexivity|].
  rewrite (H x) by (left; reflexivity).
  destruct (P (fst x)); cbn [map]; rewrite IH; auto; intros; apply H; now right.
Qed.

Lemma descending_firstn {A : Type} (key : A -> PyFloat.float) (n : nat) (l : list A) :
  descending key l -> descending key (firstn n l).
Proof.
  unfold descending. intros H. revert n.
  induction H as [|x l Hs IH Hx]; intros [|n]; cbn [firstn]; try constructor.
  - apply IH.
  - rewrite Forall_forall in *. intros y Hy. apply Hx. now apply In_firstn in Hy.
Qed.

Lemma descending_filter {A : Type} (key : A -> PyFloat.float) (P : A -> bool) (l : list A) :
  descending key l -> descending key (filter P l).
Proof.
  unfold descending. intros H.
  induction H as [|x l Hs IH Hx]; cbn [filter]; [constructor|].
  destruct (P x); [|exact IH]. constructor; [exact IH|].
  rewrite Forall_forall in *. intros y Hy. apply Hx. apply filter_In in Hy. apply Hy.
Qed.

Lemma descending_slice {A : Type} (key : A -> PyFloat.float) (k : Z) (l : list A) :
  descending key l -> descending key (slice_to l k).
Proof. unfold slice_to. destruct (0 <=? k)%Z; apply descending_firstn. Qed.

(** The score of a transcript is no NaN: a query has fewer than [2^53]
    words. *)
Lemma keyword_score_nonneg (query_lower : string) (transcript : ConversationTranscript) :
  (Z.of_nat (List.length (filter (fun w => (2 <? PyStr.len w)%nat)
                                 (PyStr.split query_lower))) < 2 ^ 53)%Z ->
  PyFloat.nonneg (ConversationRetriever.keyword_score query_lower transcript) = true.
Proof.
  intros Hwords. unfold ConversationRetriever.keyword_score. cbv zeta.
  set (words := filter _ (PyStr.split query_lower)) in *.
  set (base := match words with [] => PyFloat.zero | _ :: _ => _ end).
  assert (Hbase : PyFloat.nonneg base = true).
  { unfold base. destruct words as [|w ws] eqn:E; [reflexivity|].
    destruct (FloatFacts.of_nat_finite (List.length (w :: ws))) as [m [e Hm]];
      [cbn [List.length]; lia | exact Hwords |].
    rewrite Hm.
    change ConversationRetriever.c100 with (S754_finite false 7036874417766400 (-46)).
    apply FloatFacts.mul_finite_nonneg, FloatFacts.div_finite_nonneg,
      FloatFacts.of_nat_nonneg. }
  clearbody base.
  repeat match goal with
         | |- context [if ?c then PyFloat.add ?x ?y else ?x] =>
             let H := fresh "H" in
             assert (H : PyFloat.nonneg (if c then PyFloat.add x y else x) = true)
               by (destruct c; [apply FloatFacts.add_nonneg; [assumption | reflexivity]
                               | assumption]);
             generalize dependent (if c then PyFloat.add x y else x); intros
         end.
  assumption.
Qed.

(** The ranking of keyword retrieval is descending: no returned transcript
    has a strictly lower score than a later one. *)
Lemma keyword_ranking_descending (self : ConversationRetriever.t) (query : string)
      (top_k : Z) :
  NoDup (Dict.keys (ConversationRetriever.conversations_by_id self)) ->
  (Z.of_nat (List.length (filter (fun w => (2 <? PyStr.len w)%nat)
                                 (PyStr.split (PyStr.lower query)))) < 2 ^ 53)%Z ->
  descending snd
    (filter (fun p => PyFloat.ltb PyFloat.zero (snd p))
            (slice_to (sorted_desc snd
                         (ConversationRetriever.keyword_scores self (PyStr.lower query)))
                      top_k)).
Proof.
  intros Hnd Hwords. apply descending_filter, descending_slice, sorted_desc_descending.
  rewrite (keyword_scores_spec self (PyStr.lower query) Hnd).
  rewrite Forall_forall. intros item Hin. apply in_map_iff in Hin.
  destruct Hin as [[tid t] [<- _]]. cbn [snd]. now apply keyword_score_nonneg.
Qed.

Lemma In_insert_desc {A : Type} (key : A -> PyFloat.float) (x y : A) (l : list A) :
  In x (insert_desc key y l) -> x = y \/ In x l.
Proof.
  induction l as [|z l IH]; cbn [insert_desc].
  - intros [H|[]]. left. now symmetry.
  - destruct (PyFloat.ltb (key y) (key z)).
    + intros [H|H]; [right; left; exact H|].
      destruct (IH H) as [E|Hin]; [left; exact E | right; right; exact Hin].
    + intros [H|H]; [left; now symmetry | right; exact H].
Qed.

Lemma In_sorted_desc {A : Type} (key : A -> PyFloat.float) (x : A) (l : list A) :
  In x (sorted_desc key l) -> In x l.
Proof.
  induction l as [|y l IH]; cbn [sorted_desc fold_right]; [auto|].
  fold (sorted_desc key l). intros H. apply In_insert_desc in H.
  destruct H as [->|H]; [left; reflexivity | right; now apply IH].
Qed.

Lemma In_slice_to {A : Type} (x : A) (l : list A) (k : Z) :
  In x (slice_to l k) -> In x l.
Proof. unfold slice_to. destruct (0 <=? k)%Z; apply In_firstn. Qed.

(** The returned ids of one score are the first ids of that score in the
    store. *)
Lemma retrieve_keyword_prefix (self : ConversationRetriever.t) (query : string)
        (top_k : Z) (s : PyFloat.float) :
  NoDup (Dict.keys (ConversationRetriever.conversations_by_id self)) ->
  exists rest,
    filter (fun tid => PyFloat.eqb (score_of self query tid) s)
           (Dict.keys (ConversationRetriever.conversations_by_id self)) =
    (filter (fun tid => PyFloat.eqb (score_of self query tid) s)
            (ConversationRetriever._retrieve_keyword self query top_k) ++ rest)%list.
Proof.
  intros Hnd.
  set (P := fun tid => PyFloat.eqb (score_of self query tid) s).
  unfold ConversationRetriever._retrieve_keyword. cbv zeta.
  rewrite (keyword_scores_spec self (PyStr.lower query) Hnd).
  set (g := fun item : string * ConversationTranscript =>
              (fst item, ConversationRetriever.keyword_score (PyStr.lower query) (snd item))).
  set (scores := map g (ConversationRetriever.conversations_by_id self)).
  set (ranked := slice_to (sorted_desc snd scores) top_k).
  set (kept := filter (fun p : string * PyFloat.float => PyFloat.ltb PyFloat.zero (snd p)) ranked).
  assert (Hscore : forall item, In item scores -> same_score snd s item = P (fst item)).
  { intros item Hin. apply in_map_iff in Hin. destruct Hin as [[tid t] [<- Hin]].
    unfold same_score, P, score_of, ConversationRetriever.get_transcript, g. cbn [fst snd].
    now rewrite (dict_get_in _ tid t Hnd Hin). }
  assert (Hranked : forall item, In item ranked -> In item scores).
  { intros item Hin. apply In_slice_to in Hin. now apply In_sorted_desc in Hin. }
  assert (Hkeys : map fst scores = Dict.keys (ConversationRetriever.conversations_by_id self)).
  { unfold scores, Dict.keys. rewrite map_map. reflexivity. }
  destruct (map fst kept) as [|tid0 tids] eqn:Ekept.
  - apply filter_slice_prefix.
  - rewrite <- Ekept. clear Ekept.
    rewrite (filter_map_fst P (same_score snd s)).
    + unfold kept. rewrite (filter_positive snd s ranked).
      destruct (PyFloat.ltb PyFloat.zero s).
      * destruct (filter_slice_prefix (same_score snd s) top_k (sorted_desc snd scores))
          as [rest Hrest].
        fold ranked in Hrest. rewrite filter_sorted_desc in Hrest.
        exists (map fst rest). rewrite <- map_app, <- Hrest, <- Hkeys.
        apply filter_map_fst. exact Hscore.
      * eexists. reflexivity.
    + intros item Hin. apply Hscore, Hranked. unfold kept in Hin.
      apply filter_In in Hin. apply Hin.
Qed.

Lemma filter_eq_app_cons {A : Type} (P : A -> bool) (l u v : list A) (a : A) :
  filter P l = (u ++ a :: v)%list ->
  exists l1 l2, l = (l1 ++ a :: l2)%list /\ filter P l1 = u /\ filter P l2 = v.
Proof.
  revert u. induction l as [|x l IH]; intros u H; cbn [filter] in H.
  - destruct u; discriminate.
  - destruct (P x) eqn:Hx.
    + destruct u as [|y u]; cbn [app] in H.
      * injection H as -> Hv. exists [], l. repeat split; auto.
      * injection H as -> Hu. destruct (IH u Hu) as [l1 [l2 [-> [H1 H2]]]].
        exists (y :: l1), l2. cbn [filter app]. rewrite Hx, H1. auto.
    + destruct (IH u H) as [l1 [l2 [-> [H1 H2]]]].
      exists (x :: l1), l2. cbn [filter app]. rewrite Hx. auto.
Qed.

(** Two returned ids of equal score stand in the result as they stand in the
    store. *)
Lemma retrieve_keyword_pairwise (self : ConversationRetriever.t) (query : string)
      (top_k : Z) (s : PyFloat.float) (a b : string) (l1 l2 l3 : list string) :
  NoDup (Dict.keys (ConversationRetriever.conversations_by_id self)) ->
  ConversationRetriever._retrieve_keyword self query top_k = (l1 ++ a :: l2 ++ b :: l3)%list ->
  PyFloat.eqb (score_of self query a) s = true ->
  PyFloat.eqb (score_of self query b) s = true ->
  exists k1 k2 k3,
    Dict.keys (ConversationRetriever.conversations_by_id self) =
    (k1 ++ a :: k2 ++ b :: k3)%list.
Proof.
  intros Hnd Hres Ha Hb.
  destruct (retrieve_keyword_prefix self query top_k s Hnd) as [rest Hrest].
  rewrite Hres in Hrest. rewrite filter_app in Hrest. cbn [filter] in Hrest.
  rewrite Ha, filter_app in Hrest. cbn [filter] in Hrest. rewrite Hb in Hrest.
  rewrite <- app_assoc in Hrest. cbn [app] in Hrest.
  apply filter_eq_app_cons in Hrest. destruct Hrest as [k1 [m [Hk [_ Hm]]]].
  rewrite <- app_assoc in Hm. cbn [app] in Hm.
  apply filter_eq_app_cons in Hm. destruct Hm as [k2 [k3 [-> _]]].
  exists k1, k2, k3. exact Hk.
Qed.

(** Sorting commutes with a map that keeps the keys, and so do slices. *)
Lemma map_slice_to {A B : Type} (f : A -> B) (l : list A) (k : Z) :
  map f (slice_to l k) = slice_to (map f l) k.
Proof.
  unfold slice_to. rewrite length_map. destruct (0 <=? k)%Z; symmetry; apply firstn_map.
Qed.

Section SortMap.
Context {A B : Type}.
Variable key : A -> PyFloat.float.
Variable key' : B -> PyFloat.float.
Variable f : A -> B.

Lemma insert_desc_map (x : A) (l : list A) :
  key x = key' (f x) -> (forall y, In y l -> key y = key' (f y)) ->
  map f (insert_desc key x l) = insert_desc key' (f x) (map f l).
Proof.
  intros Hx. induction l as [|y l IH]; intros Hl; cbn [insert_desc map]; [reflexivity|].
  rewrite <- Hx, <- (Hl y (or_introl eq_refl)).
  destruct (PyFloat.ltb (key x) (key y)); cbn [map]; [|reflexivity].
  rewrite IH; [reflexivity|]. intros z Hz. apply Hl. now right.
Qed.

Lemma sorted_desc_map (l : list A) :
  (forall y, In y l -> key y = key' (f y)) ->
  map f (sorted_desc key l) = sorted_desc key' (map f l).
Proof.
  induction l as [|x l IH]; intros Hl; [reflexivity|].
  cbn [sorted_desc fold_right map]. fold (sorted_desc key l). fold (sorted_desc key' (map f l)).
  rewrite <- IH by (intros y Hy; apply Hl; now right).
  apply insert_desc_map; [apply Hl; now left|].
  intros y Hy. apply Hl. right. now apply In_sorted_desc in Hy.
Qed.

End SortMap.

Lemma descending_map {A B : Type} (key : A -> PyFloat.float) (key' : B -> PyFloat.float)
      (f : A -> B) (l : list A) :
  (forall x, In x l -> key x = key' (f x)) ->
  descending key l -> descending key' (map f l).
Proof.
  unfold descending. intros Hk H. induction H as [|x l Hl IH Hx]; cbn [map]; [constructor|].
  constructor.
  - apply IH. intros y Hy. apply Hk. now right.
  - rewrite Forall_forall in *. intros y Hy. apply in_map_iff in Hy.
    destruct Hy as (z & <- & Hz).
    rewrite <- (Hk x (or_introl eq_refl)), <- (Hk z (or_intror Hz)). now apply Hx.
Qed.

Lemma keyword_scores_score_of (self : ConversationRetriever.t) (query : string)
      (p : string * PyFloat.float) :
  NoDup (Dict.keys (ConversationRetriever.conversations_by_id self)) ->
  In p (ConversationRetriever.keyword_scores self (PyStr.lower query)) ->
  snd p = score_of self query (fst p).
Proof.
  intros Hnd Hin. rewrite (keyword_scores_spec self _ Hnd) in Hin.
  apply in_map_iff in Hin. destruct Hin as ([tid t] & <- & Hin). cbn [fst snd].
  unfold score_of, ConversationRetriever.get_transcript.
  now rewrite (dict_get_in _ tid t Hnd Hin).
Qed.

Lemma retrieve_keyword_equation (self : ConversationRetriever.t) (query : string)
      (top_k : Z) :
  NoDup (Dict.keys (ConversationRetriever.conversations_by_id self)) ->
  ConversationRetriever._retrieve_keyword self query top_k =
  match filter (fun tid => PyFloat.ltb PyFloat.zero (score_of self query tid))
               (slice_to (sorted_desc (score_of self query)
                                      (Dict.keys (ConversationRetriever.conversations_by_id self)))
                         top_k) with
  | [] => slice_to (Dict.keys (ConversationRetriever.conversations_by_id self)) top_k
  | tid :: tids => tid :: tids
  end.
Proof.
  intros Hnd. unfold ConversationRetriever._retrieve_keyword. cbv zeta.
  set (scores := ConversationRetriever.keyword_scores self (PyStr.lower query)).
  assert (Hkey : forall p, In p scores -> snd p = score_of self query (fst p))
    by (intros p Hp; now apply keyword_scores_score_of).
  assert (Hkeys : map fst scores = Dict.keys (ConversationRetriever.conversations_by_id self)).
  { unfold scores. rewrite (keyword_scores_spec self _ Hnd). unfold Dict.keys.
    rewrite map_map. reflexivity. }
  assert (E : map fst (filter (fun p : string * PyFloat.float =>
                                 PyFloat.ltb PyFloat.zero (snd p))
                              (slice_to (sorted_desc snd scores) top_k)) =
              filter (fun tid => PyFloat.ltb PyFloat.zero (score_of self query tid))
                     (slice_to (sorted_desc (score_of self query)
                                  (Dict.keys (ConversationRetriever.conversations_by_id self)))
                               top_k)).
  { rewrite <- Hkeys, <- (sorted_desc_map snd (score_of self query) fst scores Hkey),
      <- map_slice_to.
    symmetry. apply filter_map_fst. intros item Hin.
    apply In_slice_to, In_sorted_desc in Hin. now rewrite (Hkey item Hin). }
  rewrite E. clear E. destruct (filter _ _); reflexivity.
Qed.

Lemma score_of_nonneg (self : ConversationRetriever.t) (query tid : string) :
  (Z.of_nat (List.length (filter (fun w => (2 <? PyStr.len w)%nat)
                                 (PyStr.split (PyStr.lower query)))) < 2 ^ 53)%Z ->
  PyFloat.nonneg (score_of self query tid) = true.
Proof.
  intros Hw. unfold score_of.
  destruct (ConversationRetriever.get_transcript self tid); [|reflexivity].
  now apply keyword_score_nonneg.
Qed.

(** C10.  In keyword retrieval, for every store with distinct ids, every
    query and every [top_k], the result is read off one ranking of the ids
    of the store: the stable descending sort by score.  The ranking
    reorders the ids of the store; the ids of one score keep in it the
    insertion order of the store; no id in it has a lower score than a
    later one; and the result is the ids of positive score among the first
    [top_k] of the ranking, or, when there is none, the first [top_k] ids
    of the store.  So a result that is not the fallback is itself in
    descending order of score, and the returned ids whose score equals [s]
    are an initial part of the ids of the store whose score equals [s], in
    insertion order: the result is determined by the scores and the load
    order. *)
Theorem retrieve_keyword_stable (self : ConversationRetriever.t) (query : string)
        (top_k : Z) :
  NoDup (Dict.keys (ConversationRetriever.conversations_by_id self)) ->
  exists ranking,
    Permutation ranking (Dict.keys (ConversationRetriever.conversations_by_id self)) /\
    (forall s,
        filter (fun tid => PyFloat.eqb (score_of self query tid) s) ranking =
        filter (fun tid => PyFloat.eqb (score_of self query tid) s)
               (Dict.keys (ConversationRetriever.conversations_by_id self))) /\
    ((Z.of_nat (List.length (filter (fun w => (2 <? PyStr.len w)%nat)
                                    (PyStr.split (PyStr.lower query)))) < 2 ^ 53)%Z ->
     descending (score_of self query) ranking) /\
    ConversationRetriever._retrieve_keyword self query top_k =
      match filter (fun tid => PyFloat.ltb PyFloat.zero (score_of self query tid))
                   (slice_to ranking top_k) with
      | [] => slice_to (Dict.keys (ConversationRetriever.conversations_by_id self)) top_k
      | tid :: tids => tid :: tids
      end /\
    ((Z.of_nat (List.length (filter (fun w => (2 <? PyStr.len w)%nat)
                                    (PyStr.split (PyStr.lower query)))) < 2 ^ 53)%Z ->
     filter (fun tid => PyFloat.ltb PyFloat.zero (score_of self query tid))
            (slice_to ranking top_k) <> [] ->
     descending (score_of self query)
                (ConversationRetriever._retrieve_keyword self query top_k)) /\
    (forall s, exists rest,
        filter (fun tid => PyFloat.eqb (score_of self query tid) s)
               (Dict.keys (ConversationRetriever.conversations_by_id self)) =
        (filter (fun tid => PyFloat.eqb (score_of self query tid) s)
                (ConversationRetriever._retrieve_keyword self query top_k) ++ rest)%list).
Proof.
  intros Hnd.
  exists (sorted_desc (score_of self query)
                      (Dict.keys (ConversationRetriever.conversations_by_id self))).
  assert (Hd : (Z.of_nat (List.length (filter (fun w => (2 <? PyStr.len w)%nat)
                                              (PyStr.split (PyStr.lower query)))) < 2 ^ 53)%Z ->
               descending (score_of self query)
                 (sorted_desc (score_of self query)
                    (Dict.keys (ConversationRetriever.conversations_by_id self)))).
  { intros Hw. apply sorted_desc_descending. rewrite Forall_forall.
    intros tid _. now apply score_of_nonneg. }
  split; [apply sorted_desc_perm|].
  split; [intros s; apply (filter_sorted_desc (score_of self query) s)|].
  split; [exact Hd|].
  split; [now apply retrieve_keyword_equation|].
  split.
  - intros Hw Hne. rewrite (retrieve_keyword_equation self query top_k Hnd).
    destruct (filter _ (slice_to _ top_k)) as [|tid tids] eqn:E; [now contradiction Hne|].
    rewrite <- E. apply descending_filter, descending_slice, Hd, Hw.
  - intros s. now apply retrieve_keyword_prefix.
Qed.

Lemma retrieve_keyword_stable_witness :
  NoDup (Dict.keys (ConversationRetriever.conversations_by_id twin_store)) /\
  exists ranking,
    Permutation ranking ["T-2"; "T-1"; "T-0"] /\
    filter (fun tid => PyFloat.eqb (score_of twin_store "fraud" tid)
                                   (score_of twin_store "fraud" "T-2")) ranking =
      ["T-2"; "T-1"] /\
    descending (score_of twin_store "fraud") ranking /\
    ConversationRetriever._retrieve_keyword twin_store "fraud" 3 =
      match filter (fun tid => PyFloat.ltb PyFloat.zero (score_of twin_store "fraud" tid))
                   (slice_to ranking 3) with
      | [] => ["T-2"; "T-1"; "T-0"]
      | tid :: tids => tid :: tids
      end.
Proof.
  assert (H : NoDup (Dict.keys (ConversationRetriever.conversations_by_id twin_store)))
    by (repeat constructor; simpl; intuition discriminate).
  split; [exact H|].
  destruct (retrieve_keyword_stable twin_store "fraud" 3 H)
    as (ranking & Hp & Hs & Hd & He & _).
  exists ranking. split; [exact Hp|]. split; [rewrite Hs; vm_compute; reflexivity|].
  split; [apply Hd; vm_compute; reflexivity | exact He].
Defined.

(* ================================================================== *)
(** * The loader *)
(* ================================================================== *)

Section LoaderFacts.
Import Loader.

(** What the [try] body does depends on the store only through the
    assignment. *)
Lemma load_body_spec (self : t) (idx : nat) (conv_data : pyval) :
  load_body self idx conv_data =
  match _parse_conversation conv_data idx with
  | Ok transcript =>
      if hashable (transcript_id transcript)
      then Ok {| conversations_by_id :=
                   Dict.set key_eqb (conversations_by_id self)
                            (transcript_id transcript) transcript |}
      else Raise TypeError
  | Raise e => Raise e
  end.
Proof.
  unfold load_body, setitem.
  destruct (_parse_conversation conv_data idx) as [transcript|e]; cbn [bind]; [|reflexivity].
  destruct (hashable (transcript_id transcript)); reflexivity.
Qed.

(** An entry whose [try] body raises leaves the retriever as it was. *)
Lemma load_entry_skip (self : t) (entry : nat * pyval) :
  entry_ok entry = false -> load_entry self entry = self.
Proof.
  unfold entry_ok, load_entry. rewrite !load_body_spec.
  destruct (_parse_conversation (snd entry) (fst entry)) as [transcript|e]; [|reflexivity].
  destruct (hashable (transcript_id transcript)); [discriminate | reflexivity].
Qed.

Lemma load_entry_length (self : t) (entry : nat * pyval) :
  List.length (conversations_by_id self)
  <= List.length (conversations_by_id (load_entry self entry))
  <= List.length (conversations_by_id self) + (if entry_ok entry then 1 else 0).
Proof.
  unfold entry_ok, load_entry. rewrite !load_body_spec.
  destruct (_parse_conversation (snd entry) (fst entry)) as [transcript|e];
    cbn [try_except]; [|lia].
  destruct (hashable (transcript_id transcript)); cbn [try_except conversations_by_id]; [|lia].
  pose proof (dict_set_length key_eqb (conversations_by_id self)
                (transcript_id transcript) transcript). lia.
Qed.

Lemma load_loop_skip (entries : list (nat * pyval)) (self : t) :
  fold_left load_entry entries self = fold_left load_entry (filter entry_ok entries) self.
Proof.
  revert self. induction entries as [|entry entries IH]; intros self; cbn [fold_left filter].
  - reflexivity.
  - destruct (entry_ok entry) eqn:E; cbn [fold_left].
    + apply IH.
    + rewrite (load_entry_skip self entry E). apply IH.
Qed.

Lemma load_loop_length (entries : list (nat * pyval)) (self : t) :
  List.length (conversations_by_id self)
  <= List.length (conversations_by_id (fold_left load_entry entries self))
  <= List.length (conversations_by_id self) + List.length (filter entry_ok entries).
Proof.
  revert self. induction entries as [|entry entries IH]; intros self; cbn [fold_left filter].
  - cbn [List.length]. lia.
  - specialize (IH (load_entry self entry)).
    pose proof (load_entry_length self entry) as H.
    destruct (entry_ok entry); cbn [List.length]; lia.
Qed.

End LoaderFacts.

(** C5, as the code has it.  Whatever the raw input is: when the value that
    [_extract_conversations] finds cannot be iterated, the [for] statement
    raises; otherwise [load_conversations] raises nothing, an entry whose
    parsing or storing raises is skipped (the retriever after the call is the
    one that loading only the other entries gives), and the value returned
    is the number of transcripts in the store after the call.  That number
    is at least the size of the store before the call and at most that size
    plus the number of entries the call loaded. *)
Theorem load_conversations_returns_store_size (self : Loader.t) (data : Loader.pyval) :
  match Loader.py_iter (Loader._extract_conversations data) with
  | Ok entries =>
      exists after,
        Loader.load_conversations self data =
          Ok (List.length (Loader.conversations_by_id after), after) /\
        after = fold_left Loader.load_entry
                  (filter Loader.entry_ok (Loader.enumerate entries)) self /\
        List.length (Loader.conversations_by_id self)
        <= List.length (Loader.conversations_by_id after)
        <= List.length (Loader.conversations_by_id self) + Loader.loaded_by_call entries
  | Raise e => Loader.load_conversations self data = Raise e
  end.
Proof.
  unfold Loader.load_conversations. cbv zeta.
  destruct (Loader.py_iter (Loader._extract_conversations data)) as [entries|e];
    cbn [bind]; [|reflexivity].
  eexists. split; [reflexivity|]. split; [apply load_loop_skip|].
  apply load_loop_length.
Qed.

(** C5 as stated fails.  A retriever that holds one transcript
    and loads the empty list returns 1, and the call loaded nothing; a new
    retriever that loads two entries of one id returns 1, and the call
    loaded both. *)
Lemma load_conversations_count_is_store_size :
  exists loaded returned,
    Loader.load_conversations Loader.init (Loader.VList [raw_entry "FR-002"]) = Ok (1, loaded) /\
    Loader.load_conversations loaded (Loader.VList []) = Ok (returned, loaded) /\
    returned = 1 /\
    Loader.loaded_by_call [] = 0 /\
    returned <> Loader.loaded_by_call [] /\
    Loader.load_conversations Loader.init
      (Loader.VList [raw_entry "FR-002"; raw_entry "FR-002"]) = Ok (1, loaded) /\
    Loader.loaded_by_call [raw_entry "FR-002"; raw_entry "FR-002"] = 2.
Proof.
  do 2 eexists. split; [vm_compute; reflexivity|]. split; [vm_compute; reflexivity|].
  repeat split; try (vm_compute; reflexivity). discriminate.
Qed.


(* ================================================================== *)
(** * The loader: intents, turns and entries *)
(* ================================================================== *)

Section ParseFacts.
Import Loader.

Lemma not_contains_lower (k s : string) :
  PyStr.lower k = k -> PyStr.contains k (PyStr.lower s) = false -> PyStr.contains k s = false.
Proof.
  intros Hk H. destruct (PyStr.contains k s) eqn:E; [|reflexivity].
  apply contains_lower in E. rewrite Hk in E. congruence.
Qed.

(** The value of [_parse_intent_to_outcome] on a string, by the tests on the
    intent in lower case. *)
Lemma parse_intent_cases (intent : string) :
  _parse_intent_to_outcome (VStr intent) =
  Ok (if PyStr.contains "escalation" (PyStr.lower intent) then "escalation"
      else if PyStr.contains "fraud" (PyStr.lower intent) then "fraud_resolved"
      else if PyStr.contains "delivery" (PyStr.lower intent) then "delivery_investigation"
      else if (PyStr.contains "resolved" (PyStr.lower intent)
               || PyStr.contains "compensation" (PyStr.lower intent))%bool
      then "resolved_with_compensation"
      else match intent with
           | EmptyString => "general_inquiry"
           | String _ _ => intent
           end).
Proof.
  unfold _parse_intent_to_outcome. cbv zeta.
  repeat match goal with
         | |- context [if ?c then _ else _] => destruct c
         end; try reflexivity; destruct intent; reflexivity.
Qed.

End ParseFacts.

(** X1.  The outcome that the loader gives an intent is never the empty
    string, and it is a fixed point of the mapping: read as an intent, it is
    mapped to itself. *)
Theorem parse_intent_idempotent (intent : string) :
  exists o,
    Loader._parse_intent_to_outcome (Loader.VStr intent) = Ok o /\
    o <> "" /\
    Loader._parse_intent_to_outcome (Loader.VStr o) = Ok o.
Proof.
  rewrite parse_intent_cases.
  destruct (PyStr.contains "escalation" (PyStr.lower intent)) eqn:E1;
    [eexists; split; [reflexivity | split; [discriminate | reflexivity]]|].
  destruct (PyStr.contains "fraud" (PyStr.lower intent)) eqn:E2;
    [eexists; split; [reflexivity | split; [discriminate | reflexivity]]|].
  destruct (PyStr.contains "delivery" (PyStr.lower intent)) eqn:E3;
    [eexists; split; [reflexivity | split; [discriminate | reflexivity]]|].
  destruct (PyStr.contains "resolved" (PyStr.lower intent)
            || PyStr.contains "compensation" (PyStr.lower intent))%bool eqn:E4;
    [eexists; split; [reflexivity | split; [discriminate | reflexivity]]|].
  destruct intent as [|c rest].
  - eexists; split; [reflexivity | split; [discriminate | reflexivity]].
  - eexists; split; [reflexivity | split; [discriminate|]].
    rewrite parse_intent_cases, E1, E2, E3, E4. reflexivity.
Qed.

(** X2.  The rule set that the analyzer picks by its tests on the outcome is
    the one of the category the loader found in the intent: the outcome
    contains "escalation" exactly when the intent does (in any letter case);
    failing that, it contains "fraud" exactly when the intent does; failing
    both, "delivery" exactly when the intent does; and when the intent names
    none of the three, the primary cause is the default one, made of the
    reason of the first transcript or else of the outcome. *)
Theorem outcome_selects_rules (intent : string) :
  exists o,
    Loader._parse_intent_to_outcome (Loader.VStr intent) = Ok o /\
    PyStr.contains "escalation" o = PyStr.contains "escalation" (PyStr.lower intent) /\
    (PyStr.contains "escalation" (PyStr.lower intent) = false ->
     PyStr.contains "fraud" o = PyStr.contains "fraud" (PyStr.lower intent)) /\
    (PyStr.contains "escalation" (PyStr.lower intent) = false ->
     PyStr.contains "fraud" (PyStr.lower intent) = false ->
     PyStr.contains "delivery" o = PyStr.contains "delivery" (PyStr.lower intent)) /\
    (PyStr.contains "escalation" (PyStr.lower intent) = false ->
     PyStr.contains "fraud" (PyStr.lower intent) = false ->
     PyStr.contains "delivery" (PyStr.lower intent) = false ->
     forall first rest,
       CausalAnalyzer._generate_primary_cause o (first :: rest) =
       Ok (match reason_for_call first with
           | EmptyString => "Issue type: " ++ o
           | String _ _ => "Issue identified: " ++ reason_for_call first
           end)).
Proof.
  rewrite parse_intent_cases. eexists. split; [reflexivity|].
  destruct (PyStr.contains "escalation" (PyStr.lower intent)) eqn:E1.
  { repeat split; try reflexivity; intros; discriminate. }
  destruct (PyStr.contains "fraud" (PyStr.lower intent)) eqn:E2.
  { repeat split; try reflexivity; intros; discriminate. }
  destruct (PyStr.contains "delivery" (PyStr.lower intent)) eqn:E3.
  { repeat split; try reflexivity; intros; discriminate. }
  assert (H : forall o,
             PyStr.contains "escalation" o = false ->
             PyStr.contains "fraud" o = false ->
             PyStr.contains "delivery" o = false ->
             forall first rest,
               CausalAnalyzer._generate_primary_cause o (first :: rest) =
               Ok (match reason_for_call first with
                   | EmptyString => "Issue type: " ++ o
                   | String _ _ => "Issue identified: " ++ reason_for_call first
                   end)).
  { intros o H1 H2 H3 first rest. unfold CausalAnalyzer._generate_primary_cause.
    cbv zeta. rewrite H1, H2, H3. destruct (reason_for_call first); reflexivity. }
  destruct (PyStr.contains "resolved" (PyStr.lower intent)
            || PyStr.contains "compensation" (PyStr.lower intent))%bool.
  { repeat split; try reflexivity. intros _ _ _. apply H; reflexivity. }
  destruct intent as [|c rest].
  { repeat split; try reflexivity. intros _ _ _. apply H; reflexivity. }
  pose proof (not_contains_lower "escalation" _ eq_refl E1) as F1.
  pose proof (not_contains_lower "fraud" _ eq_refl E2) as F2.
  pose proof (not_contains_lower "delivery" _ eq_refl E3) as F3.
  repeat split; auto.
Qed.

Lemma outcome_selects_rules_witness :
  exists o,
    Loader._parse_intent_to_outcome (Loader.VStr "Billing Question") = Ok o /\
    CausalAnalyzer._generate_primary_cause o [sample_FR_002] =
      Ok "Issue identified: Unauthorized charge detected".
Proof.
  destruct (outcome_selects_rules "Billing Question") as (o & H1 & _ & _ & _ & H5).
  exists o. split; [exact H1|].
  apply (H5 eq_refl eq_refl eq_refl sample_FR_002 []).
Defined.

Section EntryFacts.
Import Loader.

Lemma parse_conversation_dict (d : list (string * pyval)) (idx : nat) :
  _parse_conversation (VDict d) idx =
  (items <- py_iter (conversation_value d) ;;
   outcome <- _parse_intent_to_outcome (Dict.get_default String.eqb d "intent" (VStr "")) ;;
   Ok {| transcript_id :=
           Dict.get_default String.eqb d "transcript_id" (VStr ("conv_" ++ PyStr.of_nat idx));
         domain := Dict.get_default String.eqb d "domain" (VStr "unknown");
         outcome := outcome;
         turns := flat_map (fun it => parse_turn (fst it) (snd it)) (enumerate items);
         metadata :=
           [ ("time_of_interaction", Dict.get_default String.eqb d "time_of_interaction" VNone);
             ("intent", Dict.get_default String.eqb d "intent" (VStr ""));
             ("reason_for_call", Dict.get_default String.eqb d "reason_for_call" (VStr "")) ] |}).
Proof.
  unfold _parse_conversation, conversation_value. cbn [py_get bind].
  destruct (py_iter _); cbn [bind]; [|reflexivity].
  destruct (_parse_intent_to_outcome _); reflexivity.
Qed.

Lemma turn_ids_filter (items : list (nat * pyval)) :
  map turn_id (flat_map (fun it => parse_turn (fst it) (snd it)) items) =
  map fst (filter (fun it => is_turn_value (snd it)) items).
Proof.
  induction items as [|[i v] items IH]; [reflexivity|].
  cbn [flat_map filter fst snd]. rewrite map_app, IH.
  destruct v; reflexivity.
Qed.

Lemma enumerate_from_bounds (P : nat * pyval -> bool) (items : list pyval) (start : nat) :
  Forall (fun i => start <= i < start + List.length items)
         (map fst (filter P (combine (seq start (List.length items)) items))).
Proof.
  revert start. induction items as [|v items IH]; intros start; cbn [List.length seq combine filter].
  - constructor.
  - assert (H : Forall (fun i => start <= i < start + S (List.length items))
                       (map fst (filter P (combine (seq (S start) (List.length items)) items)))).
    { eapply Forall_impl; [|apply IH]. cbv beta. intros; lia. }
    destruct (P (start, v)); [|exact H].
    cbn [map fst]. constructor; [lia | exact H].
Qed.

Lemma enumerate_from_sorted (P : nat * pyval -> bool) (items : list pyval) (start : nat) :
  StronglySorted lt (map fst (filter P (combine (seq start (List.length items)) items))).
Proof.
  revert start. induction items as [|v items IH]; intros start; cbn [List.length seq combine filter].
  - constructor.
  - destruct (P (start, v)); [|apply IH].
    cbn [map fst]. constructor; [apply IH|].
    eapply Forall_impl; [|apply enumerate_from_bounds]. cbv beta. intros; lia.
Qed.

Lemma enumerate_from_all (P : nat * pyval -> bool) (items : list pyval) (start : nat) :
  (forall i v, In v items -> P (i, v) = true) ->
  map fst (filter P (combine (seq start (List.length items)) items)) =
  seq start (List.length items).
Proof.
  revert start. induction items as [|v items IH]; intros start H;
    cbn [List.length seq combine filter]; [reflexivity|].
  rewrite H by (left; reflexivity). cbn [map fst]. f_equal.
  apply IH. intros i w Hw. apply H. right. exact Hw.
Qed.

Lemma hashable_default (d : list (string * pyval)) (k a b : string) :
  hashable (Dict.get_default String.eqb d k (VStr a)) =
  hashable (Dict.get_default String.eqb d k (VStr b)).
Proof. unfold Dict.get_default. destruct (Dict.get String.eqb d k); reflexivity. Qed.

Lemma entry_ok_spec (idx : nat) (v : pyval) :
  entry_ok (idx, v) = well_formed_entry v.
Proof.
  unfold entry_ok. rewrite load_body_spec. cbn [fst snd].
  destruct v as [| | | |l|d]; try reflexivity.
  rewrite parse_conversation_dict. unfold well_formed_entry.
  destruct (py_iter (conversation_value d)) as [items|e] eqn:Ei.
  - assert (Hit : iterable (conversation_value d) = true)
      by (destruct (conversation_value d); try reflexivity; discriminate).
    rewrite Hit. cbn [bind andb].
    destruct (Dict.get_default String.eqb d "intent" (VStr "")) as [| | |s| |] eqn:Es;
      try reflexivity.
    rewrite parse_intent_cases. cbn [bind transcript_id is_str andb].
    rewrite (hashable_default d "transcript_id" _ "").
    destruct (hashable _); reflexivity.
  - assert (Hit : iterable (conversation_value d) = false)
      by (destruct (conversation_value d); try reflexivity; discriminate).
    rewrite Hit. reflexivity.
Qed.

End EntryFacts.

(** X3.  The turn ids of a parsed conversation are the positions, counted
    from 0, of the elements of the conversation that are objects or strings:
    they increase strictly, stay below the number of elements, skip the
    positions of the other elements, and are 0, 1, 2, ... when every element
    is an object or a string. *)
Theorem parse_conversation_turn_ids (d : list (string * Loader.pyval)) (idx : nat)
        (transcript : Loader.ConversationTranscript) :
  Loader._parse_conversation (Loader.VDict d) idx = Ok transcript ->
  exists items,
    Loader.py_iter (conversation_value d) = Ok items /\
    map Loader.turn_id (Loader.turns transcript) =
      map fst (filter (fun it => is_turn_value (snd it)) (Loader.enumerate items)) /\
    StronglySorted lt (map Loader.turn_id (Loader.turns transcript)) /\
    Forall (fun i => i < List.length items) (map Loader.turn_id (Loader.turns transcript)) /\
    (forallb is_turn_value items = true ->
     map Loader.turn_id (Loader.turns transcript) = seq 0 (List.length items)).
Proof.
  rewrite parse_conversation_dict.
  destruct (Loader.py_iter (conversation_value d)) as [items|e]; cbn [bind]; [|discriminate].
  destruct (Loader._parse_intent_to_outcome _) as [o|e]; cbn [bind]; [|discriminate].
  intros H. injection H as <-. cbn [Loader.turns].
  exists items. rewrite turn_ids_filter. unfold Loader.enumerate.
  split; [reflexivity|]. split; [reflexivity|].
  split; [apply enumerate_from_sorted|].
  split.
  - eapply Forall_impl; [|apply enumerate_from_bounds]. cbv beta. intros; lia.
  - intros Hall. apply enumerate_from_all. intros i v Hv. cbn [snd].
    rewrite forallb_forall in Hall. apply Hall. exact Hv.
Qed.

Lemma parse_conversation_turn_ids_witness :
  exists transcript,
    Loader._parse_conversation (Loader.VDict mixed_entry) 0 = Ok transcript /\
    map Loader.turn_id (Loader.turns transcript) = [0; 2] /\
    StronglySorted lt (map Loader.turn_id (Loader.turns transcript)).
Proof.
  eexists. split; [vm_compute; reflexivity|]. split; [reflexivity|].
  destruct (parse_conversation_turn_ids mixed_entry 0 _ eq_refl) as (items & _ & _ & H & _).
  exact H.
Defined.

(** X4.  Which entries load: the body of the loop runs to its end exactly
    for an entry that is an object, whose conversation (or, without one, its
    turns) can be iterated, whose intent, when present, is a string, and
    whose transcript id, when present, is not a list or an object.  Any other
    entry leaves the store as it was, and an entry that loads leaves an
    entry under its id. *)
Theorem load_entry_well_formed (self : Loader.t) (idx : nat) (v : Loader.pyval) :
  Loader.entry_ok (idx, v) = well_formed_entry v /\
  (well_formed_entry v = false -> Loader.load_entry self (idx, v) = self) /\
  (well_formed_entry v = true ->
   exists transcript,
     Loader._parse_conversation v idx = Ok transcript /\
     Loader.conversations_by_id (Loader.load_entry self (idx, v)) =
       Dict.set Loader.key_eqb (Loader.conversations_by_id self)
                (Loader.transcript_id transcript) transcript).
Proof.
  split; [apply entry_ok_spec|]. split.
  - intros H. apply load_entry_skip. rewrite entry_ok_spec. exact H.
  - intros H. rewrite <- (entry_ok_spec idx v) in H. revert H.
    unfold Loader.entry_ok, Loader.load_entry. rewrite !load_body_spec. cbn [fst snd].
    destruct (Loader._parse_conversation v idx) as [transcript|e]; [|discriminate].
    destruct (Loader.hashable (Loader.transcript_id transcript)); [|discriminate].
    intros _. exists transcript. split; reflexivity.
Qed.

Lemma load_entry_well_formed_witness :
  Loader.load_entry Loader.init
    (0, Loader.VDict [("transcript_id", Loader.VStr "A"); ("intent", Loader.VInt 3)])
  = Loader.init.
Proof.
  apply (proj1 (proj2 (load_entry_well_formed Loader.init 0
                         (Loader.VDict [("transcript_id", Loader.VStr "A");
                                        ("intent", Loader.VInt 3)])))).
  reflexivity.
Defined.

(** X5.  [load_conversations] raises exactly when the data is an object
    whose 'transcripts' value, or without that key its 'conversations'
    value, is None, a boolean or a number; the exception is then a
    TypeError.  On any other data it returns. *)
Theorem load_conversations_raises (self : Loader.t) (data : Loader.pyval) (e : py_exception) :
  Loader.load_conversations self data = Raise e <->
  e = TypeError /\
  exists d v, data = Loader.VDict d /\ named_container d = Some v /\ iterable v = false.
Proof.
  unfold Loader.load_conversations. cbv zeta.
  destruct data as [| | | |l|d]; cbn [Loader._extract_conversations Loader.py_iter bind];
    try (split; [discriminate | intros (_ & d' & v & H & _); discriminate]).
  unfold Dict.mem, Dict.get_default.
  assert (Hn : forall d' v, Loader.VDict d = Loader.VDict d' ->
                            named_container d' = Some v -> named_container d = Some v)
    by (intros d' v Hd; injection Hd as <-; trivial).
  destruct (named_container d) as [c|] eqn:En; unfold named_container in En.
  - assert (Hc : Loader.py_iter
                   (if match Dict.get String.eqb d "transcripts" with Some _ => true | None => false end
                    then match Dict.get String.eqb d "transcripts" with Some v => v | None => Loader.VNone end
                    else if match Dict.get String.eqb d "conversations" with Some _ => true | None => false end
                    then match Dict.get String.eqb d "conversations" with Some v => v | None => Loader.VNone end
                    else if ((match Dict.get String.eqb d "conversation" with Some _ => true | None => false end)
                             || (match Dict.get String.eqb d "transcript_id" with Some _ => true | None => false end))%bool
                    then Loader.VList [Loader.VDict d] else Loader.VList [])
                 = Loader.py_iter c).
    { destruct (Dict.get String.eqb d "transcripts"); [congruence|].
      destruct (Dict.get String.eqb d "conversations"); [congruence | discriminate]. }
    rewrite Hc. split.
    + intros H. destruct c; cbn [Loader.py_iter bind] in H; try discriminate H;
        injection H as <-; (split; [reflexivity|]); eexists d, _;
        (split; [reflexivity | split; [exact En | reflexivity]]).
    + intros (-> & d' & v & Hd & Hv & Hi). apply (Hn _ _ Hd) in Hv. injection Hv as <-.
      destruct c; try discriminate Hi; reflexivity.
  - split.
    + destruct (Dict.get String.eqb d "transcripts"); [discriminate En|].
      destruct (Dict.get String.eqb d "conversations"); [discriminate En|].
      destruct (_ || _)%bool; discriminate.
    + intros (_ & d' & v & Hd & Hv & _). apply (Hn _ _ Hd) in Hv. discriminate Hv.
Qed.

Lemma load_conversations_raises_witness :
  Loader.load_conversations Loader.init
    (Loader.VDict [("conversations", Loader.VList []); ("transcripts", Loader.VNone)])
  = Raise TypeError.
Proof.
  apply (proj2 (load_conversations_raises Loader.init
                  (Loader.VDict [("conversations", Loader.VList []);
                                 ("transcripts", Loader.VNone)])
                  TypeError)).
  split; [reflexivity|]. eexists _, _. repeat split.
Defined.

(* ================================================================== *)
(** * The store of the loader as a dictionary *)
(* ================================================================== *)

Section KeyFacts.
Import Loader.

Lemma key_eqb_sym (a b : pyval) : key_eqb a b = key_eqb b a.
Proof.
  destruct a, b; cbn [key_eqb]; try reflexivity.
  - destruct b, b0; reflexivity.
  - apply Z.eqb_sym.
  - apply String.eqb_sym.
Qed.

Lemma key_eqb_refl (a : pyval) : hashable a = true -> key_eqb a a = true.
Proof.
  destruct a; cbn [key_eqb hashable]; intros H; try discriminate; try reflexivity.
  - destruct b; reflexivity.
  - apply Z.eqb_refl.
  - apply String.eqb_refl.
Qed.

Lemma key_eqb_trans (a b c : pyval) :
  key_eqb a b = true -> key_eqb b c = true -> key_eqb a c = true.
Proof.
  destruct a, b, c; cbn [key_eqb]; try discriminate; try reflexivity;
    rewrite ?Bool.eqb_true_iff, ?Z.eqb_eq, ?String.eqb_eq; try congruence.
  all: repeat match goal with b : bool |- _ => destruct b end; intros; subst; try lia;
    try reflexivity; try discriminate.
Qed.

Lemma key_eqb_hashable_l (a b : pyval) : key_eqb a b = true -> hashable a = true.
Proof. destruct a, b; cbn [key_eqb hashable]; try discriminate; reflexivity. Qed.

Lemma key_eqb_congr (a b c : pyval) :
  key_eqb a b = true -> key_eqb a c = key_eqb b c.
Proof.
  intros H. destruct (key_eqb b c) eqn:E.
  - exact (key_eqb_trans _ _ _ H E).
  - destruct (key_eqb a c) eqn:F; [|reflexivity].
    rewrite key_eqb_sym in H. rewrite <- E. symmetry. exact (key_eqb_trans _ _ _ H F).
Qed.

Context {V : Type}.
Implicit Types (d : list (pyval * V)) (k : pyval) (v : V).

Lemma get_congr d k k' :
  key_eqb k k' = true -> Dict.get key_eqb d k = Dict.get key_eqb d k'.
Proof.
  intros H. induction d as [|[k0 v0] d IH]; cbn [Dict.get]; [reflexivity|].
  rewrite (key_eqb_sym k0 k), (key_eqb_sym k0 k'), (key_eqb_congr _ _ _ H), IH. reflexivity.
Qed.

Lemma get_set_same d k v :
  hashable k = true -> Dict.get key_eqb (Dict.set key_eqb d k v) k = Some v.
Proof.
  intros H. induction d as [|[k0 v0] d IH]; cbn [Dict.get Dict.set].
  - now rewrite key_eqb_refl.
  - destruct (key_eqb k0 k) eqn:E; cbn [Dict.get]; rewrite E; [reflexivity | exact IH].
Qed.

Lemma get_set_other d k v k' :
  key_eqb k k' = false ->
  Dict.get key_eqb (Dict.set key_eqb d k v) k' = Dict.get key_eqb d k'.
Proof.
  intros H. induction d as [|[k0 v0] d IH]; cbn [Dict.get Dict.set].
  - now rewrite H.
  - destruct (key_eqb k0 k) eqn:E; cbn [Dict.get].
    + rewrite (key_eqb_congr _ _ _ E), H. reflexivity.
    + rewrite IH. reflexivity.
Qed.

Lemma get_set d k v k' :
  hashable k = true ->
  Dict.get key_eqb (Dict.set key_eqb d k v) k' =
  if key_eqb k k' then Some v else Dict.get key_eqb d k'.
Proof.
  intros H. destruct (key_eqb k k') eqn:E.
  - rewrite <- (get_congr _ _ _ E). now apply get_set_same.
  - now apply get_set_other.
Qed.

Lemma set_keys_present d k v :
  Dict.mem key_eqb d k = true -> map fst (Dict.set key_eqb d k v) = map fst d.
Proof.
  unfold Dict.mem. induction d as [|[k0 v0] d IH]; cbn [Dict.get Dict.set]; [discriminate|].
  destruct (key_eqb k0 k); cbn [map fst]; [reflexivity|].
  intros H. now rewrite IH.
Qed.

Lemma set_absent d k v :
  Dict.mem key_eqb d k = false -> Dict.set key_eqb d k v = (d ++ [(k, v)])%list.
Proof.
  unfold Dict.mem. induction d as [|[k0 v0] d IH]; cbn [Dict.get Dict.set app]; [reflexivity|].
  destruct (key_eqb k0 k); [discriminate|]. intros H. now rewrite IH.
Qed.

Lemma mem_set_other d k v k' :
  key_eqb k k' = false ->
  Dict.mem key_eqb (Dict.set key_eqb d k v) k' = Dict.mem key_eqb d k'.
Proof. intros H. unfold Dict.mem. now rewrite get_set_other. Qed.

Lemma distinct_keys_set d k v :
  distinct_keys d = true -> distinct_keys (Dict.set key_eqb d k v) = true.
Proof.
  induction d as [|[k0 v0] d IH]; cbn [distinct_keys Dict.set]; [reflexivity|].
  intros H. apply andb_prop in H. destruct H as [H1 H2].
  destruct (key_eqb k0 k) eqn:E; cbn [distinct_keys].
  - now rewrite H1, H2.
  - rewrite mem_set_other by (now rewrite key_eqb_sym). rewrite H1. cbn [andb]. now apply IH.
Qed.

Lemma hashable_keys_set d k v :
  hashable k = true -> hashable_keys d = true -> hashable_keys (Dict.set key_eqb d k v) = true.
Proof.
  intros Hk. unfold hashable_keys.
  induction d as [|[k0 v0] d IH]; cbn [forallb Dict.set fst].
  - now rewrite Hk.
  - intros H. apply andb_prop in H. destruct H as [H1 H2].
    destruct (key_eqb k0 k); cbn [forallb fst]; rewrite H1; cbn [andb]; auto.
Qed.

Lemma get_in_distinct d k v :
  distinct_keys d = true -> hashable_keys d = true -> In (k, v) d ->
  Dict.get key_eqb d k = Some v.
Proof.
  unfold hashable_keys.
  induction d as [|[k0 v0] d IH]; cbn [distinct_keys forallb fst In Dict.get]; [intros _ _ []|].
  intros H1 H2 Hin. apply andb_prop in H1, H2. destruct H1 as [H1 H1'], H2 as [H2 H2'].
  destruct Hin as [E|Hin].
  - injection E as -> ->. now rewrite key_eqb_refl.
  - specialize (IH H1' H2' Hin).
    destruct (key_eqb k0 k) eqn:E; [|exact IH].
    unfold Dict.mem in H1. rewrite key_eqb_sym in E.
    rewrite (get_congr d k k0 E) in IH. rewrite IH in H1. discriminate.
Qed.

End KeyFacts.

Section StoreFacts.
Import Loader.

Lemma load_entry_pairs (self : t) (entry : nat * pyval) :
  load_entry self entry =
  {| conversations_by_id := assign_all (loaded_pairs [entry]) (conversations_by_id self) |}.
Proof.
  unfold load_entry, loaded_pairs, assign_all. rewrite load_body_spec. cbn [flat_map].
  destruct (_parse_conversation (snd entry) (fst entry)) as [transcript|e];
    cbn [try_except app fold_left]; [|now destruct self].
  destruct (hashable (transcript_id transcript)); cbn [try_except fold_left fst snd];
    [reflexivity | now destruct self].
Qed.

Lemma loaded_pairs_app (a b : list (nat * pyval)) :
  loaded_pairs (a ++ b) = (loaded_pairs a ++ loaded_pairs b)%list.
Proof. apply flat_map_app. Qed.

Lemma loaded_pairs_cons (entry : nat * pyval) (entries : list (nat * pyval)) :
  loaded_pairs (entry :: entries) = (loaded_pairs [entry] ++ loaded_pairs entries)%list.
Proof. apply (loaded_pairs_app [entry] entries). Qed.

Lemma assign_all_app {V : Type} (a b : list (pyval * V)) (d : list (pyval * V)) :
  assign_all (a ++ b) d = assign_all b (assign_all a d).
Proof. apply fold_left_app. Qed.

Lemma load_loop_pairs (entries : list (nat * pyval)) (self : t) :
  fold_left load_entry entries self =
  {| conversations_by_id := assign_all (loaded_pairs entries) (conversations_by_id self) |}.
Proof.
  revert self. induction entries as [|entry entries IH]; intros self; cbn [fold_left].
  - now destruct self.
  - rewrite IH, load_entry_pairs, (loaded_pairs_cons entry entries), assign_all_app.
    reflexivity.
Qed.

Lemma loaded_pairs_keys (entries : list (nat * pyval)) :
  Forall (fun kv => hashable (fst kv) = true /\ fst kv = transcript_id (snd kv))
         (loaded_pairs entries).
Proof.
  induction entries as [|entry entries IH]; [constructor|].
  rewrite loaded_pairs_cons. apply Forall_app. split; [|exact IH].
  unfold loaded_pairs. cbn [flat_map].
  destruct (_parse_conversation (snd entry) (fst entry)) as [transcript|e];
    cbn [app]; [|constructor].
  destruct (hashable (transcript_id transcript)) eqn:E; repeat constructor. exact E.
Qed.

Lemma filed_under_id_set (d : list (pyval * ConversationTranscript))
      (transcript : ConversationTranscript) :
  hashable (transcript_id transcript) = true ->
  filed_under_id d = true ->
  filed_under_id (Dict.set key_eqb d (transcript_id transcript) transcript) = true.
Proof.
  intros Hk. unfold filed_under_id.
  induction d as [|[k0 v0] d IH]; cbn [forallb Dict.set fst snd].
  - now rewrite key_eqb_refl.
  - intros H. apply andb_prop in H. destruct H as [H1 H2].
    destruct (key_eqb k0 (transcript_id transcript)) eqn:E; cbn [forallb fst snd].
    + now rewrite E, H2.
    + rewrite H1. cbn [andb]. auto.
Qed.

Lemma store_ok_assign (pairs : list (pyval * ConversationTranscript))
      (d : list (pyval * ConversationTranscript)) :
  Forall (fun kv => hashable (fst kv) = true /\ fst kv = transcript_id (snd kv)) pairs ->
  store_ok {| conversations_by_id := d |} = true ->
  store_ok {| conversations_by_id := assign_all pairs d |} = true.
Proof.
  unfold store_ok. cbn [conversations_by_id].
  revert d. induction pairs as [|[k v] pairs IH]; intros d Hp Hd; [exact Hd|].
  inversion Hp as [|? ? [Hk Hid] Hp']; subst. cbn [fst snd] in Hk, Hid. subst k.
  unfold assign_all. cbn [fold_left fst snd]. apply (IH _ Hp').
  apply andb_prop in Hd. destruct Hd as [Hd H3]. apply andb_prop in Hd. destruct Hd as [H1 H2].
  rewrite distinct_keys_set, hashable_keys_set, filed_under_id_set; auto.
Qed.

Lemma get_assign_other {V : Type} (pairs : list (pyval * V)) (d : list (pyval * V))
      (k : pyval) :
  Forall (fun kv => key_eqb (fst kv) k = false) pairs ->
  Dict.get key_eqb (assign_all pairs d) k = Dict.get key_eqb d k.
Proof.
  revert d. induction pairs as [|[k0 v0] pairs IH]; intros d Hp; [reflexivity|].
  inversion Hp as [|? ? Hk Hp']; subst. unfold assign_all. cbn [fold_left fst snd].
  fold (assign_all pairs (Dict.set key_eqb d k0 v0)).
  rewrite (IH _ Hp'). now apply get_set_other.
Qed.

Lemma combine_seq_app {A : Type} (a b : list A) (start : nat) :
  combine (seq start (List.length (a ++ b))) (a ++ b) =
  (combine (seq start (List.length a)) a
   ++ combine (seq (start + List.length a) (List.length b)) b)%list.
Proof.
  revert start. induction a as [|x a IH]; intros start; cbn [app List.length seq combine].
  - now rewrite Nat.add_0_r.
  - rewrite IH, Nat.add_succ_r. reflexivity.
Qed.

Lemma enumerate_app {A : Type} (a b : list A) :
  enumerate (a ++ b) =
  (enumerate a ++ combine (seq (List.length a) (List.length b)) b)%list.
Proof. unfold enumerate. now rewrite combine_seq_app. Qed.

Lemma loaded_pairs_other (post : list pyval) (start : nat) (k : pyval) :
  (forall j w transcript,
      nth_error post j = Some w ->
      _parse_conversation w (start + j) = Ok transcript ->
      key_eqb (transcript_id transcript) k = false) ->
  Forall (fun kv => key_eqb (fst kv) k = false)
         (loaded_pairs (combine (seq start (List.length post)) post)).
Proof.
  revert start. induction post as [|w post IH]; intros start H; [constructor|].
  cbn [List.length seq combine]. rewrite loaded_pairs_cons. apply Forall_app. split.
  - unfold loaded_pairs. cbn [flat_map fst snd].
    destruct (_parse_conversation w start) as [transcript|e] eqn:E; cbn [app]; [|constructor].
    destruct (hashable (transcript_id transcript)); repeat constructor. cbn [fst].
    apply (H 0 w transcript); [reflexivity|]. now rewrite Nat.add_0_r.
  - apply IH. intros j w' transcript Hj Hp. apply (H (S j) w' transcript); [exact Hj|].
    now rewrite Nat.add_succ_r.
Qed.

End StoreFacts.

(** X6.  Loading keeps the store in good order: when no two keys of the
    store are equal as dictionary keys, every key can be hashed and every
    transcript is filed under a key equal to its own id, the same holds
    after [load_conversations], whatever the data. *)
Theorem load_keeps_store_in_order (self : Loader.t) (data : Loader.pyval) (n : nat)
        (after : Loader.t) :
  store_ok self = true ->
  Loader.load_conversations self data = Ok (n, after) ->
  store_ok after = true.
Proof.
  intros Hs. unfold Loader.load_conversations. cbv zeta.
  destruct (Loader.py_iter (Loader._extract_conversations data)) as [entries|e];
    cbn [bind]; [|discriminate].
  intros H. injection H as _ <-. rewrite load_loop_pairs.
  apply store_ok_assign; [apply loaded_pairs_keys|]. now destruct self.
Qed.

Lemma load_keeps_store_in_order_witness :
  exists n after,
    Loader.load_conversations Loader.init clash_data = Ok (n, after) /\
    n = 2 /\ store_ok after = true.
Proof.
  eexists _, _. split; [vm_compute; reflexivity|]. split; [reflexivity|].
  apply (load_keeps_store_in_order Loader.init clash_data _ _ eq_refl eq_refl).
Defined.

(** X7.  After a load, a lookup by the id of an entry that loaded returns
    the transcript of that entry, provided no later entry of the same data
    carries an equal id: of several entries with equal ids, the last one is
    the one that stays. *)
Theorem load_then_get_last (self : Loader.t) (pre post : list Loader.pyval)
        (v : Loader.pyval) (transcript : Loader.ConversationTranscript) :
  Loader._parse_conversation v (List.length pre) = Ok transcript ->
  Loader.hashable (Loader.transcript_id transcript) = true ->
  (forall j w later,
      nth_error post j = Some w ->
      Loader._parse_conversation w (S (List.length pre) + j) = Ok later ->
      Loader.key_eqb (Loader.transcript_id later) (Loader.transcript_id transcript) = false) ->
  exists n after,
    Loader.load_conversations self (Loader.VList (pre ++ v :: post)) = Ok (n, after) /\
    LoaderLookup.get_transcript after (Loader.transcript_id transcript) = Ok (Some transcript).
Proof.
  intros Hp Hh Hpost. unfold Loader.load_conversations. cbv zeta.
  cbn [Loader._extract_conversations Loader.py_iter bind].
  eexists _, _. split; [reflexivity|].
  unfold LoaderLookup.get_transcript. rewrite Hh. f_equal.
  rewrite load_loop_pairs. cbn [Loader.conversations_by_id].
  rewrite enumerate_app, loaded_pairs_app. cbn [List.length seq combine].
  rewrite loaded_pairs_cons, !assign_all_app.
  rewrite get_assign_other by (apply loaded_pairs_other; exact Hpost).
  unfold loaded_pairs at 1. cbn [flat_map fst snd]. rewrite Hp, Hh. cbn [app].
  unfold assign_all at 1. cbn [fold_left fst snd]. now apply get_set_same.
Qed.

Lemma load_then_get_last_witness :
  exists n after transcript,
    Loader.load_conversations Loader.init clash_data = Ok (n, after) /\
    LoaderLookup.get_transcript after (Loader.VBool true) = Ok (Some transcript) /\
    Loader.outcome transcript = "delivery_investigation".
Proof.
  destruct (load_then_get_last Loader.init
              [ Loader.VDict [("transcript_id", Loader.VInt 1);
                              ("intent", Loader.VStr "Fraud Alert")];
                Loader.VDict [("transcript_id", Loader.VStr "B")] ]
              []
              (Loader.VDict [("transcript_id", Loader.VBool true);
                             ("intent", Loader.VStr "Delivery")])
              _ eq_refl eq_refl)
    as (n & after & H1 & H2).
  - intros [|j] w later Hj; discriminate Hj.
  - exists n, after. eexists. split; [exact H1|]. split; [exact H2 | reflexivity].
Defined.

Section ReloadFacts.
Import Loader.
Context {V : Type}.
Implicit Types (d pairs : list (pyval * V)) (k : pyval) (v : V).

Lemma get_assign pairs d k :
  Forall (fun kv => hashable (fst kv) = true) pairs ->
  Dict.get key_eqb (assign_all pairs d) k =
  match final_value pairs k with
  | Some x => Some x
  | None => Dict.get key_eqb d k
  end.
Proof.
  revert d. induction pairs as [|[k0 v0] pairs IH]; intros d Hp; [reflexivity|].
  inversion Hp as [|? ? Hk Hp']; subst. cbn [fst] in Hk.
  unfold assign_all. cbn [fold_left fst snd]. fold (assign_all pairs (Dict.set key_eqb d k0 v0)).
  rewrite (IH _ Hp'), (get_set _ _ _ _ Hk). cbn [final_value].
  destruct (final_value pairs k); [reflexivity|]. destruct (key_eqb k0 k); reflexivity.
Qed.

Lemma final_value_in pairs k v :
  In (k, v) pairs -> hashable k = true -> final_value pairs k <> None.
Proof.
  induction pairs as [|[k0 v0] pairs IH]; cbn [In final_value]; [intros []|].
  intros [E|Hin] Hk.
  - injection E as -> ->. rewrite key_eqb_refl by exact Hk.
    destruct (final_value pairs k); discriminate.
  - specialize (IH Hin Hk). destruct (final_value pairs k); [discriminate | contradiction].
Qed.

Lemma mem_set_mono d k k0 v0 :
  Dict.mem key_eqb d k = true -> Dict.mem key_eqb (Dict.set key_eqb d k0 v0) k = true.
Proof.
  unfold Dict.mem. induction d as [|[k1 v1] d IH]; cbn [Dict.get Dict.set]; [discriminate|].
  destruct (key_eqb k1 k0); cbn [Dict.get]; destruct (key_eqb k1 k); auto.
Qed.

Lemma map_absent d k v :
  Dict.mem key_eqb d k = false ->
  map (fun kv => (fst kv, if key_eqb (fst kv) k then v else snd kv)) d = d.
Proof.
  unfold Dict.mem. induction d as [|[k1 v1] d IH]; cbn [Dict.get map fst snd]; [reflexivity|].
  destruct (key_eqb k1 k); [discriminate|]. intros H. now rewrite IH.
Qed.

Lemma set_as_map d k v :
  distinct_keys d = true -> Dict.mem key_eqb d k = true ->
  Dict.set key_eqb d k v =
  map (fun kv => (fst kv, if key_eqb (fst kv) k then v else snd kv)) d.
Proof.
  induction d as [|[k1 v1] d IH]; cbn [distinct_keys]; [discriminate|].
  intros Hd Hm. apply andb_prop in Hd. destruct Hd as [H1 H2].
  cbn [Dict.set map fst snd]. unfold Dict.mem in Hm. cbn [Dict.get] in Hm.
  destruct (key_eqb k1 k) eqn:E.
  - rewrite map_absent; [reflexivity|].
    unfold Dict.mem in *. rewrite <- (get_congr d k1 k E).
    destruct (Dict.get key_eqb d k1); [discriminate | reflexivity].
  - rewrite IH; auto.
Qed.

Lemma assign_covered pairs d :
  distinct_keys d = true ->
  Forall (fun kv => Dict.mem key_eqb d (fst kv) = true) pairs ->
  assign_all pairs d =
  map (fun kv => (fst kv, match final_value pairs (fst kv) with
                          | Some x => x
                          | None => snd kv
                          end)) d.
Proof.
  revert d. induction pairs as [|[k0 v0] pairs IH]; intros d Hd Hp.
  - cbn [assign_all fold_left final_value]. symmetry. erewrite map_ext; [apply map_id|].
    intros [k v]; reflexivity.
  - inversion Hp as [|? ? Hk Hp']; subst. cbn [fst] in Hk.
    unfold assign_all. cbn [fold_left fst snd]. fold (assign_all pairs (Dict.set key_eqb d k0 v0)).
    rewrite IH.
    + rewrite (set_as_map d k0 v0 Hd Hk), map_map. apply map_ext. intros [k v].
      cbn [fst snd final_value]. rewrite (key_eqb_sym k k0).
      destruct (final_value pairs k); [reflexivity|]. destruct (key_eqb k0 k); reflexivity.
    + now apply distinct_keys_set.
    + eapply Forall_impl; [|exact Hp']. cbv beta. intros kv. apply mem_set_mono.
Qed.

Lemma distinct_keys_assign pairs d :
  distinct_keys d = true -> distinct_keys (assign_all pairs d) = true.
Proof.
  revert d. induction pairs as [|[k0 v0] pairs IH]; intros d Hd; [exact Hd|].
  unfold assign_all. cbn [fold_left fst snd]. apply IH. now apply distinct_keys_set.
Qed.

Lemma hashable_keys_assign pairs d :
  Forall (fun kv => hashable (fst kv) = true) pairs ->
  hashable_keys d = true -> hashable_keys (assign_all pairs d) = true.
Proof.
  revert d. induction pairs as [|[k0 v0] pairs IH]; intros d Hp Hd; [exact Hd|].
  inversion Hp as [|? ? Hk Hp']; subst.
  unfold assign_all. cbn [fold_left fst snd]. apply (IH _ Hp'). now apply hashable_keys_set.
Qed.

(** A second run of the same assignments changes nothing. *)
Lemma assign_twice pairs d :
  distinct_keys d = true -> hashable_keys d = true ->
  Forall (fun kv => hashable (fst kv) = true) pairs ->
  assign_all pairs (assign_all pairs d) = assign_all pairs d.
Proof.
  intros Hd Hh Hp.
  pose proof (distinct_keys_assign pairs d Hd) as Hd1.
  pose proof (hashable_keys_assign pairs d Hp Hh) as Hh1.
  rewrite (assign_covered pairs (assign_all pairs d) Hd1).
  - erewrite map_ext_in; [apply map_id|]. intros [k v] Hin. cbn [fst snd].
    pose proof (get_in_distinct _ _ _ Hd1 Hh1 Hin) as Hg.
    rewrite (get_assign pairs d k Hp) in Hg.
    destruct (final_value pairs k); [congruence | reflexivity].
  - rewrite Forall_forall. intros [k v] Hin. cbn [fst]. unfold Dict.mem.
    rewrite (get_assign pairs d k Hp).
    rewrite Forall_forall in Hp. pose proof (Hp _ Hin) as Hk. cbn [fst] in Hk.
    pose proof (final_value_in pairs k v Hin Hk) as Hf.
    destruct (final_value pairs k); [reflexivity | contradiction].
Qed.

End ReloadFacts.

(** X8.  Loading the same data a second time changes nothing: on a store
    in good order, a call of [load_conversations] that returns a count and a
    store returns the same count and leaves the same store when it is
    repeated on that store with the same data. *)
Theorem load_twice_same_store (self : Loader.t) (data : Loader.pyval) (n : nat)
        (after : Loader.t) :
  store_ok self = true ->
  Loader.load_conversations self data = Ok (n, after) ->
  Loader.load_conversations after data = Ok (n, after).
Proof.
  intros Hs. unfold Loader.load_conversations. cbv zeta.
  destruct (Loader.py_iter (Loader._extract_conversations data)) as [entries|e];
    cbn [bind]; [|discriminate].
  intros H. injection H as <- <-. rewrite !load_loop_pairs. cbn [Loader.conversations_by_id].
  unfold store_ok in Hs. apply andb_prop in Hs. destruct Hs as [Hs _].
  apply andb_prop in Hs. destruct Hs as [H1 H2].
  rewrite assign_twice; auto.
  eapply Forall_impl; [|apply loaded_pairs_keys]. cbv beta. intros kv [H _]. exact H.
Qed.

Lemma load_twice_same_store_witness :
  exists n after,
    Loader.load_conversations Loader.init clash_data = Ok (n, after) /\
    Loader.load_conversations after clash_data = Ok (n, after).
Proof.
  eexists _, _. split; [vm_compute; reflexivity|].
  apply (load_twice_same_store Loader.init clash_data _ _ eq_refl eq_refl).
Defined.

Section DefaultIds.
Import Loader.

Lemma of_nat_inj (i j : nat) : PyStr.of_nat i = PyStr.of_nat j -> i = j.
Proof.
  unfold PyStr.of_nat. intros H.
  apply (f_equal NilEmpty.uint_of_string) in H. rewrite !NilEmpty.usu in H.
  injection H as H. apply (f_equal Nat.of_uint) in H.
  now rewrite !DecimalNat.Unsigned.of_to in H.
Qed.

Lemma default_id_distinct (i j : nat) :
  i <> j -> key_eqb (default_id i) (default_id j) = false.
Proof.
  intros H. unfold default_id. cbn [key_eqb]. apply String.eqb_neq. intros E.
  apply H. apply of_nat_inj. cbn [String.append] in E. now injection E.
Qed.

Lemma mem_default_id_from {V : Type} (d : list (pyval * V)) (a n s : nat) :
  map fst d = map default_id (seq a n) -> a + n <= s ->
  Dict.mem key_eqb d (default_id s) = false.
Proof.
  unfold Dict.mem. revert a n. induction d as [|[k v] d IH]; intros a n H Hs; [reflexivity|].
  destruct n as [|n]; [discriminate|]. cbn [seq map fst] in H. injection H as -> H.
  cbn [Dict.get]. rewrite default_id_distinct by lia.
  apply (IH (S a) n); [exact H | lia].
Qed.

Lemma mem_default_id {V : Type} (d : list (pyval * V)) (s : nat) :
  map fst d = map default_id (seq 0 s) -> Dict.mem key_eqb d (default_id s) = false.
Proof. intros H. apply (mem_default_id_from d 0 s s H). lia. Qed.

Lemma parse_default_id (v : pyval) (idx : nat) :
  well_formed_entry v = true -> lacks_id v = true ->
  exists transcript,
    _parse_conversation v idx = Ok transcript /\ transcript_id transcript = default_id idx.
Proof.
  intros Hw Hl. rewrite <- (entry_ok_spec idx v) in Hw. unfold entry_ok in Hw.
  rewrite load_body_spec in Hw. cbn [fst snd] in Hw.
  destruct v as [| | | |l|d]; try discriminate Hw.
  rewrite parse_conversation_dict in *.
  destruct (py_iter (conversation_value d)) as [items|e]; cbn [bind] in *; [|discriminate Hw].
  destruct (_parse_intent_to_outcome _) as [o|e]; cbn [bind] in *; [|discriminate Hw].
  eexists. split; [reflexivity|]. cbn [transcript_id].
  cbn [lacks_id] in Hl. unfold Dict.mem in Hl. unfold Dict.get_default.
  destruct (Dict.get String.eqb d "transcript_id"); [discriminate Hl | reflexivity].
Qed.

Lemma load_default_keys (entries : list pyval) (start : nat)
      (d : list (pyval * ConversationTranscript)) :
  forallb (fun v => well_formed_entry v && lacks_id v)%bool entries = true ->
  map fst d = map default_id (seq 0 start) ->
  map fst (assign_all (loaded_pairs (combine (seq start (List.length entries)) entries)) d) =
  map default_id (seq 0 (start + List.length entries)).
Proof.
  revert start d. induction entries as [|v entries IH]; intros start d Hall Hd.
  - cbn [List.length]. now rewrite Nat.add_0_r.
  - cbn [forallb] in Hall. apply andb_prop in Hall. destruct Hall as [Hv Hall].
    apply andb_prop in Hv. destruct Hv as [Hw Hl].
    destruct (parse_default_id v start Hw Hl) as (transcript & Hp & Hid).
    cbn [List.length seq combine]. rewrite loaded_pairs_cons, assign_all_app.
    replace (start + S (List.length entries)) with (S start + List.length entries) by lia.
    apply IH; [exact Hall|].
    unfold loaded_pairs. cbn [flat_map fst snd]. rewrite Hp, Hid. cbn [hashable default_id app].
    unfold assign_all. cbn [fold_left fst snd].
    rewrite set_absent by (apply mem_default_id; exact Hd).
    rewrite map_app, Hd, seq_S, map_app. reflexivity.
Qed.

End DefaultIds.

(** X9.  Conversations without a 'transcript_id' are filed under "conv_0",
    "conv_1", ... by their position, and these ids never collide: a list of
    entries that are all well formed and all lack the id loads, into an
    empty store, as exactly as many transcripts as there are entries, in the
    order of the data. *)
Theorem load_default_ids (entries : list Loader.pyval) :
  forallb (fun v => well_formed_entry v && lacks_id v)%bool entries = true ->
  exists after,
    Loader.load_conversations Loader.init (Loader.VList entries) =
      Ok (List.length entries, after) /\
    Dict.keys (Loader.conversations_by_id after) =
      map default_id (seq 0 (List.length entries)).
Proof.
  intros Hall.
  pose proof (load_default_keys entries 0 [] Hall eq_refl) as Hk. cbn [Nat.add] in Hk.
  unfold Loader.load_conversations. cbv zeta.
  cbn [Loader._extract_conversations Loader.py_iter bind].
  rewrite load_loop_pairs. cbn [Loader.conversations_by_id Loader.init].
  exists {| Loader.conversations_by_id :=
              assign_all (loaded_pairs (Loader.enumerate entries)) [] |}.
  split; [|exact Hk].
  cbn [Loader.conversations_by_id]. do 2 f_equal.
  rewrite <- (length_map fst). unfold Loader.enumerate. rewrite Hk.
  now rewrite length_map, length_seq.
Qed.

Lemma load_default_ids_witness :
  exists after,
    Loader.load_conversations Loader.init
      (Loader.VList [ Loader.VDict [("conversation", Loader.VList [Loader.VStr "Hello"])];
                      Loader.VDict [];
                      Loader.VDict [("turns", Loader.VStr "ab"); ("intent", Loader.VStr "Fraud")] ])
    = Ok (3, after) /\
    Dict.keys (Loader.conversations_by_id after) =
      [Loader.VStr "conv_0"; Loader.VStr "conv_1"; Loader.VStr "conv_2"].
Proof.
  apply (load_default_ids
           [ Loader.VDict [("conversation", Loader.VList [Loader.VStr "Hello"])];
             Loader.VDict [];
             Loader.VDict [("turns", Loader.VStr "ab"); ("intent", Loader.VStr "Fraud")] ]).
  reflexivity.
Defined.

Section NothingLoads.
Import Loader.

Lemma filter_entry_ok_none (entries : list pyval) (start : nat) :
  forallb (fun v => negb (well_formed_entry v)) entries = true ->
  filter entry_ok (combine (seq start (List.length entries)) entries) = [].
Proof.
  revert start. induction entries as [|v entries IH]; intros start H; [reflexivity|].
  cbn [forallb] in H. apply andb_prop in H. destruct H as [Hv H].
  cbn [List.length seq combine filter]. rewrite entry_ok_spec.
  destruct (well_formed_entry v); [discriminate Hv|]. now apply IH.
Qed.

End NothingLoads.

(** X10.  Data without a single well-formed entry loads nothing and is
    accepted in silence: [load_conversations] returns the size the store
    had and leaves the store as it was.  So it is when the container is a
    string or an object, whose elements are characters and keys. *)
Theorem load_nothing_well_formed (self : Loader.t) (data : Loader.pyval)
        (entries : list Loader.pyval) :
  Loader.py_iter (Loader._extract_conversations data) = Ok entries ->
  forallb (fun v => negb (well_formed_entry v)) entries = true ->
  Loader.load_conversations self data =
    Ok (List.length (Loader.conversations_by_id self), self).
Proof.
  intros Hi Hall. unfold Loader.load_conversations. cbv zeta. rewrite Hi. cbn [bind].
  rewrite load_loop_skip. unfold Loader.enumerate.
  rewrite (filter_entry_ok_none entries 0 Hall). reflexivity.
Qed.

Lemma load_nothing_well_formed_witness :
  Loader.load_conversations Loader.init
    (Loader.VDict [("transcripts", Loader.VStr "oops")]) = Ok (0, Loader.init).
Proof.
  apply (load_nothing_well_formed Loader.init
           (Loader.VDict [("transcripts", Loader.VStr "oops")])
           [Loader.VStr "o"; Loader.VStr "o"; Loader.VStr "p"; Loader.VStr "s"]);
    reflexivity.
Defined.

(* ================================================================== *)
(** * Retrieval: the ids that come back *)
(* ================================================================== *)

Lemma dict_get_of_key {V : Type} (d : list (string * V)) (k : string) :
  In k (Dict.keys d) -> exists v, Dict.get String.eqb d k = Some v.
Proof.
  unfold Dict.keys. induction d as [|[k' v'] d IH]; cbn [map fst In Dict.get]; [intros []|].
  intros [E|Hin].
  - subst k'. rewrite String.eqb_refl. now exists v'.
  - destruct (String.eqb k' k); [now exists v' | now apply IH].
Qed.

Lemma fold_set_keys {V W : Type} (g : V -> W) (items : list (string * V))
      (acc : list (string * W)) (x : string) :
  In x (map fst (fold_left (fun scores item =>
                              let '(k, v) := item in Dict.set String.eqb scores k (g v))
                           items acc)) ->
  In x (map fst acc) \/ In x (map fst items).
Proof.
  revert acc. induction items as [|[k v] items IH]; intros acc; cbn [fold_left map fst In].
  - auto.
  - intros H. apply IH in H. destruct H as [H|H]; [|auto].
    apply dict_set_keys in H. destruct H as [H|H]; auto.
Qed.

Lemma fold_set_nodup {V W : Type} (g : V -> W) (items : list (string * V))
      (acc : list (string * W)) :
  NoDup (map fst acc) ->
  NoDup (map fst (fold_left (fun scores item =>
                               let '(k, v) := item in Dict.set String.eqb scores k (g v))
                            items acc)).
Proof.
  revert acc. induction items as [|[k v] items IH]; intros acc H; cbn [fold_left]; [exact H|].
  apply IH. now apply dict_set_nodup.
Qed.

Lemma nodup_firstn {A : Type} (n : nat) (l : list A) : NoDup l -> NoDup (firstn n l).
Proof.
  revert n. induction l as [|x l IH]; intros n H; [now rewrite firstn_nil|].
  destruct n as [|n]; cbn [firstn]; [constructor|].
  inversion H as [|? ? Hx Hl]; subst. constructor; [|now apply IH].
  intros Hin. apply Hx. now apply In_firstn in Hin.
Qed.

Lemma nodup_slice_to {A : Type} (l : list A) (k : Z) : NoDup l -> NoDup (slice_to l k).
Proof. unfold slice_to. destruct (0 <=? k)%Z; apply nodup_firstn. Qed.


Lemma nodup_map_filter {A B : Type} (f : A -> B) (P : A -> bool) (l : list A) :
  NoDup (map f l) -> NoDup (map f (filter P l)).
Proof.
  induction l as [|x l IH]; cbn [map filter]; intros H; [constructor|].
  inversion H as [|? ? Hx Hl]; subst.
  destruct (P x); cbn [map]; [|now apply IH].
  constructor; [|now apply IH].
  intros Hin. apply Hx. apply in_map_iff in Hin. destruct Hin as (y & Hy & Hin).
  apply filter_In in Hin. rewrite <- Hy. apply in_map. tauto.
Qed.

Lemma ranked_ids_known (scores : list (string * PyFloat.float)) (top_k : Z)
      (P : string * PyFloat.float -> bool) (tid : string) :
  In tid (map fst (filter P (slice_to (sorted_desc snd scores) top_k))) ->
  In tid (map fst scores).
Proof.
  intros H. apply in_map_iff in H. destruct H as ([k s] & <- & H).
  apply filter_In in H. destruct H as [H _].
  apply In_slice_to, In_sorted_desc in H. now apply (in_map fst) in H.
Qed.

Lemma ranked_ids_nodup (scores : list (string * PyFloat.float)) (top_k : Z)
      (P : string * PyFloat.float -> bool) :
  NoDup (map fst scores) ->
  NoDup (map fst (filter P (slice_to (sorted_desc snd scores) top_k))).
Proof.
  intros H. apply nodup_map_filter. rewrite map_slice_to. apply nodup_slice_to.
  eapply Permutation_NoDup; [|exact H].
  apply Permutation_map. symmetry. apply sorted_desc_perm.
Qed.

Lemma retrieve_keyword_known (self : ConversationRetriever.t) (query : string) (top_k : Z)
      (tid : string) :
  In tid (ConversationRetriever._retrieve_keyword self query top_k) ->
  In tid (Dict.keys (ConversationRetriever.conversations_by_id self)).
Proof.
  unfold ConversationRetriever._retrieve_keyword. cbv zeta.
  destruct (map fst (filter _ (slice_to (sorted_desc snd _) top_k))) as [|r rs] eqn:E.
  - apply In_slice_to.
  - rewrite <- E. intros H. apply ranked_ids_known in H.
    unfold ConversationRetriever.keyword_scores in H.
    apply fold_set_keys in H. destruct H as [[]|H]. exact H.
Qed.

Lemma retrieve_keyword_nodup (self : ConversationRetriever.t) (query : string) (top_k : Z) :
  NoDup (Dict.keys (ConversationRetriever.conversations_by_id self)) ->
  NoDup (ConversationRetriever._retrieve_keyword self query top_k).
Proof.
  intros Hnd. unfold ConversationRetriever._retrieve_keyword. cbv zeta.
  destruct (map fst (filter _ (slice_to (sorted_desc snd _) top_k))) as [|r rs] eqn:E.
  - now apply nodup_slice_to.
  - rewrite <- E. apply ranked_ids_nodup.
    unfold ConversationRetriever.keyword_scores. apply fold_set_nodup. constructor.
Qed.

Section SemanticIds.
Variable encode : string -> exc ConversationRetriever.embedding.
Variable cos_sim :
  ConversationRetriever.embedding -> ConversationRetriever.embedding -> exc PyFloat.float.

Lemma similarity_loop_keys (qe : ConversationRetriever.embedding)
      (items : list (string * ConversationRetriever.embedding))
      (scores scores' : list (string * PyFloat.float)) :
  ConversationRetriever.similarity_loop cos_sim qe items scores = Ok scores' ->
  (forall x, In x (map fst scores') -> In x (map fst scores) \/ In x (map fst items)) /\
  (NoDup (map fst scores) -> NoDup (map fst scores')).
Proof.
  revert scores. induction items as [|[tid emb] items IH]; intros scores H;
    cbn [ConversationRetriever.similarity_loop] in H.
  - injection H as <-. split; auto.
  - destruct (cos_sim qe emb) as [sim|e]; cbn [bind] in H; [|discriminate].
    apply IH in H. destruct H as [H1 H2]. split.
    + intros x Hx. apply H1 in Hx. cbn [map fst In]. destruct Hx as [Hx|Hx]; [|auto].
      apply dict_set_keys in Hx. destruct Hx as [Hx|Hx]; auto.
    + intros Hnd. apply H2. now apply dict_set_nodup.
Qed.

Lemma retrieve_known (self : ConversationRetriever.t) (query : string) (top_k : Z)
      (tid : string) :
  In tid (ConversationRetriever.retrieve encode cos_sim self query top_k) ->
  In tid (Dict.keys (ConversationRetriever.conversations_by_id self)) \/
  In tid (Dict.keys (ConversationRetriever.embeddings self)).
Proof.
  unfold ConversationRetriever.retrieve.
  assert (Hk : In tid (ConversationRetriever._retrieve_keyword self query top_k) ->
               In tid (Dict.keys (ConversationRetriever.conversations_by_id self)) \/
               In tid (Dict.keys (ConversationRetriever.embeddings self)))
    by (intros H; left; now apply retrieve_keyword_known in H).
  destruct (ConversationRetriever.has_embeddings self); [|exact Hk].
  destruct (ConversationRetriever.embeddings self) as [|e es] eqn:Ee; [exact Hk|].
  rewrite <- Ee in Hk |- *. unfold ConversationRetriever._retrieve_semantic.
  destruct (encode query) as [qe|ex]; cbn [bind try_except]; [|exact Hk].
  destruct (ConversationRetriever.similarity_loop cos_sim qe _ []) as [scores|ex] eqn:E;
    cbn [bind try_except]; [|exact Hk].
  intros H. right. apply similarity_loop_keys in E. destruct E as [E _].
  rewrite map_slice_to in H. apply In_slice_to in H.
  apply in_map_iff in H. destruct H as (p & <- & H). apply In_sorted_desc in H.
  apply (in_map fst) in H. apply E in H. destruct H as [[]|H]. exact H.
Qed.

Lemma retrieve_nodup (self : ConversationRetriever.t) (query : string) (top_k : Z) :
  NoDup (Dict.keys (ConversationRetriever.conversations_by_id self)) ->
  NoDup (ConversationRetriever.retrieve encode cos_sim self query top_k).
Proof.
  intros Hnd. unfold ConversationRetriever.retrieve.
  pose proof (retrieve_keyword_nodup self query top_k Hnd) as Hk.
  destruct (ConversationRetriever.has_embeddings self); [|exact Hk].
  destruct (ConversationRetriever.embeddings self) as [|e es] eqn:Ee; [exact Hk|].
  unfold ConversationRetriever._retrieve_semantic.
  destruct (encode query) as [qe|ex]; cbn [bind try_except]; [|exact Hk].
  destruct (ConversationRetriever.similarity_loop cos_sim qe _ []) as [scores|ex] eqn:E;
    cbn [bind try_except]; [|exact Hk].
  apply similarity_loop_keys in E. destruct E as [_ E].
  rewrite map_slice_to. apply nodup_slice_to.
  eapply Permutation_NoDup; [apply Permutation_map; symmetry; apply sorted_desc_perm|].
  apply E. constructor.
Qed.

End SemanticIds.

(** X11.  Keyword retrieval returns ids of the store only, so that
    [get_transcript] finds a transcript for every one of them, whatever
    [top_k] is; and in a store with distinct ids no id comes back twice,
    from keyword retrieval or from retrieval by embeddings. *)
Theorem retrieve_ids_known (encode : string -> exc ConversationRetriever.embedding)
        (cos_sim : ConversationRetriever.embedding -> ConversationRetriever.embedding ->
                   exc PyFloat.float)
        (self : ConversationRetriever.t) (query : string) (top_k : Z) :
  (forall tid,
      In tid (ConversationRetriever._retrieve_keyword self query top_k) ->
      exists transcript, ConversationRetriever.get_transcript self tid = Some transcript) /\
  (NoDup (Dict.keys (ConversationRetriever.conversations_by_id self)) ->
   NoDup (ConversationRetriever._retrieve_keyword self query top_k) /\
   NoDup (ConversationRetriever.retrieve encode cos_sim self query top_k)).
Proof.
  split.
  - intros tid H. apply dict_get_of_key. now apply retrieve_keyword_known in H.
  - intros Hnd. split; [now apply retrieve_keyword_nodup | now apply retrieve_nodup].
Qed.

Lemma retrieve_ids_known_witness :
  (exists transcript,
      ConversationRetriever.get_transcript sample_store "FR-002" = Some transcript) /\
  NoDup (ConversationRetriever.retrieve toy_encode toy_cos_sim embedded_store
           "why did the customer escalate" 2).
Proof.
  split.
  - apply (proj1 (retrieve_ids_known no_encode no_cos_sim sample_store "fraud alert" 1)).
    vm_compute. left. reflexivity.
  - apply (proj2 (retrieve_ids_known toy_encode toy_cos_sim embedded_store
                    "why did the customer escalate" 2)).
    vm_compute. repeat constructor; cbn; intuition discriminate.
Defined.

(* ================================================================== *)
(** * The stores that loading builds, in the declared data model *)
(* ================================================================== *)

Section TypedStore.

Lemma all_some_map {A B : Type} (g : A -> option B) (l : list A) (items : list B) :
  all_some (map g l) = Some items -> Forall2 (fun x y => g x = Some y) l items.
Proof.
  revert items. induction l as [|x l IH]; intros items; cbn [map all_some].
  - intros H. injection H as <-. constructor.
  - destruct (g x) as [y|] eqn:E; [|discriminate].
    destruct (all_some (map g l)) as [ys|]; cbn [option_map]; [|discriminate].
    intros H. injection H as <-. constructor; [exact E | now apply IH].
Qed.

Lemma typed_transcript_id (t : Loader.ConversationTranscript) (t' : ConversationTranscript) :
  typed_transcript t = Some t' -> Loader.transcript_id t = Loader.VStr (transcript_id t').
Proof.
  unfold typed_transcript.
  destruct (Loader.transcript_id t) as [| | |tid| |]; cbn [as_str]; try discriminate.
  destruct (as_str (Loader.domain t)); [|discriminate].
  destruct (all_some _); [|discriminate].
  destruct (typed_metadata _); [|discriminate].
  intros H. injection H as <-. reflexivity.
Qed.

Lemma typed_item (item : Loader.pyval * Loader.ConversationTranscript)
      (tid : string) (t' : ConversationTranscript) :
  match as_str (fst item), typed_transcript (snd item) with
  | Some tid, Some t => Some (tid, t)
  | _, _ => None
  end = Some (tid, t') ->
  fst item = Loader.VStr tid /\ typed_transcript (snd item) = Some t'.
Proof.
  destruct (fst item) as [| | |s| |]; cbn [as_str]; try discriminate.
  destruct (typed_transcript (snd item)); [|discriminate].
  intros H. injection H as <- <-. split; reflexivity.
Qed.

Lemma typed_keys (d : list (Loader.pyval * Loader.ConversationTranscript))
      (items : list (string * ConversationTranscript)) :
  Forall2 (fun x y =>
             match as_str (fst x), typed_transcript (snd x) with
             | Some tid, Some t => Some (tid, t)
             | _, _ => None
             end = Some y) d items ->
  map fst d = map (fun y => Loader.VStr (fst y)) items.
Proof.
  induction 1 as [|x [tid t'] d items Hx _ IH]; [reflexivity|].
  cbn [map fst]. apply typed_item in Hx. destruct Hx as [-> _]. now rewrite IH.
Qed.

Lemma mem_of_key {V : Type} (d : list (Loader.pyval * V)) (tid : string) :
  In (Loader.VStr tid) (map fst d) -> Dict.mem Loader.key_eqb d (Loader.VStr tid) = true.
Proof.
  unfold Dict.mem. induction d as [|[k v] d IH]; cbn [map fst In Dict.get]; [intros []|].
  intros [->|H].
  - cbn [Loader.key_eqb]. now rewrite String.eqb_refl.
  - destruct (Loader.key_eqb k (Loader.VStr tid)); [reflexivity | now apply IH].
Qed.

End TypedStore.

(** A store in good order reads, in the declared data model, as a store
    with distinct ids that holds every transcript under its own id. *)
Lemma typed_conversations_in_order (raw : Loader.t)
      (conversations : list (string * ConversationTranscript)) :
  store_ok raw = true ->
  typed_conversations raw = Some conversations ->
  NoDup (Dict.keys conversations) /\
  forallb (fun kv => String.eqb (fst kv) (transcript_id (snd kv))) conversations = true /\
  List.length conversations = List.length (Loader.conversations_by_id raw).
Proof.
  unfold store_ok, typed_conversations, Dict.keys.
  set (d := Loader.conversations_by_id raw). clearbody d.
  intros Hok E. apply andb_prop in Hok. destruct Hok as [Hok Hfiled].
  apply andb_prop in Hok. destruct Hok as [Hdist _].
  apply all_some_map in E.
  split; [|split].
  - clear Hfiled. induction E as [|x [tid t'] d' items' Hx E IH]; [constructor|].
    destruct x as [k t]. cbn [distinct_keys] in Hdist.
    apply andb_prop in Hdist. destruct Hdist as [Hk Hdist].
    cbn [map fst]. constructor; [|now apply IH].
    intros Hin. apply typed_item in Hx. cbn [fst snd] in Hx. destruct Hx as [-> _].
    rewrite mem_of_key in Hk; [discriminate|].
    rewrite (typed_keys _ _ E). apply in_map_iff in Hin. destruct Hin as (y & Hy & Hin).
    apply in_map_iff. exists y. split; [now rewrite Hy | exact Hin].
  - clear Hdist. induction E as [|x [tid t'] d' items' Hx E IH]; [reflexivity|].
    unfold filed_under_id in Hfiled. cbn [forallb] in Hfiled.
    apply andb_prop in Hfiled. destruct Hfiled as [Hf Hfiled].
    cbn [forallb fst snd]. rewrite (IH Hfiled), Bool.andb_true_r.
    apply typed_item in Hx. destruct Hx as [Hk Ht]. apply typed_transcript_id in Ht.
    rewrite Hk, Ht in Hf. exact Hf.
  - symmetry. eapply Forall2_length. exact E.
Qed.

(** X19.  The stores that loading builds meet what the retrieval theorems
    ask for.  When [load_conversations], from the empty store, returns a
    count and a store that fits the declared data model (every
    [transcript_id] and [domain] a string, every [speaker] and [text] a
    string, every [timestamp] a string or [None], [intent] and
    [reason_for_call] strings, [time_of_interaction] a string or [None]),
    every retriever over the reading of that store has distinct ids, holds
    every transcript under its own id, and holds as many transcripts as the
    count says. *)
Theorem loaded_store_in_order (data : Loader.pyval) (n : nat) (after : Loader.t)
        (retriever : ConversationRetriever.t) :
  Loader.load_conversations Loader.init data = Ok (n, after) ->
  typed_conversations after = Some (ConversationRetriever.conversations_by_id retriever) ->
  NoDup (Dict.keys (ConversationRetriever.conversations_by_id retriever)) /\
  filed_by_id retriever = true /\
  List.length (ConversationRetriever.conversations_by_id retriever) = n.
Proof.
  unfold Loader.load_conversations. cbv zeta.
  destruct (Loader.py_iter (Loader._extract_conversations data)) as [entries|e];
    cbn [bind]; [|discriminate].
  intros H. injection H as <- <-. rewrite load_loop_pairs.
  pose proof (store_ok_assign (loaded_pairs (Loader.enumerate entries)) []
                (loaded_pairs_keys _) eq_refl) as Hok.
  cbn [Loader.conversations_by_id Loader.init]. intros Ht.
  destruct (typed_conversations_in_order _ _ Hok Ht) as (H1 & H2 & H3).
  split; [exact H1|]. split; [exact H2 | exact H3].
Qed.

Lemma loaded_store_in_order_witness :
  exists n after,
    Loader.load_conversations Loader.init create_sample_data = Ok (n, after) /\
    typed_conversations after =
      Some (ConversationRetriever.conversations_by_id embedded_store) /\
    NoDup (Dict.keys (ConversationRetriever.conversations_by_id embedded_store)) /\
    filed_by_id embedded_store = true /\
    n = 2.
Proof.
  eexists _, _. split; [vm_compute; reflexivity|]. split; [vm_compute; reflexivity|].
  destruct (loaded_store_in_order create_sample_data _ _ embedded_store eq_refl eq_refl)
    as (H1 & H2 & _).
  split; [exact H1|]. split; [exact H2 | reflexivity].
Defined.

(* ================================================================== *)
(** * The system: retrieval, lookup and analysis in a row *)
(* ================================================================== *)

Lemma analyze_total (self : CausalAnalyzer.t) (now q : string)
      (transcripts : list ConversationTranscript) (include_history : bool) :
  exists e after,
    CausalAnalyzer.analyze self now q transcripts include_history = Ok (e, after) /\
    query e = q /\
    explanation_timestamp e = now /\
    relevant_transcript_ids e = map transcript_id transcripts /\
    (transcripts = [] -> e = CausalAnalyzer._empty_explanation now q /\ after = self) /\
    (transcripts <> [] ->
     PyFloat.leb PyFloat.c0_6 (confidence e) = true /\
     PyFloat.leb (confidence e) PyFloat.c0_95 = true /\
     (include_history = true ->
      CausalAnalyzer.history after =
        (CausalAnalyzer.history self ++
         [ {| CausalAnalyzer.h_query := q;
              CausalAnalyzer.h_explanation := primary_cause e;
              CausalAnalyzer.h_timestamp := now |} ])%list)).
Proof.
  destruct transcripts as [|first rest].
  - do 2 eexists. split; [reflexivity|].
    split; [reflexivity|]. split; [reflexivity|]. split; [reflexivity|].
    split; [intros _; split; reflexivity|]. intros H. now contradiction H.
  - destruct (analyze_cons self now q first rest include_history) as [cause [_ Ha]].
    do 2 eexists. split; [exact Ha|].
    cbn [query explanation_timestamp relevant_transcript_ids confidence primary_cause].
    split; [reflexivity|]. split; [reflexivity|]. split; [reflexivity|].
    split; [discriminate|]. intros _.
    split; [apply calculate_confidence_range|]. split; [apply calculate_confidence_range|].
    intros ->. reflexivity.
Qed.

Lemma dict_get_filed (d : list (string * ConversationTranscript)) (k : string)
      (transcript : ConversationTranscript) :
  forallb (fun kv => String.eqb (fst kv) (transcript_id (snd kv))) d = true ->
  Dict.get String.eqb d k = Some transcript -> transcript_id transcript = k.
Proof.
  induction d as [|[k' v'] d IH]; cbn [forallb Dict.get fst snd]; [discriminate|].
  intros H. apply andb_prop in H. destruct H as [H1 H2].
  destruct (String.eqb_spec k' k) as [E|E]; [|now apply IH].
  intros Hg. injection Hg as <-. apply String.eqb_eq in H1. congruence.
Qed.

Lemma found_transcripts_ids (retriever : ConversationRetriever.t) (ids : list string) :
  filed_by_id retriever = true ->
  (forall tid, In tid ids ->
     In tid (Dict.keys (ConversationRetriever.conversations_by_id retriever))) ->
  map transcript_id (CausalAnalysisSystem.found_transcripts retriever ids) = ids.
Proof.
  intros Hf. induction ids as [|tid ids IH]; intros Hin; [reflexivity|].
  unfold CausalAnalysisSystem.found_transcripts. cbn [flat_map].
  destruct (dict_get_of_key _ tid (Hin tid (or_introl eq_refl))) as [transcript Hg].
  unfold ConversationRetriever.get_transcript at 1. rewrite Hg. cbn [app map].
  rewrite (dict_get_filed _ _ _ Hf Hg). f_equal.
  apply IH. intros x Hx. apply Hin. now right.
Qed.

Lemma dict_mem_key {V : Type} (d : list (string * V)) (k : string) :
  Dict.mem String.eqb d k = true -> In k (Dict.keys d).
Proof.
  unfold Dict.mem, Dict.keys. induction d as [|[k' v'] d IH]; cbn [Dict.get map fst In];
    [discriminate|].
  destruct (String.eqb_spec k' k); [now left | intros H; right; now apply IH].
Qed.

(** X12.  [process_query] calls [load_data] only on a system that is
    not loaded, and passes on what it raises.  When the loading reports
    failure, the answer is the explanation for no transcript, with
    confidence 0.3, and the system is as [load_data] left it.  When the
    system is loaded, or has just been loaded, and its store fits the
    declared data model, [process_query] does not raise: the answer echoes
    the query, the store and the embeddings are left as they were, and the
    answer is again the explanation for no transcript, with the history
    untouched, exactly when no transcript was found. *)
Theorem process_query_answers
        (encode : string -> exc ConversationRetriever.embedding)
        (cos_sim : ConversationRetriever.embedding -> ConversationRetriever.embedding ->
                   exc PyFloat.float)
        (load_data : CausalAnalysisSystem.t -> exc (bool * CausalAnalysisSystem.t))
        (self : CausalAnalysisSystem.t) (now q : string) (top_k : Z) :
  match (if CausalAnalysisSystem.loaded self then Ok (true, self) else load_data self) with
  | Raise e =>
      CausalAnalysisSystem.process_query encode cos_sim load_data self now q top_k
      = Some (Raise e)
  | Ok (false, after) =>
      CausalAnalysisSystem.process_query encode cos_sim load_data self now q top_k
      = Some (Ok (CausalAnalyzer._empty_explanation now q, after))
  | Ok (true, ready) =>
      forall conversations,
        typed_conversations (CausalAnalysisSystem.retriever ready) = Some conversations ->
        exists e a,
          CausalAnalysisSystem.process_query encode cos_sim load_data self now q top_k
          = Some (Ok (e, {| CausalAnalysisSystem.retriever :=
                              CausalAnalysisSystem.retriever ready;
                            CausalAnalysisSystem.embeddings :=
                              CausalAnalysisSystem.embeddings ready;
                            CausalAnalysisSystem.has_embeddings :=
                              CausalAnalysisSystem.has_embeddings ready;
                            CausalAnalysisSystem.analyzer := a;
                            CausalAnalysisSystem.loaded :=
                              CausalAnalysisSystem.loaded ready |})) /\
          query e = q /\
          (relevant_transcript_ids e = [] <->
           e = CausalAnalyzer._empty_explanation now q /\
           a = CausalAnalysisSystem.analyzer ready)
  end.
Proof.
  unfold CausalAnalysisSystem.process_query.
  destruct (if CausalAnalysisSystem.loaded self then Ok (true, self) else load_data self)
    as [[[|] ready]|e]; try reflexivity.
  intros conversations Ht. rewrite Ht. cbv zeta.
  set (ts := CausalAnalysisSystem.found_transcripts _ _).
  destruct (analyze_total (CausalAnalysisSystem.analyzer ready) now q ts true)
    as (e & a & Ha & Hq & _ & Hids & Hnil & Hcons).
  rewrite Ha. cbn [bind fst snd]. exists e, a. split; [reflexivity|]. split; [exact Hq|].
  split.
  - intros H. apply Hnil. rewrite Hids in H. now apply map_eq_nil in H.
  - intros [-> _]. reflexivity.
Qed.

Lemma process_query_answers_witness :
  CausalAnalysisSystem.process_query no_encode no_cos_sim
    (fun self => Ok (false, self)) (CausalAnalysisSystem.init false)
    "2026-01-01T00:00:00" "Why did the customer escalate?" 3
  = Some (Ok (CausalAnalyzer._empty_explanation "2026-01-01T00:00:00"
                "Why did the customer escalate?",
              CausalAnalysisSystem.init false)) /\
  exists e a,
    CausalAnalysisSystem.process_query no_encode no_cos_sim no_load_data sample_system
      "2026-01-01T00:00:00" "Why did the customer escalate?" 3
    = Some (Ok (e, {| CausalAnalysisSystem.retriever := loaded_sample;
                      CausalAnalysisSystem.embeddings := [];
                      CausalAnalysisSystem.has_embeddings := false;
                      CausalAnalysisSystem.analyzer := a;
                      CausalAnalysisSystem.loaded := true |})) /\
    query e = "Why did the customer escalate?".
Proof.
  split.
  - exact (process_query_answers no_encode no_cos_sim (fun self => Ok (false, self))
             (CausalAnalysisSystem.init false)
             "2026-01-01T00:00:00" "Why did the customer escalate?" 3).
  - destruct (process_query_answers no_encode no_cos_sim no_load_data sample_system
                "2026-01-01T00:00:00" "Why did the customer escalate?" 3
                (ConversationRetriever.conversations_by_id sample_store) eq_refl)
      as (e & a & H & Hq & _).
    exists e, a. split; [exact H | exact Hq].
Defined.

(** X13.  On a loaded system whose store is in good order, as loading
    leaves it (distinct ids that can be hashed, every transcript under its
    own id), fits the declared data model (every [transcript_id], [domain],
    [speaker], [text], [intent] and [reason_for_call] a string, every
    [timestamp] and [time_of_interaction] a string or [None]), and holds
    embeddings of stored transcripts only, [process_query] returns, and the
    transcript ids of its answer are exactly the ids that [retrieve] gives
    on that store, in that order.  With a store that is not empty and
    [top_k] at least 1 there is at least one of them and at most [top_k],
    the confidence lies between 0.6 and 0.95, and the history of the
    analyzer has one entry more, for this query. *)
Theorem process_query_loaded
        (encode : string -> exc ConversationRetriever.embedding)
        (cos_sim : ConversationRetriever.embedding -> ConversationRetriever.embedding ->
                   exc PyFloat.float)
        (load_data : CausalAnalysisSystem.t -> exc (bool * CausalAnalysisSystem.t))
        (self : CausalAnalysisSystem.t)
        (conversations : list (string * ConversationTranscript))
        (now query : string) (top_k : Z) :
  CausalAnalysisSystem.loaded self = true ->
  store_ok (CausalAnalysisSystem.retriever self) = true ->
  typed_conversations (CausalAnalysisSystem.retriever self) = Some conversations ->
  embeddings_known (CausalAnalysisSystem.view self conversations) = true ->
  exists e a,
    CausalAnalysisSystem.process_query encode cos_sim load_data self now query top_k
    = Some (Ok (e, {| CausalAnalysisSystem.retriever := CausalAnalysisSystem.retriever self;
                      CausalAnalysisSystem.embeddings := CausalAnalysisSystem.embeddings self;
                      CausalAnalysisSystem.has_embeddings :=
                        CausalAnalysisSystem.has_embeddings self;
                      CausalAnalysisSystem.analyzer := a;
                      CausalAnalysisSystem.loaded := true |})) /\
    relevant_transcript_ids e =
      ConversationRetriever.retrieve encode cos_sim
        (CausalAnalysisSystem.view self conversations) query top_k /\
    ((1 <= top_k)%Z ->
     conversations <> [] ->
     1 <= List.length (relevant_transcript_ids e) <= Z.to_nat top_k /\
     PyFloat.leb PyFloat.c0_6 (confidence e) = true /\
     PyFloat.leb (confidence e) PyFloat.c0_95 = true /\
     CausalAnalyzer.history a =
       (CausalAnalyzer.history (CausalAnalysisSystem.analyzer self) ++
        [ {| CausalAnalyzer.h_query := query;
             CausalAnalyzer.h_explanation := primary_cause e;
             CausalAnalyzer.h_timestamp := now |} ])%list).
Proof.
  intros Hl Hok Ht He. unfold CausalAnalysisSystem.process_query. rewrite Hl, Ht. cbv zeta.
  set (r := CausalAnalysisSystem.view self conversations) in *.
  destruct (typed_conversations_in_order _ _ Hok Ht) as (_ & Hf & _).
  set (ids := ConversationRetriever.retrieve encode cos_sim r query top_k).
  assert (Hids : map transcript_id (CausalAnalysisSystem.found_transcripts r ids) = ids).
  { apply found_transcripts_ids; [exact Hf|]. intros tid Hin.
    apply retrieve_known in Hin. destruct Hin as [Hin|Hin]; [exact Hin|].
    unfold embeddings_known in He. rewrite forallb_forall in He.
    apply dict_mem_key. now apply He. }
  set (ts := CausalAnalysisSystem.found_transcripts r ids) in *.
  destruct (analyze_total (CausalAnalysisSystem.analyzer self) now query ts true)
    as (e & a & Ha & _ & _ & Hrel & _ & Hcons).
  rewrite Ha. cbn [bind fst snd]. exists e, a. split; [now rewrite Hl|].
  rewrite Hrel, Hids. split; [reflexivity|].
  intros Hk Hne.
  destruct (retrieve_length encode cos_sim r query top_k Hk) as [Hlen Hnil].
  specialize (Hnil Hne). fold ids in Hlen, Hnil.
  assert (Hts : ts <> []) by (intros E; apply Hnil; rewrite <- Hids, E; reflexivity).
  destruct (Hcons Hts) as (H1 & H2 & H3).
  split; [|split; [exact H1 | split; [exact H2 | now apply H3]]].
  split; [|exact Hlen]. destruct ids; [contradiction | cbn [List.length]; lia].
Qed.

Lemma process_query_loaded_witness :
  exists e a,
    CausalAnalysisSystem.process_query no_encode no_cos_sim no_load_data sample_system
      "2026-01-01T00:00:00" "Why did the customer escalate?" 3
    = Some (Ok (e, {| CausalAnalysisSystem.retriever := loaded_sample;
                      CausalAnalysisSystem.embeddings := [];
                      CausalAnalysisSystem.has_embeddings := false;
                      CausalAnalysisSystem.analyzer := a;
                      CausalAnalysisSystem.loaded := true |})) /\
    relevant_transcript_ids e = ["HC-001"; "FR-002"] /\
    List.length (CausalAnalyzer.history a) = 1.
Proof.
  destruct (process_query_loaded no_encode no_cos_sim no_load_data sample_system
              (ConversationRetriever.conversations_by_id sample_store)
              "2026-01-01T00:00:00" "Why did the customer escalate?" 3
              eq_refl eq_refl eq_refl eq_refl) as (e & a & H1 & H2 & H3).
  exists e, a. split; [exact H1|]. split.
  - rewrite H2. vm_compute. reflexivity.
  - destruct H3 as (_ & _ & _ & H); [lia | discriminate |]. rewrite H. reflexivity.
Defined.

(* ================================================================== *)
(** * The analyzer: supporting factors and the dictionary form *)
(* ================================================================== *)

Lemma append_if_spec (cond : bool) (c : string) (causes : list string) :
  CausalAnalyzer.append_if cond c causes = (causes ++ (if cond then [c] else []))%list.
Proof.
  unfold CausalAnalyzer.append_if, list_append. destruct cond; [reflexivity|].
  now rewrite app_nil_r.
Qed.

Lemma map_filter_cons {A B : Type} (f : A -> B) (P : A -> bool) (x : A) (l : list A) :
  map f (filter P (x :: l)) = ((if P x then [f x] else []) ++ map f (filter P l))%list.
Proof. cbn [filter]. destruct (P x); reflexivity. Qed.

Lemma supporting_factors_table (outcome : string) (transcripts : list ConversationTranscript) :
  CausalAnalyzer._extract_supporting_factors outcome transcripts =
  firstn 6 (map snd (filter (checklist_holds (CausalAnalyzer.all_text_lower transcripts))
                            supporting_factor_checklist)).
Proof.
  unfold CausalAnalyzer._extract_supporting_factors. cbv zeta.
  set (text := CausalAnalyzer.all_text_lower transcripts).
  rewrite !append_if_spec. unfold supporting_factor_checklist.
  rewrite !map_filter_cons. cbn [filter map fst snd checklist_holds].
  rewrite app_nil_r, <- !app_assoc. reflexivity.
Qed.

Lemma nodup_checklist : NoDup (map snd supporting_factor_checklist).
Proof.
  assert (E : nodup string_dec (map snd supporting_factor_checklist)
              = map snd supporting_factor_checklist) by (vm_compute; reflexivity).
  rewrite <- E. apply NoDup_nodup.
Qed.

Lemma in_firstn_middle {A : Type} (n : nat) (a b : list A) (x : A) :
  NoDup (a ++ x :: b) -> (In x (firstn n (a ++ x :: b)) <-> List.length a < n).
Proof.
  intros Hnd. rewrite firstn_app. split.
  - intros H. apply in_app_or in H. destruct H as [H|H].
    + apply In_firstn in H. apply NoDup_remove_2 in Hnd.
      exfalso. apply Hnd. apply in_or_app. now left.
    + destruct (n - List.length a) as [|m] eqn:E; [destruct H | lia].
  - intros H. apply in_or_app. right.
    destruct (n - List.length a) as [|m] eqn:E; [lia|]. now left.
Qed.

Lemma nth_error_split_at {A : Type} (l : list A) (i : nat) (x : A) :
  nth_error l i = Some x -> l = (firstn i l ++ x :: skipn (S i) l)%list.
Proof.
  revert i. induction l as [|y l IH]; intros [|i]; cbn [nth_error firstn skipn app];
    try discriminate.
  - intros H. now injection H as ->.
  - intros H. f_equal. now apply IH.
Qed.

(** Where an element of a list with distinct images shows among the first
    [n] images of the elements that pass a test. *)
Lemma in_firstn_filter {A B : Type} (f : A -> B) (P : A -> bool) (n i : nat)
      (l : list A) (x : A) :
  NoDup (map f l) -> nth_error l i = Some x ->
  (In (f x) (firstn n (map f (filter P l))) <->
   P x = true /\ List.length (filter P (firstn i l)) < n).
Proof.
  intros Hnd Hi. pose proof (nth_error_split_at l i x Hi) as Hl.
  set (pre := firstn i l) in *. set (post := skipn (S i) l) in *.
  assert (Hnd' : NoDup (map f (filter P l))) by now apply nodup_map_filter.
  rewrite Hl in Hnd, Hnd' |- *. rewrite filter_app, map_app in Hnd' |- *.
  cbn [filter] in Hnd' |- *. destruct (P x) eqn:Px; cbn [map] in Hnd' |- *.
  - rewrite (in_firstn_middle n _ _ _ Hnd'), length_map. tauto.
  - split; [|intros [H _]; discriminate H].
    intros H. apply In_firstn in H. exfalso.
    rewrite map_app in Hnd. cbn [map] in Hnd. apply NoDup_remove_2 in Hnd. apply Hnd.
    apply in_app_or in H. apply in_or_app.
    destruct H as [H|H]; [left | right]; apply in_map_iff in H;
      destruct H as (y & Hy & H); apply filter_In in H; destruct H as [H _];
      rewrite <- Hy; now apply in_map.
Qed.

(** X14.  The supporting factors are read off a fixed checklist of ten
    tests on the text of the transcripts (the outcome plays no part): the
    factor of a test is reported exactly when the test holds and fewer than
    six earlier tests hold.  So the factors keep the order of the
    checklist, none comes twice, there are at most six, and the first six
    tests are never cut. *)
Theorem supporting_factors_checklist (outcome : string)
        (transcripts : list ConversationTranscript) :
  let text := CausalAnalyzer.all_text_lower transcripts in
  let factors := CausalAnalyzer._extract_supporting_factors outcome transcripts in
  factors = firstn 6 (map snd (filter (checklist_holds text) supporting_factor_checklist)) /\
  List.length factors <= 6 /\
  NoDup factors /\
  (forall other, CausalAnalyzer._extract_supporting_factors other transcripts = factors) /\
  (forall i item,
      nth_error supporting_factor_checklist i = Some item ->
      (In (snd item) factors <->
       checklist_holds text item = true /\
       List.length (filter (checklist_holds text) (firstn i supporting_factor_checklist)) < 6)).
Proof.
  cbv zeta. rewrite supporting_factors_table.
  split; [reflexivity|]. split; [apply firstn_le_length|].
  split; [apply nodup_firstn, nodup_map_filter, nodup_checklist|].
  split; [intros other; apply supporting_factors_table|].
  intros i item Hi. apply in_firstn_filter; [apply nodup_checklist | exact Hi].
Qed.

Lemma supporting_factors_checklist_witness :
  In "Escalation to supervisor requested"
     (CausalAnalyzer._extract_supporting_factors "escalation" [sample_HC_001]) /\
  ~ In "Immediate security action taken"
       (CausalAnalyzer._extract_supporting_factors "escalation" [sample_HC_001]).
Proof.
  destruct (supporting_factors_checklist "escalation" [sample_HC_001])
    as (_ & _ & _ & _ & H).
  split.
  - apply (H 7 ("supervisor", "manager", "Escalation to supervisor requested") eq_refl).
    split; [vm_compute; reflexivity | vm_compute; lia].
  - intros Hin.
    destruct (proj1 (H 9 ("blocked", "reversed", "Immediate security action taken") eq_refl)
                    Hin) as [Hc _].
    vm_compute in Hc. discriminate Hc.
Defined.

Section ToDict.

Lemma map_AStr_inj (a b : list string) : map AStr a = map AStr b -> a = b.
Proof.
  revert b. induction a as [|x a IH]; intros [|y b] H; try discriminate; [reflexivity|].
  cbn [map] in H. injection H as -> H. f_equal. now apply IH.
Qed.

Lemma map_span_inj (a b : list (Z * string)) :
  map (fun span : Z * string =>
         let '(t, s) := span in ADict [("turn_id", AInt t); ("text", AStr s)]) a =
  map (fun span : Z * string =>
         let '(t, s) := span in ADict [("turn_id", AInt t); ("text", AStr s)]) b ->
  a = b.
Proof.
  revert b. induction a as [|[t s] a IH]; intros [|[t' s'] b] H; try discriminate;
    [reflexivity|].
  cbn [map] in H. injection H as -> -> H. f_equal. now apply IH.
Qed.

End ToDict.

(** X15.  [to_dict] loses nothing: two explanations with the same
    dictionary are the same explanation; and the dictionary has the seven
    keys of the output format, in this order. *)
Theorem to_dict_injective (e1 e2 : CausalExplanation) :
  Dict.keys (to_dict e1) =
    ["query"; "primary_cause"; "supporting_factors"; "evidence_spans"; "confidence";
     "relevant_transcript_ids"; "timestamp"] /\
  (to_dict e1 = to_dict e2 -> e1 = e2).
Proof.
  split; [reflexivity|].
  destruct e1, e2. unfold to_dict. cbn [query primary_cause supporting_factors evidence_spans
    confidence relevant_transcript_ids explanation_timestamp].
  intros H. injection H as H1 H2 H3 H4 H5 H6 H7.
  apply map_AStr_inj in H3, H6. apply map_span_inj in H4. now subst.
Qed.

Lemma to_dict_injective_witness :
  CausalAnalyzer._empty_explanation "2026-01-01T00:00:00" "why" =
  {| query := "why";
     primary_cause := "No relevant conversations found for analysis";
     supporting_factors := [];
     evidence_spans := [];
     confidence := PyFloat.c0_3;
     relevant_transcript_ids := [];
     explanation_timestamp := "2026-01-01T00:00:00" |}.
Proof.
  apply (proj2 (to_dict_injective _ _)). reflexivity.
Defined.

(* ================================================================== *)
(** * The pattern analyzer with the table it loads *)
(* ================================================================== *)

Lemma fifths_ltb (a b : nat) :
  a <= 5 -> b <= 5 -> PyFloat.ltb (fifths a) (fifths b) = (a <? b)%nat.
Proof.
  intros Ha Hb.
  do 6 (destruct a as [|a]; [do 6 (destruct b as [|b]; [vm_compute; reflexivity|]); lia|]).
  lia.
Qed.

Lemma count_matches_le (patterns : list Re.regex) (text : string) :
  PatternAnalyzer.count_matches patterns text <= List.length patterns.
Proof. apply filter_length_le. Qed.

Lemma shipped_scores (text : string) :
  PatternAnalyzer.score_loop (PatternAnalyzer.outcome_patterns PatternAnalyzer.init)
                             (PyStr.lower text) [] =
  Ok (map (fun item => (fst item, fifths (snd item))) (shipped_counts text)).
Proof.
  rewrite score_loop_spec.
  - cbn [app]. unfold shipped_counts. rewrite map_map. reflexivity.
  - cbn [map app]. 
    assert (E : nodup string_dec (map fst (PatternAnalyzer.outcome_patterns PatternAnalyzer.init))
              = map fst (PatternAnalyzer.outcome_patterns PatternAnalyzer.init))
      by (vm_compute; reflexivity).
    rewrite <- E. apply NoDup_nodup.
  - intros item Hin. repeat (destruct Hin as [<-|Hin]; [discriminate|]). destruct Hin.
Qed.

Lemma shipped_counts_shape (text : string) :
  exists k1 k2 k3 k4,
    shipped_counts text =
      [("escalation", k1); ("fraud", k2); ("delivery_issue", k3); ("resolution", k4)] /\
    k1 <= 5 /\ k2 <= 5 /\ k3 <= 5 /\ k4 <= 5.
Proof.
  unfold shipped_counts.
  cbn [map PatternAnalyzer.outcome_patterns PatternAnalyzer.init
       PatternAnalyzer._load_outcome_patterns fst snd].
  do 4 eexists. split; [reflexivity|].
  repeat split;
    match goal with
    | |- PatternAnalyzer.count_matches ?p ?t <= 5 => exact (count_matches_le p t)
    end.
Qed.

(** X16.  With the table that [PatternAnalyzer()] loads, [classify_outcome]
    never raises and never answers "unknown": it returns the first of
    escalation, fraud, delivery_issue, resolution that has the most
    matching patterns (every category before it has strictly fewer, every
    category behind it at most as many), with the score [k / 5] for its
    number [k] of matching patterns, at most 5.  A text that matches no
    pattern at all is classified as escalation, with score 0. *)
Theorem classify_outcome_shipped_table (text : string) :
  exists category k,
    PatternAnalyzer.classify_outcome PatternAnalyzer.init text = Ok (category, fifths k) /\
    (exists before after,
        shipped_counts text = (before ++ (category, k) :: after)%list /\
        (forall c n, In (c, n) before -> n < k) /\
        (forall c n, In (c, n) after -> n <= k)) /\
    map fst (shipped_counts text) = ["escalation"; "fraud"; "delivery_issue"; "resolution"] /\
    In (category, k) (shipped_counts text) /\
    (forall c n, In (c, n) (shipped_counts text) -> n <= k) /\
    k <= 5 /\
    (k = 0 -> category = "escalation").
Proof.
  unfold PatternAnalyzer.classify_outcome. cbv zeta. rewrite shipped_scores.
  destruct (shipped_counts_shape text) as (k1 & k2 & k3 & k4 & -> & H1 & H2 & H3 & H4).
  cbn [map fst snd bind].
  repeat (cbn [PatternAnalyzer.max_by_score fst snd];
          match goal with
          | |- context [PyFloat.ltb (fifths ?a) (fifths ?b)] =>
              rewrite (fifths_ltb a b) by assumption; destruct (a <? b)%nat eqn:?
          end);
    cbn [PatternAnalyzer.max_by_score];
    rewrite ?Nat.ltb_lt, ?Nat.ltb_ge in *;
    eexists _, _; (split; [reflexivity|]);
    (split;
     [ match goal with
       | |- exists before after, ?l = _ /\ _ =>
           first [ exists (firstn 0 l), (skipn 1 l); split; [reflexivity|]
                 | exists (firstn 1 l), (skipn 2 l); split; [reflexivity|]
                 | exists (firstn 2 l), (skipn 3 l); split; [reflexivity|]
                 | exists (firstn 3 l), (skipn 4 l); split; [reflexivity|] ]
       end;
       cbn [firstn skipn];
       split; intros c n Hin; cbn [In] in Hin;
       repeat (destruct Hin as [Hin|Hin]; [injection Hin as <- <-; lia|]);
       destruct Hin
     | ]);
    (split; [reflexivity|]);
    (split; [cbn [In]; tauto|]);
    (split; [intros c n Hin; cbn [In] in Hin;
             repeat (destruct Hin as [Hin|Hin]; [injection Hin as <- <-; lia|]);
             destruct Hin|]);
    (split; [assumption|]); intros; try reflexivity; exfalso; lia.
Qed.

Lemma classify_outcome_shipped_table_witness :
  PatternAnalyzer.classify_outcome PatternAnalyzer.init "Good morning" =
    Ok ("escalation", PyFloat.zero) /\
  PatternAnalyzer.classify_outcome PatternAnalyzer.init
    "There was a fraud alert, so I want to file a complaint" =
    Ok ("escalation", fifths 1).
Proof.
  split.
  - destruct (classify_outcome_shipped_table "Good morning")
      as (c & k & H & _ & _ & Hin & _ & _ & H0).
    assert (Hk : k = 0).
    { vm_compute in Hin. repeat (destruct Hin as [Hin|Hin]; [now injection Hin|]).
      destruct Hin. }
    rewrite H, (H0 Hk), Hk. reflexivity.
  - destruct (classify_outcome_shipped_table
                "There was a fraud alert, so I want to file a complaint")
      as (c & k & H & (before & after & Hs & Hb & _) & _).
    rewrite H. vm_compute in Hs.
    destruct before as [|[c0 n0] before]; cbn [app] in Hs.
    + injection Hs as <- <- _. reflexivity.
    + exfalso. injection Hs as <- <- Hs.
      assert (Hk : 1 < k) by (apply (Hb "escalation" 1); left; reflexivity).
      destruct before as [|[c1 n1] before]; cbn [app] in Hs.
      * injection Hs as _ <- _. lia.
      * injection Hs as _ _ Hs.
        destruct before as [|[c2 n2] before]; cbn [app] in Hs.
        -- injection Hs as _ <- _. lia.
        -- injection Hs as _ _ Hs.
           destruct before as [|[c3 n3] before]; cbn [app] in Hs.
           ++ injection Hs as _ <- _. lia.
           ++ injection Hs as _ _ Hs. destruct before; discriminate Hs.
Defined.

Lemma factor_of_prefix (category text_lower : string) (entry : Re.regex * string) (f : string) :
  In f (Spec.factor_of category text_lower entry) ->
  PyStr.startswith (PyStr.title category ++ ": ") f = true.
Proof.
  unfold Spec.factor_of. destruct (Re.search (fst entry) text_lower) as [m|]; [|intros []].
  intros [<-|[]]. apply startswith_spec. eexists. rewrite append_assoc. reflexivity.
Qed.

Lemma category_factors (category text_lower : string) (patterns : list (Re.regex * string)) :
  List.length (flat_map (Spec.factor_of category text_lower) patterns) <= List.length patterns /\
  Forall (fun f => PyStr.startswith (PyStr.title category ++ ": ") f = true)
         (flat_map (Spec.factor_of category text_lower) patterns).
Proof.
  split.
  - induction patterns as [|entry patterns IH]; cbn [flat_map List.length]; [lia|].
    rewrite length_app. unfold Spec.factor_of at 1.
    destruct (Re.search (fst entry) text_lower); cbn [List.length]; lia.
  - rewrite Forall_forall. intros f Hin. apply in_flat_map in Hin.
    destruct Hin as (entry & _ & Hin). now apply factor_of_prefix in Hin.
Qed.

(** X17.  With the table that [PatternAnalyzer()] loads,
    [extract_causal_factors] lists temporal factors first, then repetition,
    emotional and technical ones: at most 5, 4, 4 and 4 of them, each
    behind the name of its category, capitalised, and a colon. *)
Theorem causal_factors_shipped_table (text : string) :
  exists temporal repetition emotional technical,
    PatternAnalyzer.extract_causal_factors PatternAnalyzer.init text =
      (temporal ++ repetition ++ emotional ++ technical)%list /\
    (List.length temporal <= 5 /\
     Forall (fun f => PyStr.startswith "Temporal: " f = true) temporal) /\
    (List.length repetition <= 4 /\
     Forall (fun f => PyStr.startswith "Repetition: " f = true) repetition) /\
    (List.length emotional <= 4 /\
     Forall (fun f => PyStr.startswith "Emotional: " f = true) emotional) /\
    (List.length technical <= 4 /\
     Forall (fun f => PyStr.startswith "Technical: " f = true) technical).
Proof.
  unfold PatternAnalyzer.extract_causal_factors. cbv zeta. rewrite category_loop_spec.
  assert (Ht : exists p1 p2 p3 p4,
             PatternAnalyzer.causal_patterns PatternAnalyzer.init =
               [("temporal", p1); ("repetition", p2); ("emotional", p3); ("technical", p4)] /\
             List.length p1 = 5 /\ List.length p2 = 4 /\
             List.length p3 = 4 /\ List.length p4 = 4)
    by (do 4 eexists; split; [reflexivity | repeat split; reflexivity]).
  destruct Ht as (p1 & p2 & p3 & p4 & -> & L1 & L2 & L3 & L4).
  cbn [app flat_map fst snd]. rewrite app_nil_r.
  do 4 eexists. split; [reflexivity|].
  rewrite <- L1 at 1. rewrite <- L2 at 1. rewrite <- L3 at 1. rewrite <- L4.
  repeat split;
    match goal with
    | |- List.length (flat_map (Spec.factor_of ?c ?t) ?ps) <= _ =>
        exact (proj1 (category_factors c t ps))
    | |- Forall _ (flat_map (Spec.factor_of ?c ?t) ?ps) =>
        exact (proj2 (category_factors c t ps))
    end.
Qed.

Lemma causal_factors_shipped_table_witness :
  exists temporal repetition emotional technical,
    PatternAnalyzer.extract_causal_factors PatternAnalyzer.init
      "I was very frustrated: error code 3309 for 3 weeks" =
      (temporal ++ repetition ++ emotional ++ technical)%list /\
    List.length temporal <= 5 /\ List.length technical <= 4.
Proof.
  destruct (causal_factors_shipped_table "I was very frustrated: error code 3309 for 3 weeks")
    as (a & b & c & d & H & [Ha _] & _ & _ & [Hd _]).
  exists a, b, c, d. split; [exact H|]. split; [exact Ha | exact Hd].
Defined.

(* ================================================================== *)
(** * Retrieval: the ranking *)
(* ================================================================== *)

(** X18.  Keyword retrieval ranks by score.  In a store with distinct ids,
    either the result is the fallback, the first [top_k] ids of the store,
    or every returned id has a positive score and no returned id has a
    lower score than a later one. *)
Theorem retrieve_keyword_ranked (self : ConversationRetriever.t) (query : string)
        (top_k : Z) :
  NoDup (Dict.keys (ConversationRetriever.conversations_by_id self)) ->
  (Z.of_nat (List.length (filter (fun w => (2 <? PyStr.len w)%nat)
                                 (PyStr.split (PyStr.lower query)))) < 2 ^ 53)%Z ->
  ConversationRetriever._retrieve_keyword self query top_k =
    slice_to (Dict.keys (ConversationRetriever.conversations_by_id self)) top_k \/
  (Forall (fun tid => PyFloat.ltb PyFloat.zero (score_of self query tid) = true)
          (ConversationRetriever._retrieve_keyword self query top_k) /\
   descending (score_of self query)
              (ConversationRetriever._retrieve_keyword self query top_k)).
Proof.
  intros Hnd Hw. pose proof (keyword_ranking_descending self query top_k Hnd Hw) as Hd.
  unfold ConversationRetriever._retrieve_keyword. cbv zeta.
  set (ranked := filter _ (slice_to (sorted_desc snd _) top_k)) in *.
  assert (Hin : forall p, In p ranked ->
                          snd p = score_of self query (fst p) /\
                          PyFloat.ltb PyFloat.zero (snd p) = true).
  { intros p Hp. apply filter_In in Hp. destruct Hp as [Hp Hpos]. split; [|exact Hpos].
    apply In_slice_to, In_sorted_desc in Hp. now apply keyword_scores_score_of. }
  destruct (map fst ranked) as [|r rs] eqn:E; [now left|]. right. rewrite <- E. split.
  - rewrite Forall_forall. intros tid Ht. apply in_map_iff in Ht.
    destruct Ht as (p & <- & Hp). destruct (Hin p Hp) as [<- Hpos]. exact Hpos.
  - apply (descending_map snd); [|exact Hd]. intros p Hp. now apply Hin.
Qed.

Lemma retrieve_keyword_ranked_witness :
  ConversationRetriever._retrieve_keyword twin_store "delivery" 2 = ["T-2"; "T-1"] /\
  descending (score_of twin_store "fraud alert")
             (ConversationRetriever._retrieve_keyword twin_store "fraud alert" 3).
Proof.
  assert (H : NoDup (Dict.keys (ConversationRetriever.conversations_by_id twin_store)))
    by (repeat constructor; simpl; intuition discriminate).
  split.
  - destruct (retrieve_keyword_ranked twin_store "delivery" 2 H) as [E|[E _]].
    + vm_compute. reflexivity.
    + rewrite E. reflexivity.
    + exfalso. rewrite Forall_forall in E.
      assert (Hin : In "T-2" (ConversationRetriever._retrieve_keyword twin_store "delivery" 2))
        by (vm_compute; left; reflexivity).
      apply E in Hin. vm_compute in Hin. discriminate Hin.
  - destruct (retrieve_keyword_ranked twin_store "fraud alert" 3 H) as [E|[_ E]].
    + vm_compute. reflexivity.
    + exfalso. vm_compute in E. discriminate E.
    + exact E.
Defined.


(* ================================================================== *)
(** * Retrieval by embeddings *)
(* ================================================================== *)

Section NumberOrder.
Import PyFloat FloatFacts.

(** On numbers, [<] is the strict part of a total preorder. *)
Lemma ltb_neg_trans_number (x y z : float) :
  is_number x = true -> is_number y = true -> is_number z = true ->
  ltb x y = false -> ltb y z = false -> ltb x z = false.
Proof.
  unfold ltb, SFltb.
  float_cases x; simpl; try discriminate; float_cases y; simpl; try discriminate;
    float_cases z; simpl; try discriminate; try reflexivity;
    intros _ _ _; rewrite ?compare_finite_pos, ?compare_finite_neg; intros; cmp_cases.
Qed.

Context {A : Type}.
Variable key : A -> float.

Lemma insert_desc_descending_number (x : A) (l : list A) :
  is_number (key x) = true ->
  Forall (fun y => is_number (key y) = true) l ->
  descending key l -> descending key (insert_desc key x l).
Proof.
  intros Hx Hl Hs. induction Hs as [|y l Hs IH Hy]; cbn [insert_desc].
  - repeat constructor.
  - inversion Hl as [|? ? Hny Hl']; subst.
    destruct (ltb (key x) (key y)) eqn:E.
    + constructor; [now apply IH|].
      rewrite (Forall_forall _ _). intros z Hz.
      apply In_insert_desc in Hz. destruct Hz as [->|Hz].
      * now apply ltb_asym.
      * rewrite Forall_forall in Hy. now apply Hy.
    + constructor; [now constructor|].
      constructor; [exact E|].
      rewrite Forall_forall in *. intros z Hz.
      apply (ltb_neg_trans_number _ (key y)); auto.
Qed.

Lemma sorted_desc_descending_number (l : list A) :
  Forall (fun y => is_number (key y) = true) l -> descending key (sorted_desc key l).
Proof.
  induction l as [|x l IH]; intros Hl; cbn [sorted_desc fold_right]; [constructor|].
  fold (sorted_desc key l). inversion Hl as [|? ? Hx Hl']; subst.
  apply insert_desc_descending_number; auto.
  rewrite Forall_forall in *. intros y Hy. apply Hl'. now apply In_sorted_desc in Hy.
Qed.

End NumberOrder.


Section SemanticRanking.
Variable encode : string -> exc ConversationRetriever.embedding.
Variable cos_sim :
  ConversationRetriever.embedding -> ConversationRetriever.embedding -> exc PyFloat.float.

Lemma similarity_loop_spec (qe : ConversationRetriever.embedding)
      (items : list (string * ConversationRetriever.embedding))
      (scores : list (string * PyFloat.float)) :
  NoDup (map fst scores ++ map fst items)%list ->
  (forall item, In item items -> exists s, cos_sim qe (snd item) = Ok s) ->
  ConversationRetriever.similarity_loop cos_sim qe items scores =
  Ok (scores ++ map (fun item => (fst item, similarity_value cos_sim qe (snd item))) items)%list.
Proof.
  revert scores. induction items as [|[tid emb] items IH]; intros scores Hnd Hok;
    cbn [ConversationRetriever.similarity_loop map].
  - now rewrite app_nil_r.
  - destruct (Hok (tid, emb) (or_introl eq_refl)) as [s Hs]. cbn [snd] in Hs.
    unfold similarity_value at 1. cbn [fst snd]. rewrite Hs. cbn [bind].
    rewrite dict_set_absent.
    + rewrite IH.
      * now rewrite <- app_assoc.
      * rewrite map_app. cbn [map fst app]. rewrite <- app_assoc. exact Hnd.
      * intros item Hin. apply Hok. now right.
    + cbn [map fst] in Hnd. apply NoDup_remove_2 in Hnd.
      intros Hin. apply Hnd. apply in_or_app. now left.
Qed.

Lemma similarity_loop_raises (qe : ConversationRetriever.embedding)
      (items : list (string * ConversationRetriever.embedding))
      (scores : list (string * PyFloat.float)) :
  (exists item e, In item items /\ cos_sim qe (snd item) = Raise e) ->
  exists e, ConversationRetriever.similarity_loop cos_sim qe items scores = Raise e.
Proof.
  revert scores. induction items as [|[tid emb] items IH]; intros scores (item & e & Hin & He);
    [destruct Hin|].
  cbn [ConversationRetriever.similarity_loop].
  destruct (cos_sim qe emb) as [s|e'] eqn:E; cbn [bind]; [|now exists e'].
  apply IH. destruct Hin as [<-|Hin]; [cbn [snd] in He; congruence|].
  now exists item, e.
Qed.

Lemma similarity_of_item (qe : ConversationRetriever.embedding)
      (self : ConversationRetriever.t) (item : string * ConversationRetriever.embedding) :
  NoDup (Dict.keys (ConversationRetriever.embeddings self)) ->
  In item (ConversationRetriever.embeddings self) ->
  similarity_of cos_sim qe self (fst item) = similarity_value cos_sim qe (snd item).
Proof.
  intros Hnd Hin. unfold similarity_of. destruct item as [tid emb]. cbn [fst snd].
  now rewrite (dict_get_in _ tid emb Hnd Hin).
Qed.

Lemma retrieve_semantic_path (self : ConversationRetriever.t) (query : string) (top_k : Z) :
  ConversationRetriever.has_embeddings self = true ->
  ConversationRetriever.embeddings self <> [] ->
  ConversationRetriever.retrieve encode cos_sim self query top_k =
  ConversationRetriever._retrieve_semantic encode cos_sim self query top_k.
Proof.
  intros Hh He. unfold ConversationRetriever.retrieve. rewrite Hh.
  destruct (ConversationRetriever.embeddings self); [contradiction | reflexivity].
Qed.

End SemanticRanking.

(** X20.  Retrieval by embeddings, on a retriever that has embeddings,
    with distinct ids.  When the backend raises, on the query or on any
    stored embedding, the answer is that of keyword retrieval.  When it
    answers every call with a number (no NaN), the answer is the first
    [top_k] of the embedded ids in the order of decreasing similarity, ids
    of equal similarity in insertion order, and no returned id has a lower
    similarity than a later one. *)
Theorem retrieve_semantic_ranked
        (encode : string -> exc ConversationRetriever.embedding)
        (cos_sim : ConversationRetriever.embedding -> ConversationRetriever.embedding ->
                   exc PyFloat.float)
        (self : ConversationRetriever.t) (query : string) (top_k : Z) :
  ConversationRetriever.has_embeddings self = true ->
  ConversationRetriever.embeddings self <> [] ->
  NoDup (Dict.keys (ConversationRetriever.embeddings self)) ->
  match encode query with
  | Raise _ =>
      ConversationRetriever.retrieve encode cos_sim self query top_k =
      ConversationRetriever._retrieve_keyword self query top_k
  | Ok qe =>
      ((exists item e,
           In item (ConversationRetriever.embeddings self) /\
           cos_sim qe (snd item) = Raise e) ->
       ConversationRetriever.retrieve encode cos_sim self query top_k =
       ConversationRetriever._retrieve_keyword self query top_k) /\
      ((forall item, In item (ConversationRetriever.embeddings self) ->
                     exists s, cos_sim qe (snd item) = Ok s /\ is_number s = true) ->
       ConversationRetriever.retrieve encode cos_sim self query top_k =
         slice_to (sorted_desc (similarity_of cos_sim qe self)
                               (Dict.keys (ConversationRetriever.embeddings self)))
                  top_k /\
       descending (similarity_of cos_sim qe self)
                  (ConversationRetriever.retrieve encode cos_sim self query top_k))
  end.
Proof.
  intros Hh He Hnd. rewrite (retrieve_semantic_path encode cos_sim self query top_k Hh He).
  unfold ConversationRetriever._retrieve_semantic.
  destruct (encode query) as [qe|e]; cbn [bind try_except]; [|reflexivity].
  split.
  - intros Hr. destruct (similarity_loop_raises cos_sim qe _ [] Hr) as [e ->]. reflexivity.
  - intros Hnum.
    assert (Hok : forall item, In item (ConversationRetriever.embeddings self) ->
                               exists s, cos_sim qe (snd item) = Ok s)
      by (intros item Hin; destruct (Hnum item Hin) as (s & Hs & _); now exists s).
    rewrite (similarity_loop_spec cos_sim qe _ [] Hnd Hok).
    cbn [app bind try_except].
    set (scores := map _ (ConversationRetriever.embeddings self)).
    assert (Hkey : forall p, In p scores -> snd p = similarity_of cos_sim qe self (fst p)).
    { intros p Hp. apply in_map_iff in Hp. destruct Hp as (item & <- & Hin). cbn [fst snd].
      symmetry. now apply similarity_of_item. }
    split.
    + rewrite map_slice_to, (sorted_desc_map snd (similarity_of cos_sim qe self) fst _ Hkey).
      unfold scores, Dict.keys. rewrite map_map. reflexivity.
    + apply (descending_map snd).
      * intros p Hp. apply Hkey. now apply In_slice_to, In_sorted_desc in Hp.
      * apply descending_slice, sorted_desc_descending_number.
        rewrite Forall_forall. intros p Hp. apply in_map_iff in Hp.
        destruct Hp as (item & <- & Hin). cbn [snd].
        destruct (Hnum item Hin) as (s & Hs & Hn). unfold similarity_value. now rewrite Hs.
Qed.

Lemma retrieve_semantic_ranked_witness :
  ConversationRetriever.retrieve toy_encode negating_cos_sim embedded_store "any question" 1
  = ["HC-001"] /\
  ConversationRetriever.retrieve no_encode no_cos_sim embedded_store "fraud alert" 1
  = ConversationRetriever._retrieve_keyword embedded_store "fraud alert" 1.
Proof.
  assert (Hnd : NoDup (Dict.keys (ConversationRetriever.embeddings embedded_store)))
    by (repeat constructor; simpl; intuition discriminate).
  split.
  - destruct (retrieve_semantic_ranked toy_encode negating_cos_sim embedded_store
                "any question" 1 eq_refl ltac:(discriminate) Hnd) as [_ H].
    destruct H as [-> _]; [|reflexivity].
    intros item Hin. eexists. split; [reflexivity|].
    destruct Hin as [<-|[<-|[]]]; reflexivity.
  - exact (retrieve_semantic_ranked no_encode no_cos_sim embedded_store
             "fraud alert" 1 eq_refl ltac:(discriminate) Hnd).
Defined.

(* ================================================================== *)
(** * Keyword retrieval on queries of short words *)
(* ================================================================== *)

Section SplitFacts.
Import PyStr.

Lemma rev_string_length (acc s : string) :
  String.length (rev_string acc s) = String.length acc + String.length s.
Proof.
  revert acc. induction s as [|c s IH]; intros acc; cbn [rev_string String.length]; [lia|].
  rewrite IH. cbn [String.length]. lia.
Qed.

(** A run that has begun ends as a word at least as long. *)
Lemma split_go_run (s cur : string) :
  cur <> EmptyString ->
  exists w, In w (split_go s cur) /\ String.length cur <= String.length w.
Proof.
  revert cur. induction s as [|c s IH]; intros cur Hcur; cbn [split_go].
  - destruct cur as [|a cur]; [contradiction|]. cbn [flush].
    eexists. split; [left; reflexivity|]. rewrite rev_string_length. cbn [String.length]. lia.
  - destruct (isspace c).
    + destruct cur as [|a cur]; [contradiction|]. cbn [flush].
      eexists. split; [left; reflexivity|]. rewrite rev_string_length. cbn [String.length]. lia.
    + destruct (IH (String c cur)) as (w & Hin & Hlen); [discriminate|].
      exists w. split; [exact Hin|]. cbn [String.length] in Hlen. lia.
Qed.

Lemma split_go_no_space (x s cur : string) :
  no_space x = true -> split_go (x ++ s) cur = split_go s (rev_string cur x).
Proof.
  revert cur. induction x as [|c x IH]; intros cur Hx; [reflexivity|].
  cbn [no_space] in Hx. apply andb_prop in Hx. destruct Hx as [Hc Hx].
  cbn [String.append split_go rev_string].
  destruct (isspace c); [discriminate Hc|]. now apply IH.
Qed.

Lemma in_flush (cur : string) (out : list string) (w : string) :
  In w out -> In w (flush cur out).
Proof. destruct cur; cbn [flush]; [trivial | now right]. Qed.

(** The words of a suffix, from some state of the current run, are words
    of the whole. *)
Lemma split_go_suffix (a s cur : string) :
  exists cur', forall w, In w (split_go s cur') -> In w (split_go (a ++ s) cur).
Proof.
  revert cur. induction a as [|c a IH]; intros cur.
  - exists cur. trivial.
  - cbn [String.append split_go]. destruct (isspace c).
    + destruct (IH EmptyString) as [cur' H]. exists cur'. intros w Hw.
      apply in_flush. now apply H.
    + destruct (IH (String c cur)) as [cur' H]. exists cur'. exact H.
Qed.

(** A part of a string that has no space lies within one word. *)
Lemma contains_word (sub s : string) :
  sub <> EmptyString -> no_space sub = true -> contains sub s = true ->
  exists w, In w (split s) /\ String.length sub <= String.length w.
Proof.
  intros Hne Hns Hc. apply contains_spec in Hc. destruct Hc as (a & b & ->).
  unfold split. destruct (split_go_suffix a (sub ++ b) EmptyString) as [cur' H].
  destruct (split_go_run b (rev_string cur' sub)) as (w & Hin & Hlen).
  - intros E. apply (f_equal String.length) in E. rewrite rev_string_length in E.
    destruct sub; [contradiction | cbn [String.length] in E; lia].
  - exists w. split.
    + apply H. now rewrite split_go_no_space.
    + rewrite rev_string_length in Hlen. lia.
Qed.

End SplitFacts.

Lemma short_words_contain_nothing (sub query_lower : string) :
  forallb (fun w => (PyStr.len w <=? 2)%nat) (PyStr.split query_lower) = true ->
  sub <> EmptyString -> no_space sub = true -> 3 <= String.length sub ->
  PyStr.contains sub query_lower = false.
Proof.
  intros Hall Hne Hns Hlen. destruct (PyStr.contains sub query_lower) eqn:E; [|reflexivity].
  destruct (contains_word sub query_lower Hne Hns E) as (w & Hin & Hw).
  rewrite forallb_forall in Hall. specialize (Hall w Hin).
  apply Nat.leb_le in Hall. unfold PyStr.len in Hall. lia.
Qed.

Lemma short_words_score_zero (query_lower : string) (transcript : ConversationTranscript) :
  forallb (fun w => (PyStr.len w <=? 2)%nat) (PyStr.split query_lower) = true ->
  ConversationRetriever.keyword_score query_lower transcript = PyFloat.zero.
Proof.
  intros Hall. unfold ConversationRetriever.keyword_score. cbv zeta.
  assert (Hw : filter (fun w => (2 <? PyStr.len w)%nat) (PyStr.split query_lower) = []).
  { rewrite forallb_forall in Hall.
    induction (PyStr.split query_lower) as [|w ws IH]; [reflexivity|].
    cbn [filter]. pose proof (Hall w (or_introl eq_refl)) as H. apply Nat.leb_le in H.
    destruct (Nat.ltb_spec 2 (PyStr.len w)); [lia|].
    apply IH. intros x Hx. apply Hall. now right. }
  rewrite Hw.
  rewrite (short_words_contain_nothing "escalat"), (short_words_contain_nothing "fraud"),
    (short_words_contain_nothing "delivery"), (short_words_contain_nothing "error");
    try exact Hall; try discriminate; try reflexivity; cbn [String.length]; lia.
Qed.

Lemma dict_set_values {V : Type} (P : V -> Prop) (d : list (string * V)) (k : string) (v : V) :
  Forall (fun p => P (snd p)) d -> P v ->
  Forall (fun p => P (snd p)) (Dict.set String.eqb d k v).
Proof.
  intros Hd Hv. induction Hd as [|[k' v'] d Hp Hd IH]; cbn [Dict.set].
  - repeat constructor. exact Hv.
  - destruct (String.eqb k' k); constructor; auto.
Qed.

Lemma filter_none {A : Type} (P : A -> bool) (l : list A) :
  (forall x, In x l -> P x = false) -> filter P l = [].
Proof.
  induction l as [|x l IH]; intros H; [reflexivity|].
  cbn [filter]. rewrite (H x (or_introl eq_refl)). apply IH. intros y Hy. apply H. now right.
Qed.

(** X21.  A query without a word of three or more characters (the empty
    query among them) is answered without a look at what the transcripts
    say: every score is 0, and keyword retrieval falls back to the first
    [top_k] ids of the store. *)
Theorem retrieve_keyword_short_words (self : ConversationRetriever.t) (query : string)
        (top_k : Z) :
  forallb (fun w => (PyStr.len w <=? 2)%nat) (PyStr.split (PyStr.lower query)) = true ->
  (forall transcript,
      ConversationRetriever.keyword_score (PyStr.lower query) transcript = PyFloat.zero) /\
  ConversationRetriever._retrieve_keyword self query top_k =
    slice_to (Dict.keys (ConversationRetriever.conversations_by_id self)) top_k.
Proof.
  intros Hall. split; [intros t; now apply short_words_score_zero|].
  unfold ConversationRetriever._retrieve_keyword. cbv zeta.
  rewrite filter_none; [reflexivity|].
  intros p Hp. apply In_slice_to, In_sorted_desc in Hp.
  assert (Hz : Forall (fun p => snd p = PyFloat.zero)
                      (ConversationRetriever.keyword_scores self (PyStr.lower query))).
  { unfold ConversationRetriever.keyword_scores.
    generalize (@nil (string * PyFloat.float)) (@Forall_nil (string * PyFloat.float)
                  (fun p => snd p = PyFloat.zero)).
    induction (ConversationRetriever.conversations_by_id self) as [|[tid t] items IH];
      intros acc Hacc; cbn [fold_left]; [exact Hacc|].
    apply IH. apply (dict_set_values (fun v => v = PyFloat.zero)); [exact Hacc|].
    now apply short_words_score_zero. }
  rewrite Forall_forall in Hz. rewrite (Hz p Hp). reflexivity.
Qed.

Lemma retrieve_keyword_short_words_witness :
  ConversationRetriever._retrieve_keyword twin_store "Is it ok ?" 2 = ["T-2"; "T-1"].
Proof.
  apply (proj2 (retrieve_keyword_short_words twin_store "Is it ok ?" 2 eq_refl)).
Defined.

(* ================================================================== *)
(** * The analyzer: the shape of the primary cause *)
(* ================================================================== *)

(** X22.  On a list of transcripts that is not empty the primary cause is
    never empty and never the sentence of the explanation for no
    transcript.  The test for "escalation" in the outcome goes before the
    test for "fraud", and that before the test for "delivery": the cause is
    then the fixed sentence of the branch, or the list of causes behind the
    heading of the branch. *)
Theorem primary_cause_shape (outcome : string) (first : ConversationTranscript)
        (rest : list ConversationTranscript) :
  exists cause,
    CausalAnalyzer._generate_primary_cause outcome (first :: rest) = Ok cause /\
    cause <> "" /\
    cause <> "No relevant conversations found for analysis" /\
    (PyStr.contains "escalation" outcome = true ->
     cause = "Customer requested escalation to supervisor" \/
     PyStr.startswith "Customer escalated due to: " cause = true) /\
    (PyStr.contains "escalation" outcome = false ->
     PyStr.contains "fraud" outcome = true ->
     cause = "Fraudulent transaction identified and addressed" \/
     PyStr.startswith "Fraud detected: " cause = true) /\
    (PyStr.contains "escalation" outcome = false ->
     PyStr.contains "fraud" outcome = false ->
     PyStr.contains "delivery" outcome = true ->
     cause = "Package delivery discrepancy reported" \/
     PyStr.startswith "Delivery issue: " cause = true).
Proof.
  unfold CausalAnalyzer._generate_primary_cause. cbv zeta.
  repeat match goal with
         | |- context [if PyStr.contains ?a outcome then _ else _] =>
             destruct (PyStr.contains a outcome)
         end;
    match goal with
    | |- exists c, match ?x with _ => _ end = Ok c /\ _ =>
        destruct x; eexists; (split; [reflexivity|])
    end;
    (split; [discriminate|]); (split; [discriminate|]);
    (split; [intros; try discriminate; (left; reflexivity) || (right; reflexivity)|]);
    (split; intros; try discriminate; (left; reflexivity) || (right; reflexivity)).
Qed.

Lemma primary_cause_shape_witness :
  exists cause,
    CausalAnalyzer._generate_primary_cause "fraud_resolved" [sample_FR_002] = Ok cause /\
    PyStr.startswith "Fraud detected: " cause = true.
Proof.
  destruct (primary_cause_shape "fraud_resolved" sample_FR_002 [])
    as (cause & H & _ & _ & _ & Hf & _).
  exists cause. split; [exact H|].
  destruct (Hf eq_refl eq_refl) as [E|E]; [|exact E].
  exfalso. rewrite E in H. vm_compute in H. discriminate H.
Defined.

(* ================================================================== *)
(** * Checks on concrete inputs *)
(* ================================================================== *)

Example lower_ex : PyStr.lower "I've Been To NEW York" = "i've been to new york".
Proof. reflexivity. Qed.

Example split_ex : PyStr.split "  why did   it escalate " = ["why"; "did"; "it"; "escalate"].
Proof. reflexivity. Qed.

Example contains_ex : PyStr.contains "weeks" "for three weeks now" = true
                      /\ PyStr.contains "week s" "for three weeks now" = false
                      /\ PyStr.contains "" "" = true.
Proof. repeat split. Qed.

Example title_ex : PyStr.title "temporal" = "Temporal" /\ PyStr.of_nat 12 = "12".
Proof. split; reflexivity. Qed.

(** The literals are the correctly rounded quotients of their decimals. *)
Example literals_ex :
  PyFloat.c0_6 = PyFloat.div (PyFloat.of_nat 6) (PyFloat.of_nat 10) /\
  PyFloat.c0_05 = PyFloat.div (PyFloat.of_nat 5) (PyFloat.of_nat 100) /\
  PyFloat.c0_15 = PyFloat.div (PyFloat.of_nat 15) (PyFloat.of_nat 100) /\
  PyFloat.c0_03 = PyFloat.div (PyFloat.of_nat 3) (PyFloat.of_nat 100) /\
  PyFloat.c0_1 = PyFloat.div (PyFloat.of_nat 1) (PyFloat.of_nat 10) /\
  PyFloat.c0_95 = PyFloat.div (PyFloat.of_nat 95) (PyFloat.of_nat 100) /\
  PyFloat.c0_3 = PyFloat.div (PyFloat.of_nat 3) (PyFloat.of_nat 10).
Proof. repeat split. Qed.

(** [3 * 0.05] is above 0.15 and [5 * 0.03] is 0.15, as in Python. *)
Example products_ex :
  PyFloat.mul (PyFloat.of_nat 3) PyFloat.c0_05 = S754_finite false 5404319552844596 (-55) /\
  PyFloat.mul (PyFloat.of_nat 5) PyFloat.c0_03 = PyFloat.c0_15.
Proof. split; reflexivity. Qed.

Example search_ex :
  Re.search CausalAnalyzer.error_code_re "i see error code 3309 in your account" =
    Some {| Re.group0 := "error code 3309"; Re.groups := ["3309"] |} /\
  Re.search CausalAnalyzer.amount_re "a charge for $356.82 in new york" =
    Some {| Re.group0 := "$356.82"; Re.groups := [] |} /\
  Re.search (Re.seq [Re.lit "since"; Re.ws1; Re.Grp (Re.seq [Re.word1; Re.lit "day"])])
            "ever since last monday morning" = None /\
  Re.search (Re.seq [Re.lit "since"; Re.ws1; Re.Grp (Re.seq [Re.word1; Re.lit "day"])])
            "failing since monday morning" =
    Some {| Re.group0 := "since monday"; Re.groups := ["monday"] |}.
Proof. repeat split. Qed.

(** Loading the sample data gives the sample store. *)
Example load_sample_ex :
  exists loaded,
    Loader.load_conversations Loader.init create_sample_data = Ok (2, loaded) /\
    typed_conversations loaded =
      Some (ConversationRetriever.conversations_by_id sample_store).
Proof. eexists. split; vm_compute; reflexivity. Qed.

(** A malformed entry between two good ones is skipped. *)
Example load_skip_ex :
  exists loaded,
    Loader.load_conversations Loader.init
      (Loader.VList [raw_entry "A"; Loader.VInt 7; raw_entry "B"]) = Ok (2, loaded) /\
    map fst (Loader.conversations_by_id loaded) = [Loader.VStr "A"; Loader.VStr "B"].
Proof. eexists. split; vm_compute; reflexivity. Qed.

(** A container that cannot be iterated makes the call raise. *)
Example load_raise_ex :
  Loader.load_conversations Loader.init
    (Loader.VDict [("transcripts", Loader.VInt 5)]) = Raise TypeError.
Proof. reflexivity. Qed.

Example retrieve_sample_ex :
  ConversationRetriever.retrieve no_encode no_cos_sim sample_store
    "what was the fraud amount" 3 = ["FR-002"; "HC-001"] /\
  ConversationRetriever.retrieve no_encode no_cos_sim sample_store
    "why did the conversation escalate" 1 = ["HC-001"] /\
  ConversationRetriever.retrieve no_encode no_cos_sim sample_store "zzz" 3 =
    ["HC-001"; "FR-002"].
Proof. repeat split; vm_compute; reflexivity. Qed.

(** The sample transcript HC-001 mentions frustration, so its primary cause
    has five parts; its confidence is 0.87. *)
Example analyze_sample_ex :
  exists e after,
    CausalAnalyzer.analyze CausalAnalyzer.init "2024-01-01T00:00:00"
      "why did the conversation escalate" [sample_HC_001] true = Ok (e, after) /\
    primary_cause e =
      "Customer escalated due to: prolonged issue duration (multiple weeks); multiple failed resolution attempts; accumulated customer frustration; previous agents unable to resolve; unresolved error code 3309" /\
    supporting_factors e =
      ["Extended duration: issue persisted for weeks";
       "Multiple occurrences or attempts documented";
       "Customer expressed frustration";
       "Escalation to supervisor requested"] /\
    map fst (evidence_spans e) = [1%Z; 3%Z; 4%Z; 6%Z] /\
    confidence e = S754_finite false 7836263351624663 (-53).
Proof. do 2 eexists. split; [vm_compute; reflexivity|]. repeat split. Qed.

Example analyze_fraud_ex :
  exists e after,
    CausalAnalyzer.analyze CausalAnalyzer.init "2024-01-01T00:00:00"
      "what was the fraud amount" [sample_FR_002] true = Ok (e, after) /\
    primary_cause e =
      "Fraud detected: unauthorized charge of $356.82; transaction in New York (customer never visited); automatic fraud detection triggered; card blocked for security".
Proof. do 2 eexists. split; [vm_compute; reflexivity|]. reflexivity. Qed.

Example classify_sample_ex :
  PatternAnalyzer.classify_outcome PatternAnalyzer.init (get_full_text sample_FR_002) =
    Ok ("fraud", PyFloat.div (PyFloat.of_nat 2) (PyFloat.of_nat 5)) /\
  PatternAnalyzer.classify_outcome PatternAnalyzer.init "nothing to see" =
    Ok ("escalation", PyFloat.zero).
Proof. split; vm_compute; reflexivity. Qed.

(** Two patterns of one category both give a factor. *)
Example causal_factors_ex :
  PatternAnalyzer.extract_causal_factors PatternAnalyzer.init
    "I called 3 times since Monday, very frustrated and UPSET about error code 3309" =
  [ "Temporal: Since monday"; "Repetition: 3 previous attempts";
    "Emotional: Customer frustration"; "Emotional: Customer upset";
    "Technical: Error code 3309" ].
Proof. vm_compute. reflexivity. Qed.

(** With a backend the ranking is by similarity; when the backend raises,
    retrieval falls back to the keywords. *)
Example retrieve_semantic_ex :
  ConversationRetriever.retrieve toy_encode toy_cos_sim embedded_store "zzz" 1 = ["FR-002"] /\
  ConversationRetriever.retrieve no_encode no_cos_sim embedded_store "zzz" 1 = ["HC-001"].
Proof. split; vm_compute; reflexivity. Qed.

(** Equal scores: the ids come in insertion order, not in the order of the
    ids. *)
Example retrieve_ties_ex :
  ConversationRetriever._retrieve_keyword twin_store "fraud" 3 = ["T-2"; "T-1"] /\
  score_of twin_store "fraud" "T-2" = score_of twin_store "fraud" "T-1".
Proof. split; vm_compute; reflexivity. Qed.
